(** * Criminology: offense classification, bulk import and account recovery

    A shallow embedding of the view and model code of the [criminals] and
    [user] applications, and the properties of the specification proved (or
    refuted) against it.

    Conventions of the embedding:
    - Python [str] values are [string]s of ASCII characters; [strip], [lower]
      and [capitalize] act on the ASCII range as the Python methods do.
    - ORM tables are lists of rows in insertion order; a primary key is a
      [nat], allocated as one more than the largest key in the table.
    - [None] is [option]'s [None]; truthiness is written out where the code
      tests a value with [not] / [or] / [and].
    - Exceptions are results: a view either returns a response or raises.
    - What the code takes from its declarations and settings is written out:
      the [related_name] of the foreign key from a link to its criminal is an
      argument of the listing views ([criminal_related_name] is the one of
      models.py), and the offset of [TIME_ZONE] from UTC is an argument of
      the sweep of expired accounts. *)

From Stdlib Require Import String Ascii ZArith Lia.
From stdpp Require Import base option list gmap strings.

Open Scope string_scope.

(** ** Python string methods *)

Module PyStr.

(** [str.isspace] on one ASCII character: TAB, LF, VT, FF, CR, the four
    separators FS, GS, RS, US, and SPACE. *)
Definition isspace (c : ascii) : bool :=
  let n := nat_of_ascii c in
  ((9 <=? n)%nat && (n <=? 13)%nat) || ((28 <=? n)%nat && (n <=? 32)%nat).

Fixpoint lstrip (s : string) : string :=
  match s with
  | String c s' => if isspace c then lstrip s' else s
  | EmptyString => EmptyString
  end.

(** [rstrip]: a character is dropped when it is whitespace and everything
    after it has been dropped already. *)
Fixpoint rstrip (s : string) : string :=
  match s with
  | String c s' =>
      match rstrip s' with
      | EmptyString => if isspace c then EmptyString else String c EmptyString
      | r => String c r
      end
  | EmptyString => EmptyString
  end.

(** [s.strip()] *)
Definition strip (s : string) : string := rstrip (lstrip s).

Definition lower_char (c : ascii) : ascii :=
  let n := nat_of_ascii c in
  if ((65 <=? n)%nat && (n <=? 90)%nat) then ascii_of_nat (n + 32) else c.

Definition upper_char (c : ascii) : ascii :=
  let n := nat_of_ascii c in
  if ((97 <=? n)%nat && (n <=? 122)%nat) then ascii_of_nat (n - 32) else c.

(** [s.lower()] *)
Fixpoint lower (s : string) : string :=
  match s with
  | String c s' => String (lower_char c) (lower s')
  | EmptyString => EmptyString
  end.

(** [s.capitalize()]: first character upper-cased, the rest lower-cased. *)
Definition capitalize (s : string) : string :=
  match s with
  | String c s' => String (upper_char c) (lower s')
  | EmptyString => EmptyString
  end.

(** [s.endswith(suffix)] *)
Definition endswith (s suffix : string) : bool :=
  let n := String.length s in
  let k := String.length suffix in
  (k <=? n)%nat && bool_decide (substring (n - k) k s = suffix).

End PyStr.

(** ** Results of code that may raise *)

Inductive exn : Type :=
| KeyError (key : string)
| AttributeError (what : string)
| DoesNotExist (model : string)
| MultipleObjectsReturned (model : string)
| OtherError (what : string).

Inductive result (A : Type) : Type :=
| Ok (a : A)
| Raise (e : exn).
Arguments Ok {A} a.
Arguments Raise {A} e.

#[global] Instance exn_eq_dec : EqDecision exn.
Proof. solve_decision. Defined.

(** ** criminals/models.py *)

Module Models.

(** A calendar date, as its proleptic ordinal ([date.toordinal()]). *)
Definition date := Z.

(** A row of [Criminal]. *)
Record Criminal : Type := {
  criminal_id : nat;
  first_name : string;
  last_name : string;
  date_of_birth : option date
}.

(** A row of [FederalOffense] or of [VACodeOffense]: the two tables have the
    same columns ([CriminalOffense] is their abstract base). *)
Record CriminalOffense : Type := {
  offense_id : nat;
  offense_type : string;
  description : string;
  offense_class : string
}.

(** A row of [CriminalOffenseLink]; the three foreign keys are primary keys. *)
Record CriminalOffenseLink : Type := {
  link_id : nat;
  criminal : nat;
  federal_offense : option nat;
  vacode_offense : option nat;
  date_charged : option date;
  convicted : bool
}.

#[global] Instance Criminal_eq_dec : EqDecision Criminal.
Proof. solve_decision. Defined.
#[global] Instance CriminalOffense_eq_dec : EqDecision CriminalOffense.
Proof. solve_decision. Defined.
#[global] Instance CriminalOffenseLink_eq_dec : EqDecision CriminalOffenseLink.
Proof. solve_decision. Defined.

(** The four tables of the [criminals] application. *)
Record DB : Type := {
  criminals : list Criminal;
  federal_offenses : list CriminalOffense;
  vacode_offenses : list CriminalOffense;
  offense_links : list CriminalOffenseLink
}.

#[global] Instance DB_eq_dec : EqDecision DB.
Proof. solve_decision. Defined.

Definition empty_db : DB :=
  {| criminals := []; federal_offenses := []; vacode_offenses := [];
     offense_links := [] |}.

(** An offense instance as the ORM hands it out: its class and its row. *)
Inductive OffenseObj : Type :=
| FederalOffense (o : CriminalOffense)
| VACodeOffense (o : CriminalOffense).

#[global] Instance OffenseObj_eq_dec : EqDecision OffenseObj.
Proof. solve_decision. Defined.

Definition row (o : OffenseObj) : CriminalOffense :=
  match o with FederalOffense r | VACodeOffense r => r end.

(** The [source] property of the two offense classes. *)
Definition source (o : OffenseObj) : string :=
  match o with
  | FederalOffense _ => "federal"
  | VACodeOffense _ => "virginia"
  end.

(** A link instance with its two related offenses fetched
    ([select_related]). *)
Record LinkObj : Type := {
  link_row : CriminalOffenseLink;
  federal_offense_obj : option CriminalOffense;
  vacode_offense_obj : option CriminalOffense
}.

(** The [related_name] that the foreign key [CriminalOffenseLink.criminal]
    is declared with: models.py has
    [ForeignKey(Criminal, on_delete=models.CASCADE)], so none. *)
Definition criminal_related_name : option string := None.

(** The name under which a [Criminal] offers its links: the [related_name]
    of the foreign key when it declares one, else the name of the linking
    model in lower case followed by [_set]. *)
Definition reverse_accessor (related_name : option string) : string :=
  default "criminaloffenselink_set" related_name.

(** A criminal instance with its links fetched: its row, the name of the
    reverse accessor of its class, and what [.all()] yields on that
    accessor. *)
Record CriminalObj : Type := {
  criminal_row : Criminal;
  links_accessor : string;
  links_all : list LinkObj
}.

(** [getattr(criminal, attr).all()] for the name of a relation:
    [AttributeError] when the instance has no attribute of that name. *)
Definition related_all (attr : string) (criminal : CriminalObj)
  : result (list LinkObj) :=
  if bool_decide (attr = links_accessor criminal) then Ok (links_all criminal)
  else Raise (AttributeError attr).

Definition find_offense (t : list CriminalOffense) (pk : nat)
  : option CriminalOffense :=
  List.find (fun o => Nat.eqb (offense_id o) pk) t.

End Models.
Import Models.

(** ** criminals/views.py *)

Module Views.

(** *** Offense prioritization *)

Definition OFFENSE_PRIORITY : gmap string nat :=
  <["Felony" := 3]> (<["Misdemeanor" := 2]> (<["Infraction" := 1]> ∅)).

(** [d.get(k, dflt)] *)
Definition dict_get {V : Type} (d : gmap string V) (k : string) (dflt : V) : V :=
  default dflt (d !! k).

(** [link.federal_offense or link.vacode_offense]: a model instance is
    always truthy, so [or] yields the federal offense unless it is [None]. *)
Definition link_offense (link : LinkObj) : option OffenseObj :=
  match federal_offense_obj link with
  | Some o => Some (FederalOffense o)
  | None => VACodeOffense <$> vacode_offense_obj link
  end.

Definition score_of (offense : OffenseObj) : nat :=
  dict_get OFFENSE_PRIORITY (offense_type (row offense)) 0.

(** The loop variables [max_score], [max_source], [max_offense]. *)
Definition highest : Type := nat * option string * option OffenseObj.

(** One iteration of the [for link in links] loop. *)
Definition visit_link (acc : highest) (link : LinkObj) : highest :=
  let '(max_score, max_source, max_offense) := acc in
  match link_offense link with
  | None => acc
  | Some offense =>
      let score := score_of offense in
      if (max_score <? score)%nat
      then (score, Some (source offense), Some offense)
      else acc
  end.

(** [get_highest_offense(criminal)]; its first statement reads
    [criminal.offense_links.all()]. *)
Definition get_highest_offense (criminal : CriminalObj) : result highest :=
  match related_all "offense_links" criminal with
  | Ok links => Ok (fold_left visit_link links (0, None, None))
  | Raise e => Raise e
  end.

(** *** Viewing criminals *)

Definition fetch_link (db : DB) (l : CriminalOffenseLink) : LinkObj :=
  {| link_row := l;
     federal_offense_obj :=
       federal_offense l ≫= find_offense (federal_offenses db);
     vacode_offense_obj :=
       vacode_offense l ≫= find_offense (vacode_offenses db) |}.

(** The instance of a row of [Criminal], for a foreign key declared with
    [related_name]. *)
Definition instance (related_name : option string) (db : DB) (c : Criminal)
  : CriminalObj :=
  {| criminal_row := c;
     links_accessor := reverse_accessor related_name;
     links_all :=
       map (fetch_link db)
           (List.filter (fun l => Nat.eqb (criminal l) (criminal_id c))
                        (offense_links db)) |}.

(** [Criminal.objects.prefetch_related(Prefetch("offense_links", ...))], as
    the caller's [for] loop evaluates it, for a foreign key declared with
    [related_name]. Prefetching looks [offense_links] up on the instances
    fetched: a name that is not a relation of [Criminal] raises
    [AttributeError] as soon as the table holds a row; on an empty table
    nothing is looked up. *)
Definition get_criminals_with_offenses (related_name : option string) (db : DB)
  : result (list CriminalObj) :=
  match criminals db with
  | [] => Ok []
  | _ =>
      if bool_decide ("offense_links" = reverse_accessor related_name)
      then Ok (map (instance related_name db) (criminals db))
      else Raise (AttributeError "offense_links")
  end.

(** The labels of the [categorized] dictionary, in the order of the literal. *)
Definition category_labels : list string :=
  [ "Federal Felons"; "Federal Misdemeanors"; "Federal Infractions";
    "Virginia Felons"; "Virginia Misdemeanors"; "Virginia Infractions" ].

(** A listed criminal carries its [highest_offense] attribute. *)
Definition listed : Type := CriminalObj * OffenseObj.

Definition categorized_init : gmap string (list listed) :=
  list_to_map (map (fun label => (label, [])) category_labels).

(** [f"{source.capitalize()} {offense.offense_type}s"] *)
Definition category_key (src : string) (offense : OffenseObj) : string :=
  PyStr.capitalize src ++ " " ++ offense_type (row offense) ++ "s".

(** One iteration of [for criminal in criminals] of [view_all_criminals];
    [categorized[key]] raises [KeyError] on a key that is not in the
    dictionary. *)
Definition categorize_one (categorized : gmap string (list listed))
    (criminal : CriminalObj) : result (gmap string (list listed)) :=
  match get_highest_offense criminal with
  | Raise e => Raise e
  | Ok (_, _, None) => Ok categorized
  | Ok (_, None, Some _) => Raise (AttributeError "capitalize")
  | Ok (_, Some src, Some offense) =>
      let key := category_key src offense in
      match categorized !! key with
      | None => Raise (KeyError key)
      | Some bucket =>
          Ok (<[key := (bucket ++ [(criminal, offense)])%list]> categorized)
      end
  end.

Fixpoint categorize_loop (categorized : gmap string (list listed))
    (criminals : list CriminalObj) : result (gmap string (list listed)) :=
  match criminals with
  | [] => Ok categorized
  | criminal :: rest =>
      match categorize_one categorized criminal with
      | Ok categorized' => categorize_loop categorized' rest
      | Raise e => Raise e
      end
  end.

(** The grouping of [view_all_criminals]: the [categorized] dictionary as it
    stands when the pagination loop starts, or the exception that ends the
    request before; [related_name] is what the foreign key of the links is
    declared with. *)
Definition view_all_criminals_categorized (related_name : option string)
    (db : DB) : result (gmap string (list listed)) :=
  match get_criminals_with_offenses related_name db with
  | Ok criminals => categorize_loop categorized_init criminals
  | Raise e => Raise e
  end.

(** The buckets (labels) in which a criminal is listed. *)
Definition buckets_of (categorized : gmap string (list listed)) (pk : nat)
  : list string :=
  List.filter
    (fun label =>
       existsb (fun e : listed => Nat.eqb (criminal_id (criminal_row e.1)) pk)
               (dict_get categorized label []))
    category_labels.

End Views.
Import Views.

(** ** Requests, responses and flash messages *)

Inductive level : Type := SUCCESS | WARNING | ERROR.

(** A flash message; one built from an exception keeps the exception. *)
Inductive message : Type :=
| Msg (lvl : level) (text : string)
| MsgExn (lvl : level) (prefix : string) (e : exn).

Inductive response : Type :=
| Redirect (to : string)
| Render (template : string).

#[global] Instance level_eq_dec : EqDecision level.
Proof. solve_decision. Defined.
#[global] Instance message_eq_dec : EqDecision message.
Proof. solve_decision. Defined.
#[global] Instance response_eq_dec : EqDecision response.
Proof. solve_decision. Defined.

(** ** criminals/views.py: creating criminals *)

Module Creation.

(** What a request can change: the tables, and the flash messages queued
    for the next page (kept outside the database). *)
Record world : Type := {
  store : DB;
  messages : list message
}.

(** Code that reads and writes the world and may raise; an exception
    leaves what was written so far in place. *)
Definition M (A : Type) : Type := world -> world * result A.

Definition ret {A : Type} (a : A) : M A := fun w => (w, Ok a).

Definition raise {A : Type} (e : exn) : M A := fun w => (w, Raise e).

Definition bind {A B : Type} (m : M A) (k : A -> M B) : M B :=
  fun w =>
    match m w with
    | (w', Ok a) => k a w'
    | (w', Raise e) => (w', Raise e)
    end.

Notation "'do' x <- m ; k" := (bind m (fun x => k))
  (at level 10, x name, m at level 100, k at level 200).
Notation "'run' m ; k" := (bind m (fun _ => k))
  (at level 10, m at level 100, k at level 200).

(** [messages.success] / [messages.warning] / [messages.error] *)
Definition flash (m : message) : M unit :=
  fun w => ({| store := store w; messages := (messages w ++ [m])%list |}, Ok tt).

(** A query that writes: it maps the tables to new tables and a value. *)
Definition write {A : Type} (f : DB -> DB * A) : M A :=
  fun w =>
    let '(db, a) := f (store w) in
    ({| store := db; messages := messages w |}, Ok a).

(** [with transaction.atomic(): body]: when the body raises, the tables
    are put back as they were on entry and the exception goes on. *)
Definition transaction_atomic {A : Type} (body : M A) : M A :=
  fun w =>
    match body w with
    | (w', Ok a) => (w', Ok a)
    | (w', Raise e) =>
        ({| store := store w; messages := messages w' |}, Raise e)
    end.

(** [try: body / except Exception as e: handler(e)] *)
Definition try_except {A : Type} (body : M A) (handler : exn -> M A) : M A :=
  fun w =>
    match body w with
    | (w', Ok a) => (w', Ok a)
    | (w', Raise e) => handler e w'
    end.

(** The key of a new row: one more than the largest in the table. *)
Definition next_pk {A : Type} (pk : A -> nat) (table : list A) : nat :=
  S (foldr Nat.max 0 (map pk table)).

(** [Criminal.objects.create(first_name=fn, last_name=ln)] *)
Definition create_criminal (fn ln : string) : M Criminal :=
  write (fun db =>
    let c := {| criminal_id := next_pk criminal_id (criminals db);
                first_name := fn; last_name := ln; date_of_birth := None |} in
    ({| criminals := criminals db ++ [c];
        federal_offenses := federal_offenses db;
        vacode_offenses := vacode_offenses db;
        offense_links := offense_links db |}, c)).

Definition same_triple (otype oclass desc : string) (o : CriminalOffense)
  : bool :=
  bool_decide (offense_type o = otype)
  && bool_decide (offense_class o = oclass)
  && bool_decide (description o = desc).

(** [objects.get_or_create(offense_type=, offense_class=, description=)] on
    one offense table: the row when exactly one matches, a new row when
    none does, [MultipleObjectsReturned] when several do. *)
Definition get_or_create (model : string) (table : list CriminalOffense)
    (otype oclass desc : string)
  : result (list CriminalOffense * CriminalOffense * bool) :=
  match List.filter (same_triple otype oclass desc) table with
  | [] =>
      let o := {| offense_id := next_pk offense_id table;
                  offense_type := otype; description := desc;
                  offense_class := oclass |} in
      Ok ((table ++ [o])%list, o, true)
  | [o] => Ok (table, o, false)
  | _ => Raise (MultipleObjectsReturned model)
  end.

(** [offense_model.objects.get_or_create(...)], the model chosen by the
    caller: [FederalOffense] when [is_federal], else [VACodeOffense]. *)
Definition offense_get_or_create (is_federal : bool)
    (otype oclass desc : string) : M OffenseObj :=
  fun w =>
    let db := store w in
    if is_federal then
      match get_or_create "FederalOffense" (federal_offenses db)
              otype oclass desc with
      | Ok (t, o, _) =>
          ({| store := {| criminals := criminals db; federal_offenses := t;
                          vacode_offenses := vacode_offenses db;
                          offense_links := offense_links db |};
              messages := messages w |}, Ok (FederalOffense o))
      | Raise e => (w, Raise e)
      end
    else
      match get_or_create "VACodeOffense" (vacode_offenses db)
              otype oclass desc with
      | Ok (t, o, _) =>
          ({| store := {| criminals := criminals db;
                          federal_offenses := federal_offenses db;
                          vacode_offenses := t;
                          offense_links := offense_links db |};
              messages := messages w |}, Ok (VACodeOffense o))
      | Raise e => (w, Raise e)
      end.

(** [CriminalOffenseLink.objects.create(criminal=, federal_offense=
    offense_obj if isinstance(offense_obj, FederalOffense) else None,
    vacode_offense= ... VACodeOffense ...)] *)
Definition create_link (who : Criminal) (offense_obj : OffenseObj)
  : M CriminalOffenseLink :=
  write (fun db =>
    let l := {| link_id := next_pk link_id (offense_links db);
                criminal := criminal_id who;
                federal_offense :=
                  match offense_obj with
                  | FederalOffense o => Some (offense_id o)
                  | VACodeOffense _ => None
                  end;
                vacode_offense :=
                  match offense_obj with
                  | VACodeOffense o => Some (offense_id o)
                  | FederalOffense _ => None
                  end;
                date_charged := None; convicted := false |} in
    ({| criminals := criminals db;
        federal_offenses := federal_offenses db;
        vacode_offenses := vacode_offenses db;
        offense_links := offense_links db ++ [l] |}, l)).

(** *** [add_criminal] *)

(** The cleaned data of the two forms of a valid POST. *)
Record cleaned_data : Type := {
  form_first_name : string;
  form_last_name : string;
  form_description : string;
  form_offense_source : string;
  form_offense_type : string;
  form_offense_class : string
}.

(** The three branches of [add_criminal]: a request that is not a POST, a
    POST one of whose forms is not valid, and a POST with both forms valid,
    with their cleaned data. Which branch a request takes is for the two
    forms to say (criminals/forms.py, [form_branch] below). *)
Inductive add_request : Type :=
| AddGet
| AddPostInvalid
| AddPost (data : cleaned_data).

Definition add_criminal (request : add_request) : M response :=
  match request with
  | AddPost data =>
      do who <- create_criminal (form_first_name data) (form_last_name data) ;
      do offense_obj <- offense_get_or_create
                       (bool_decide (form_offense_source data = "federal"))
                       (form_offense_type data) (form_offense_class data)
                       (form_description data) ;
      run create_link who offense_obj ;
      run flash (Msg SUCCESS "Criminal successfully added.") ;
      ret (Redirect "home")
  | AddPostInvalid =>
      run flash (Msg ERROR "There were errors in the form.") ;
      ret (Render "criminals/add_criminal.html")
  | AddGet => ret (Render "criminals/add_criminal.html")
  end.

End Creation.
Import Creation.

(** *** [mass_add_criminals] *)

Module BulkImport.

(** What [csv.reader] yields, item by item: a row, or the exception that
    reading the next line raises. *)
Definition reader : Type := list (result (list string)).

(** An uploaded file: its name, and its content once decoded and handed to
    [csv.reader], or the exception that [read().decode("utf-8")] raises. *)
Record uploaded_file : Type := {
  name : string;
  decoded : result reader
}.

Inductive mass_request : Type :=
| MassGet
| MassPost (csv_file : option uploaded_file).

Definition expected_header : list string :=
  [ "first_name"; "last_name"; "offense_type"; "offense_class";
    "description"; "offense_source" ].

(** The variables of the row loop. *)
Record loop_state : Type := {
  current_criminal : option Criminal;
  current_name : option (string * string);
  count : nat
}.

Definition loop_init : loop_state :=
  {| current_criminal := None; current_name := None; count := 0 |}.

Definition pretty_nat (n : nat) : string := pretty.pretty n.

(** The body of [for row_num, row in enumerate(reader, start=2)]. *)
Definition process_row (row_num : nat) (row : list string)
    (st : loop_state) : M loop_state :=
  if negb (length row =? 6)%nat then
    run flash (Msg WARNING ("Skipping row " ++ pretty_nat row_num
                        ++ ": wrong number of fields.")) ;
    ret st
  else
    match map PyStr.strip row with
    | [fn; ln; otype; oclass; desc; src] =>
        let row_name := (PyStr.lower fn, PyStr.lower ln) in
        do cur <- (if decide (current_name st = Some row_name)
                then ret (current_criminal st)
                else (do c <- create_criminal fn ln ; ret (Some c))) ;
        do offense_obj <- offense_get_or_create
                         (bool_decide (PyStr.lower src = "federal"))
                         otype oclass desc ;
        match cur with
        | Some who =>
            run create_link who offense_obj ;
            ret {| current_criminal := cur;
                   current_name := Some row_name;
                   count := S (count st) |}
        | None => raise (OtherError "IntegrityError")
        end
    | _ => raise (OtherError "ValueError")
    end.

(** The row loop: it ends at the first item the reader fails to yield and
    at the first row whose processing raises. *)
Fixpoint process_rows (row_num : nat) (items : reader) (st : loop_state)
  : M loop_state :=
  match items with
  | [] => ret st
  | Raise e :: _ => raise e
  | Ok row :: rest =>
      do st' <- process_row row_num row st ;
      process_rows (S row_num) rest st'
  end.

(** [header = next(reader, None)] *)
Definition next_header (items : reader) : M (option (list string)) :=
  match items with
  | [] => ret None
  | Ok h :: _ => ret (Some h)
  | Raise e :: _ => raise e
  end.

(** [not header or [h.strip().lower() for h in header] != expected_header] *)
Definition header_rejected (header : option (list string)) : bool :=
  match header with
  | None | Some [] => true
  | Some h =>
      negb (bool_decide
              (map (fun x => PyStr.lower (PyStr.strip x)) h = expected_header))
  end.

Definition decode (f : uploaded_file) : M reader :=
  match decoded f with
  | Ok items => ret items
  | Raise e => raise e
  end.

Definition mass_add_criminals (request : mass_request) : M response :=
  match request with
  | MassPost (Some csv_file) =>
      if bool_decide (name csv_file = "") then
        ret (Render "criminals/mass_add_criminals.html")
      else if negb (PyStr.endswith (name csv_file) ".csv") then
        run flash (Msg ERROR "Please upload a valid .csv file.") ;
        ret (Redirect "mass_add_criminals")
      else
        try_except
          (do items <- decode csv_file ;
           do header <- next_header items ;
           if header_rejected header then
             run flash (Msg ERROR
                      ("Invalid CSV header. Expected: "
                       ++ String.concat "," expected_header)) ;
             ret (Redirect "mass_add_criminals")
           else
             do st <- transaction_atomic
                     (process_rows 2 (tail items) loop_init) ;
             run flash (Msg SUCCESS
                      ("Successfully added " ++ pretty_nat (count st)
                       ++ " offense records.")) ;
             ret (Redirect "mass_add"))
          (fun e =>
             run flash (MsgExn ERROR "Error processing file: " e) ;
             ret (Redirect "mass_add"))
  | MassPost None | MassGet =>
      ret (Render "criminals/mass_add_criminals.html")
  end.

End BulkImport.
Import BulkImport.

(** ** user/models.py *)

Module Accounts.

(** Python values that the session holds and that this code returns. *)
Inductive pyval : Type :=
| PyNone
| PyBool (b : bool)
| PyInt (n : nat)
| PyStr (s : string).

#[global] Instance pyval_eq_dec : EqDecision pyval.
Proof. solve_decision. Defined.

(** Truth value testing: [None], [False], [0] and [""] are false. *)
Definition truthy (v : pyval) : bool :=
  match v with
  | PyNone => false
  | PyBool b => b
  | PyInt n => negb (n =? 0)%nat
  | PyStr s => negb (bool_decide (s = ""))
  end.

(** [django.contrib.auth.hashers]: [make_password] draws a salt; a password
    checks against an encoded one exactly when it is the one encoded. *)
Class Hashers : Type := {
  encoded : Type;
  make_password : string -> string -> encoded;
  verify : string -> encoded -> bool;
  verify_make_password :
    forall salt raw raw',
      verify raw (make_password salt raw') = true <-> raw = raw'
}.

(** [check_password(password, encoded)]: [False] for a missing password and
    for a missing or unusable encoded one. *)
Definition check_password `{Hashers} (password : option string)
    (stored : option encoded) : bool :=
  match password, stored with
  | Some raw, Some e => verify raw e
  | _, _ => false
  end.

(** A row of [CustomUser] ([AbstractUser] with four more columns). The
    password is [None] when unusable; the two security columns and the
    expiration date are nullable. *)
Record CustomUser `{Hashers} : Type := {
  id : nat;
  username : string;
  email : string;
  password : option encoded;
  is_staff : bool;
  is_superuser : bool;
  first_login : bool;
  security_question : option string;
  security_answer : option encoded;
  expiration_date : option date
}.

Section Methods.
Context `{Hashers}.

(** [user.is_expired()], as [timezone.now().date()] is [today]:
    [self.expiration_date and today > self.expiration_date]. The [and]
    yields its left operand when that is false, here [None]. *)
Definition is_expired (today : date) (self : CustomUser) : pyval :=
  match expiration_date self with
  | None => PyNone
  | Some d => PyBool (d <? today)%Z
  end.

(** [user.set_security_answer(raw_answer)] *)
Definition set_security_answer (salt raw_answer : string)
    (self : CustomUser) : CustomUser :=
  {| id := id self; username := username self; email := email self;
     password := password self; is_staff := is_staff self;
     is_superuser := is_superuser self; first_login := first_login self;
     security_question := security_question self;
     security_answer := Some (make_password salt raw_answer);
     expiration_date := expiration_date self |}.

(** [user.check_security_answer(raw_answer)] *)
Definition check_security_answer (raw_answer : option string)
    (self : CustomUser) : bool :=
  check_password raw_answer (security_answer self).

(** [user.set_password(raw_password)]; [None] sets an unusable one. *)
Definition set_password (salt : string) (raw_password : option string)
    (self : CustomUser) : CustomUser :=
  {| id := id self; username := username self; email := email self;
     password := make_password salt <$> raw_password;
     is_staff := is_staff self;
     is_superuser := is_superuser self; first_login := first_login self;
     security_question := security_question self;
     security_answer := security_answer self;
     expiration_date := expiration_date self |}.

(** [user.save()]: the row with the instance's key is replaced. *)
Definition save (self : CustomUser) (users : list CustomUser)
  : list CustomUser :=
  map (fun u => if (id u =? id self)%nat then self else u) users.

(** [User.objects.get(...)] for a filter [p]. *)
Definition objects_get (p : CustomUser -> bool) (users : list CustomUser)
  : result CustomUser :=
  match List.filter p users with
  | [] => Raise (DoesNotExist "User")
  | [u] => Ok u
  | _ => Raise (MultipleObjectsReturned "User")
  end.

(** *** user/tasks.py *)

(** [timezone.now()], an aware datetime in UTC: its date, and the second of
    that day. *)
Record datetime : Type := {
  datetime_date : date;
  second_of_day : Z
}.

(** [timezone.make_naive(value, default_timezone).date()]: the date at that
    time in the default time zone, [TIME_ZONE = "America/New_York"] with
    [USE_TZ = True], a zone that is [utcoffset] seconds ahead of UTC then
    (-18000 in winter, -14400 in summer). *)
Definition local_date (utcoffset : Z) (value : datetime) : date :=
  (datetime_date value + (second_of_day value + utcoffset) / 86400)%Z.

(** [expiration_date__lte=now]: the column is a date, so the lookup turns
    the time into a date, the one of the default time zone; a null column
    matches nothing. *)
Definition expiration_date_lte (utcoffset : Z) (now : datetime)
    (u : CustomUser) : bool :=
  match expiration_date u with
  | Some d => (d <=? local_date utcoffset now)%Z
  | None => false
  end.

(** [delete_expired_users()], run at time [now]: the table afterwards and
    the value returned. *)
Definition delete_expired_users (utcoffset : Z) (now : datetime)
    (users : list CustomUser) : list CustomUser * pyval :=
  let expired_users := expiration_date_lte utcoffset now in
  let count := length (List.filter expired_users users) in
  let users' :=
    if negb (count =? 0)%nat
    then List.filter (fun u => negb (expired_users u)) users
    else users in
  (users', PyStr ("Deleted " ++ pretty.pretty count ++ " expired users.")).

End Methods.

End Accounts.
Import Accounts.

(** ** user/views.py: account recovery

    The three views are embedded below their [ratelimit] decorator: a request
    that the limiter lets through. *)

Module Recovery.

(** [validate_password(password, user)] ends in one of three ways: it
    returns, it raises [ValidationError] with its messages, or a validator
    raises something else (as on a password that is [None]). *)
Inductive validation : Type :=
| Valid
| ValidationError (msgs : list string)
| ValidatorRaises (e : exn).

(** The validators configured in [AUTH_PASSWORD_VALIDATORS]. *)
Class PasswordPolicy `{Hashers} : Type :=
  validate_password : option string -> CustomUser -> validation.

Inductive method : Type := GET | POST.

(** A request to one of the three recovery views: the method, the form
    fields, and the salt that hashing a password would draw. *)
Record request : Type := {
  http_method : method;
  post_data : gmap string string;
  salt : string
}.

Section Views.
Context `{Hashers} `{!PasswordPolicy}.

(** What the recovery views read and write: the user table, the session
    of the client, and the flash messages. [set_expiry] keeps its value
    in the session under [_session_expiry]. *)
Record state : Type := {
  users : list CustomUser;
  session : gmap string pyval;
  flashes : list message
}.

(** [request.session.get(key)] *)
Definition session_get (st : state) (key : string) : pyval :=
  default PyNone (session st !! key).

Definition flash_error (text : string) (st : state) : state :=
  {| users := users st; session := session st;
     flashes := flashes st ++ [Msg ERROR text] |}.

Definition pyval_of_text (o : option string) : pyval :=
  match o with Some s => PyStr s | None => PyNone end.

(** [User.objects.get(id=user_id)] for a value taken from the session. *)
Definition get_by_id (user_id : pyval) (table : list CustomUser)
  : result CustomUser :=
  match user_id with
  | PyInt n => objects_get (fun u => (id u =? n)%nat) table
  | _ => Raise (OtherError "ValueError")
  end.

Definition account_recovery_step1 (req : request) (st : state)
  : state * result response :=
  match http_method req with
  | POST =>
      let username_ := post_data req !! "username" in
      let email_ := post_data req !! "email" in
      match objects_get
              (fun u => bool_decide (Some (username u) = username_)
                        && bool_decide (Some (email u) = email_))
              (users st) with
      | Ok user =>
          ({| users := users st;
              session :=
                <["_session_expiry" := PyInt 600]>
                  (<["security_question" :=
                       pyval_of_text (security_question user)]>
                     (<["recovery_user_id" := PyInt (id user)]>
                        (session st)));
              flashes := flashes st |},
           Ok (Redirect "account_recovery_step2"))
      | Raise (DoesNotExist _) =>
          (flash_error "User with that username and email does not exist." st,
           Ok (Render "users/account_recovery_step1.html"))
      | Raise e => (st, Raise e)
      end
  | GET => (st, Ok (Render "users/account_recovery_step1.html"))
  end.

Definition account_recovery_step2 (req : request) (st : state)
  : state * result response :=
  let user_id := session_get st "recovery_user_id" in
  let question := session_get st "security_question" in
  if negb (truthy user_id) || negb (truthy question) then
    (flash_error "Session expired or invalid. Please start over." st,
     Ok (Redirect "account_recovery_step1"))
  else
    match http_method req with
    | POST =>
        let answer := post_data req !! "security_answer" in
        match get_by_id user_id (users st) with
        | Ok user =>
            match answer with
            | None => (st, Raise (AttributeError "strip"))
            | Some a =>
                if check_password (Some (PyStr.strip a))
                                  (security_answer user)
                then (st, Ok (Redirect "account_recovery_step3"))
                else (flash_error "Incorrect security answer." st,
                      Ok (Render "users/account_recovery_step2.html"))
            end
        | Raise (DoesNotExist _) =>
            (flash_error "User does not exist." st,
             Ok (Redirect "account_recovery_step1"))
        | Raise e => (st, Raise e)
        end
    | GET => (st, Ok (Render "users/account_recovery_step2.html"))
    end.

Definition account_recovery_step3 (req : request) (st : state)
  : state * result response :=
  let user_id := session_get st "recovery_user_id" in
  if negb (truthy user_id) then
    (flash_error "Session expired or invalid. Please start over." st,
     Ok (Redirect "account_recovery_step1"))
  else
    match http_method req with
    | POST =>
        let new_password := post_data req !! "new_password" in
        let new_password_confirm := post_data req !! "new_password_confirm" in
        if negb (bool_decide (new_password = new_password_confirm)) then
          (flash_error "Passwords do not match." st,
           Ok (Render "users/account_recovery_step3.html"))
        else
          match get_by_id user_id (users st) with
          | Ok user =>
              match validate_password new_password user with
              | ValidationError msgs =>
                  (flash_error ("Password validation error: "
                                ++ String.concat "; " msgs) st,
                   Ok (Render "users/account_recovery_step3.html"))
              | ValidatorRaises e => (st, Raise e)
              | Valid =>
                  ({| users :=
                        save (set_password (salt req) new_password user)
                             (users st);
                      session := ∅;
                      flashes :=
                        flashes st ++
                        [Msg SUCCESS
                           "Password reset successful. You can now log in."]
                    |},
                   Ok (Redirect "login"))
              end
          | Raise (DoesNotExist _) =>
              (flash_error "User does not exist." st,
               Ok (Redirect "account_recovery_step1"))
          | Raise e => (st, Raise e)
          end
    | GET => (st, Ok (Render "users/account_recovery_step3.html"))
    end.

(** The recovery flow as the client drives it: each request goes to one
    of the three views, on the state the previous one left. A request
    that raises leaves the state as the view left it. *)
Inductive step : Type := Step1 | Step2 | Step3.

Definition serve (st : state) (r : step * request) : state * result response :=
  match r.1 with
  | Step1 => account_recovery_step1 r.2 st
  | Step2 => account_recovery_step2 r.2 st
  | Step3 => account_recovery_step3 r.2 st
  end.

Fixpoint serve_all (st : state) (rs : list (step * request))
  : state * list (result response) :=
  match rs with
  | [] => (st, [])
  | r :: rest =>
      let '(st1, resp) := serve st r in
      let '(st2, resps) := serve_all st1 rest in
      (st2, resp :: resps)
  end.

End Views.

End Recovery.
Import Recovery.

(** ** Instances used to run the account code on concrete inputs *)

Module Reference.

(** An ideal hasher: the encoded form keeps the salt and the password. *)
Definition plain_make_password (salt raw : string) : string * string :=
  (salt, raw).

Definition plain_verify (raw : string) (e : string * string) : bool :=
  bool_decide (raw = e.2).

Lemma plain_verify_make_password salt raw raw' :
  plain_verify raw (plain_make_password salt raw') = true <-> raw = raw'.
Proof. unfold plain_verify, plain_make_password; simpl. apply bool_decide_eq_true. Qed.

#[export] Instance plain_hashers : Hashers :=
  {| encoded := string * string;
     make_password := plain_make_password;
     verify := plain_verify;
     verify_make_password := plain_verify_make_password |}.

Definition isdigit (c : ascii) : bool :=
  let n := nat_of_ascii c in (48 <=? n)%nat && (n <=? 57)%nat.

Fixpoint all_digits (s : string) : bool :=
  match s with
  | String c s' => isdigit c && all_digits s'
  | EmptyString => true
  end.

(** Two of the configured validators, [MinimumLengthValidator] (eight
    characters) and [NumericPasswordValidator]; a missing password makes
    the first one raise [TypeError]. *)
#[export] Instance length_and_numeric_policy : PasswordPolicy :=
  fun password _ =>
    match password with
    | None => ValidatorRaises (OtherError "TypeError")
    | Some p =>
        match
          (if (String.length p <? 8)%nat
           then ["This password is too short. It must contain at least 8 characters."]
           else []) ++
          (if all_digits p then ["This password is entirely numeric."] else [])
        with
        | [] => Valid
        | msgs => ValidationError msgs
        end
    end%list.

End Reference.

(** * Properties *)

(** ** Offense prioritization *)

Section Prioritization.

Lemma score_Felony : dict_get OFFENSE_PRIORITY "Felony" 0 = 3.
Proof. reflexivity. Qed.

Lemma score_Misdemeanor : dict_get OFFENSE_PRIORITY "Misdemeanor" 0 = 2.
Proof. reflexivity. Qed.

Lemma score_Infraction : dict_get OFFENSE_PRIORITY "Infraction" 0 = 1.
Proof. reflexivity. Qed.

Lemma score_other (t : string) :
  t ≠ "Felony" -> t ≠ "Misdemeanor" -> t ≠ "Infraction" ->
  dict_get OFFENSE_PRIORITY t 0 = 0.
Proof.
  intros H1 H2 H3. unfold dict_get, OFFENSE_PRIORITY.
  rewrite !lookup_insert_ne by congruence. by rewrite lookup_empty.
Qed.

(** A positive score is the score of one of the three named types. *)
Lemma score_positive (t : string) :
  0 < dict_get OFFENSE_PRIORITY t 0 ->
  t = "Felony" \/ t = "Misdemeanor" \/ t = "Infraction".
Proof.
  intros Hpos.
  destruct (decide (t = "Felony")); [by left|].
  destruct (decide (t = "Misdemeanor")); [by right; left|].
  destruct (decide (t = "Infraction")); [by right; right|].
  rewrite score_other in Hpos by done. lia.
Qed.

(** What the loop variables say about the links visited so far: either no
    offense was selected and every linked offense scored 0, or the selected
    offense is that of the first link reaching the maximal score. *)
Definition selects (visited : list LinkObj) (acc : highest) : Prop :=
  match acc with
  | (max_score, max_source, Some offense) =>
      0 < max_score /\ max_source = Some (source offense) /\
      exists before link after,
        visited = (before ++ link :: after)%list /\
        link_offense link = Some offense /\
        score_of offense = max_score /\
        (forall l o, l ∈ before -> link_offense l = Some o ->
                     score_of o < max_score) /\
        (forall l o, l ∈ after -> link_offense l = Some o ->
                     score_of o <= max_score)
  | (max_score, max_source, None) =>
      max_score = 0 /\ max_source = None /\
      forall l o, l ∈ visited -> link_offense l = Some o -> score_of o = 0
  end.

Lemma selects_visit (visited : list LinkObj) (acc : highest) (link : LinkObj) :
  selects visited acc -> selects (visited ++ [link]) (visit_link acc link).
Proof.
  destruct acc as [[m src] [o|]]; simpl; intros Hsel.
  - destruct Hsel as (Hpos & Hsrc & before & l0 & after & -> & Hl0 & Hsc & Hb & Ha).
    destruct (link_offense link) as [offense|] eqn:Hlink.
    + destruct (Nat.ltb_spec m (score_of offense)) as [Hlt|Hge].
      * split; [lia|]. split; [done|].
        exists (before ++ l0 :: after)%list, link, []. 
        split; [done|]. split; [done|]. split; [done|]. split.
        -- intros l o' Hin Ho'. apply elem_of_app in Hin as [Hin|Hin].
           ++ specialize (Hb _ _ Hin Ho'). lia.
           ++ apply elem_of_cons in Hin as [->|Hin].
              ** rewrite Hl0 in Ho'. injection Ho' as <-. lia.
              ** specialize (Ha _ _ Hin Ho'). lia.
        -- intros l o' Hin. by apply elem_of_nil in Hin.
      * split; [done|]. split; [done|].
        exists before, l0, (after ++ [link])%list.
        split; [by rewrite <- app_assoc|]. split; [done|]. split; [done|].
        split; [done|].
        intros l o' Hin Ho'. apply elem_of_app in Hin as [Hin|Hin].
        -- by eapply Ha.
        -- apply list_elem_of_singleton in Hin as ->.
           rewrite Hlink in Ho'. injection Ho' as <-. lia.
    + split; [done|]. split; [done|].
      exists before, l0, (after ++ [link])%list.
      split; [by rewrite <- app_assoc|]. split; [done|]. split; [done|].
      split; [done|].
      intros l o' Hin Ho'. apply elem_of_app in Hin as [Hin|Hin].
      -- by eapply Ha.
      -- apply list_elem_of_singleton in Hin as ->. congruence.
  - destruct Hsel as (-> & -> & Hall).
    destruct (link_offense link) as [offense|] eqn:Hlink.
    + destruct (Nat.ltb_spec 0 (score_of offense)) as [Hlt|Hge].
      * split; [done|]. split; [done|].
        exists visited, link, []. rewrite Hlink.
        split; [done|]. split; [done|]. split; [done|]. split.
        -- intros l o' Hin Ho'. rewrite (Hall _ _ Hin Ho'). done.
        -- intros l o' Hin. by apply elem_of_nil in Hin.
      * split; [done|]. split; [done|].
        intros l o' Hin Ho'. apply elem_of_app in Hin as [Hin|Hin].
        -- by eapply Hall.
        -- apply list_elem_of_singleton in Hin as ->.
           rewrite Hlink in Ho'. injection Ho' as <-. lia.
    + split; [done|]. split; [done|].
      intros l o' Hin Ho'. apply elem_of_app in Hin as [Hin|Hin].
      -- by eapply Hall.
      -- apply list_elem_of_singleton in Hin as ->. congruence.
Qed.

Lemma selects_fold (links visited : list LinkObj) (acc : highest) :
  selects visited acc ->
  selects (visited ++ links) (fold_left visit_link links acc).
Proof.
  revert visited acc.
  induction links as [|link links IH]; intros visited acc Hsel; simpl.
  - by rewrite app_nil_r.
  - replace (visited ++ link :: links)%list
      with ((visited ++ [link]) ++ links)%list by by rewrite <- app_assoc.
    apply IH. by apply selects_visit.
Qed.

(** The priority of an offense type, in the words of the spec: Felony 3,
    Misdemeanor 2, Infraction 1, any other type 0. *)
Definition spec_priority (type_name : string) : nat :=
  if bool_decide (type_name = "Felony") then 3
  else if bool_decide (type_name = "Misdemeanor") then 2
  else if bool_decide (type_name = "Infraction") then 1
  else 0.

(** The offense attached to a link: its federal offense when it has one,
    else its state offense. *)
Definition attached (link : LinkObj) (offense : OffenseObj) : Prop :=
  (exists r, federal_offense_obj link = Some r /\ offense = FederalOffense r)
  \/ (federal_offense_obj link = None
      /\ exists r, vacode_offense_obj link = Some r /\ offense = VACodeOffense r).

(** What the claim asks of the result, for the links of a person in
    iteration order: the offense of the first link among those whose offense
    has the maximal priority, with that priority and the jurisdiction of that
    offense; an offense of priority 0 is never selected, and when no attached
    offense has a priority above 0 the result is score 0 with no source and
    no offense. *)
Definition first_maximal (links : list LinkObj) (found : highest) : Prop :=
  match found with
  | (max_score, max_source, Some offense) =>
      0 < max_score
      /\ max_score = spec_priority (offense_type (row offense))
      /\ max_source = Some (source offense)
      /\ exists before link after,
           links = (before ++ link :: after)%list
           /\ attached link offense
           /\ (forall l o, l ∈ before -> attached l o ->
                           spec_priority (offense_type (row o)) < max_score)
           /\ (forall l o, l ∈ after -> attached l o ->
                           spec_priority (offense_type (row o)) <= max_score)
  | (max_score, max_source, None) =>
      max_score = 0 /\ max_source = None
      /\ forall l o, l ∈ links -> attached l o ->
                     spec_priority (offense_type (row o)) = 0
  end.

Lemma score_of_spec_priority (offense : OffenseObj) :
  score_of offense = spec_priority (offense_type (row offense)).
Proof.
  unfold score_of, spec_priority.
  destruct (bool_decide (offense_type (row offense) = "Felony")) eqn:H3.
  { apply bool_decide_eq_true in H3. by rewrite H3. }
  destruct (bool_decide (offense_type (row offense) = "Misdemeanor")) eqn:H2.
  { apply bool_decide_eq_true in H2. by rewrite H2. }
  destruct (bool_decide (offense_type (row offense) = "Infraction")) eqn:H1.
  { apply bool_decide_eq_true in H1. by rewrite H1. }
  apply bool_decide_eq_false in H3, H2, H1. by apply score_other.
Qed.

Lemma link_offense_attached (link : LinkObj) (offense : OffenseObj) :
  link_offense link = Some offense <-> attached link offense.
Proof.
  unfold link_offense, attached.
  destruct (federal_offense_obj link) as [r|]; simpl.
  - split.
    + intros [= <-]. left. by exists r.
    + intros [(r' & [= <-] & ->)|[[=] _]]. done.
  - destruct (vacode_offense_obj link) as [r|]; simpl.
    + split.
      * intros [= <-]. right. split; [done|]. by exists r.
      * intros [(r' & [=] & _)|(_ & r' & [= <-] & ->)]. done.
    + split; [done|].
      by intros [(r' & [=] & _)|(_ & r' & [=] & _)].
Qed.

Lemma selects_first_maximal (links : list LinkObj) (found : highest) :
  selects links found -> first_maximal links found.
Proof.
  destruct found as [[max_score max_source] [offense|]]; simpl.
  - intros (Hpos & Hsrc & before & link & after & -> & Hlink & Hscore & Hb & Ha).
    split; [done|]. split; [by rewrite <- score_of_spec_priority|].
    split; [done|]. exists before, link, after.
    split; [done|]. split; [by apply link_offense_attached|]. split.
    + intros l o Hl Ho. rewrite <- score_of_spec_priority.
      apply (Hb l o Hl). by apply link_offense_attached.
    + intros l o Hl Ho. rewrite <- score_of_spec_priority.
      apply (Ha l o Hl). by apply link_offense_attached.
  - intros (Hscore & Hsrc & Hall). split; [done|]. split; [done|].
    intros l o Hl Ho. rewrite <- score_of_spec_priority.
    apply (Hall l o Hl). by apply link_offense_attached.
Qed.

(** C2 (the code departs from it): [get_highest_offense] starts by reading
    [criminal.offense_links], a relation that models.py does not declare, so
    for every stored person it raises [AttributeError] and selects nothing.
    The loop that follows does what the claim says: were the foreign key
    declared with [related_name="offense_links"], the result would be the
    offense of the first link reaching the maximal priority (Felony 3,
    Misdemeanor 2, Infraction 1, any other type 0 and never selected). *)
Theorem get_highest_offense_raises_AttributeError (db : DB) (c : Criminal) :
  get_highest_offense (instance criminal_related_name db c)
  = Raise (AttributeError "offense_links")
  /\ exists found,
       get_highest_offense (instance (Some "offense_links") db c) = Ok found
       /\ first_maximal (links_all (instance (Some "offense_links") db c)) found.
Proof.
  split; [reflexivity|].
  eexists. split; [reflexivity|].
  apply selects_first_maximal.
  apply (selects_fold (links_all (instance (Some "offense_links") db c)) []
                      (0, None, None)).
  simpl. split; [done|]. split; [done|].
  intros l o Hin. by apply elem_of_nil in Hin.
Qed.

End Prioritization.

(** ** The six-bucket grouping *)

Section Grouping.

(** Jane Smith, linked to a federal felony and to a state misdemeanor. *)
Definition jane_smith_db : DB :=
  {| criminals :=
       [ {| criminal_id := 1; first_name := "Jane"; last_name := "Smith";
            date_of_birth := None |} ];
     federal_offenses :=
       [ {| offense_id := 1; offense_type := "Felony";
            description := "Fraud"; offense_class := "B" |} ];
     vacode_offenses :=
       [ {| offense_id := 1; offense_type := "Misdemeanor";
            description := "Petty theft"; offense_class := "2" |} ];
     offense_links :=
       [ {| link_id := 1; criminal := 1; federal_offense := Some 1;
            vacode_offense := None; date_charged := None; convicted := false |};
         {| link_id := 2; criminal := 1; federal_offense := None;
            vacode_offense := Some 1; date_charged := None; convicted := false |} ]
  |}.

(** The key computed for a felony ends in "Felonys": it is none of the six
    labels. *)
Lemma category_key_Felony (src : string) (offense : OffenseObj) :
  offense_type (row offense) = "Felony" ->
  category_key src offense ∉ category_labels.
Proof.
  intros Hty Hin. unfold category_key in Hin. rewrite Hty in Hin.
  assert (Hsuffix : forall a b : string,
             String.length (a ++ b) = String.length a + String.length b).
  { induction a as [|c a IH]; intros b; simpl; [done|]. by rewrite IH. }
  assert (Hlast : forall a : string,
             substring (String.length a) 8 (a ++ " Felonys") = " Felonys").
  { induction a as [|c a IH]; simpl; [done|]. apply IH. }
  assert (Hcheck : forall a l : string,
             a ++ " Felonys" = l ->
             8 <= String.length l /\
             substring (String.length l - 8) 8 l = " Felonys").
  { intros a l <-. rewrite Hsuffix. simpl. split; [lia|].
    replace (String.length a + 8 - 8) with (String.length a) by lia.
    apply Hlast. }
  unfold category_labels in Hin.
  repeat (apply elem_of_cons in Hin as [Hin|Hin];
          [apply Hcheck in Hin as [_ Hin]; vm_compute in Hin; discriminate|]).
  by apply elem_of_nil in Hin.
Qed.

(** A criminal whose highest offense is a felony makes the grouping loop
    raise [KeyError], whatever was grouped before. *)
Lemma categorize_one_Felony (categorized : gmap string (list listed))
    (who : CriminalObj) (score : nat) (src : string) (offense : OffenseObj) :
  dom categorized = list_to_set category_labels ->
  get_highest_offense who = Ok (score, Some src, Some offense) ->
  offense_type (row offense) = "Felony" ->
  categorize_one categorized who = Raise (KeyError (category_key src offense)).
Proof.
  unfold listed. intros Hdom Hhigh Hty.
  unfold categorize_one, listed. rewrite Hhigh. cbv zeta.
  destruct (_ !! _) as [bucket|] eqn:Hbucket; [exfalso|done].
  apply elem_of_dom_2 in Hbucket. rewrite Hdom in Hbucket.
  apply elem_of_list_to_set in Hbucket. by eapply category_key_Felony.
Qed.

(** C1 (the code departs from it): Jane Smith, linked to a federal felony
    and a state misdemeanor, is never listed under "Federal Felons". With the
    relation [offense_links] declared as the views expect,
    [get_highest_offense] selects the federal felony, the key built from it
    is "Federal Felonys", which is not a key of [categorized], and the
    grouping of [view_all_criminals] raises [KeyError]. With the foreign key
    as models.py declares it, the view fails before that: fetching the
    persons raises [AttributeError]. *)
Theorem view_all_criminals_Jane_Smith_KeyError :
  (exists who offense,
     get_criminals_with_offenses (Some "offense_links") jane_smith_db = Ok [who] /\
     get_highest_offense who
     = Ok (3, Some "federal", Some (FederalOffense offense)) /\
     offense_type offense = "Felony" /\
     category_key "federal" (FederalOffense offense) = "Federal Felonys") /\
  ("Federal Felons" ∈ category_labels) /\
  ("Federal Felonys" ∉ category_labels) /\
  view_all_criminals_categorized (Some "offense_links") jane_smith_db
  = Raise (KeyError "Federal Felonys") /\
  view_all_criminals_categorized criminal_related_name jane_smith_db
  = Raise (AttributeError "offense_links").
Proof.
  split; [|split; [|split; [|split]]].
  - eexists _, _. repeat split; reflexivity.
  - set_solver.
  - intros Hin. unfold category_labels in Hin.
    repeat (apply elem_of_cons in Hin as [Hin|Hin]; [discriminate|]).
    by apply elem_of_nil in Hin.
  - vm_compute. reflexivity.
  - vm_compute. reflexivity.
Qed.

(** A criminal without a linked offense is skipped: the dictionary stays as
    it is. *)
Lemma categorize_one_no_offense (categorized : gmap string (list listed))
    (who : CriminalObj) (score : nat) (src : option string) :
  get_highest_offense who = Ok (score, src, None) ->
  categorize_one categorized who = Ok categorized.
Proof.
  intros Hhigh. unfold categorize_one. rewrite Hhigh. by destruct src.
Qed.

(** With the relation declared and no felony involved the grouping works: a
    person linked to a federal misdemeanor and a state infraction is listed
    under "Federal Misdemeanors" only, and a person without offense
    nowhere. *)
Example misdemeanant_listed_once :
  let db :=
    {| criminals :=
         [ {| criminal_id := 1; first_name := "Jake"; last_name := "Long";
              date_of_birth := None |};
           {| criminal_id := 2; first_name := "Mary"; last_name := "Major";
              date_of_birth := None |} ];
       federal_offenses :=
         [ {| offense_id := 1; offense_type := "Misdemeanor";
              description := "Public intoxication"; offense_class := "C" |} ];
       vacode_offenses :=
         [ {| offense_id := 1; offense_type := "Infraction";
              description := "Littering"; offense_class := "NA" |} ];
       offense_links :=
         [ {| link_id := 1; criminal := 1; federal_offense := None;
              vacode_offense := Some 1; date_charged := None; convicted := false |};
           {| link_id := 2; criminal := 1; federal_offense := Some 1;
              vacode_offense := None; date_charged := None; convicted := true |};
           {| link_id := 3; criminal := 2; federal_offense := None;
              vacode_offense := None; date_charged := None; convicted := false |} ]
    |} in
  match view_all_criminals_categorized (Some "offense_links") db with
  | Ok categorized =>
      buckets_of categorized 1 = ["Federal Misdemeanors"]
      /\ buckets_of categorized 2 = []
  | Raise _ => False
  end.
Proof. vm_compute. split; reflexivity. Qed.

End Grouping.

(** ** Offense creation *)

Section OffenseCreation.

(** The table of one jurisdiction, the instance built from one of its rows,
    and the foreign key of a link into it. *)
Definition offense_table (is_federal : bool) (db : DB) : list CriminalOffense :=
  if is_federal then federal_offenses db else vacode_offenses db.

Definition offense_obj (is_federal : bool) (o : CriminalOffense) : OffenseObj :=
  if is_federal then FederalOffense o else VACodeOffense o.

Definition link_reference (is_federal : bool) (l : CriminalOffenseLink)
  : option nat :=
  if is_federal then federal_offense l else vacode_offense l.

(** The stored rows with a given (type, class, description). *)
Definition matching (otype oclass desc : string) (table : list CriminalOffense)
  : list CriminalOffense :=
  List.filter (same_triple otype oclass desc) table.

(** No triple is stored twice. *)
Definition deduplicated (table : list CriminalOffense) : Prop :=
  forall otype oclass desc, length (matching otype oclass desc table) <= 1.

Lemma same_triple_true otype oclass desc o :
  same_triple otype oclass desc o = true <->
  offense_type o = otype /\ offense_class o = oclass /\ description o = desc.
Proof.
  unfold same_triple. rewrite !andb_true_iff, !bool_decide_eq_true. tauto.
Qed.

Lemma matching_app otype oclass desc t1 t2 :
  matching otype oclass desc (t1 ++ t2)
  = (matching otype oclass desc t1 ++ matching otype oclass desc t2)%list.
Proof. unfold matching. apply List.filter_app. Qed.

Lemma get_or_create_ok model table otype oclass desc :
  length (matching otype oclass desc table) <= 1 ->
  exists table' o created,
    get_or_create model table otype oclass desc = Ok (table', o, created)
    /\ matching otype oclass desc table' = [o]
    /\ (deduplicated table -> deduplicated table')
    /\ (forall o0, matching otype oclass desc table = [o0] ->
                   o = o0 /\ table' = table).
Proof.
  intros Hle. unfold get_or_create. fold (matching otype oclass desc table).
  destruct (matching otype oclass desc table) as [|o [|o' rest]] eqn:Hm.
  - eexists _, _, _. split; [reflexivity|]. split; [|split].
    + rewrite matching_app, Hm. simpl.
      unfold matching. simpl.
      replace (same_triple otype oclass desc _) with true; [done|].
      symmetry. by apply same_triple_true.
    + intros Hdedup ty cls d. rewrite matching_app, length_app.
      unfold matching at 2. simpl.
      destruct (same_triple ty cls d _) eqn:Hsame; simpl.
      * apply same_triple_true in Hsame as (<- & <- & <-). simpl.
        rewrite Hm. simpl. lia.
      * specialize (Hdedup ty cls d). lia.
    + intros o0 Ho0. discriminate Ho0.
  - eexists _, _, _. split; [reflexivity|]. split; [done|]. split; [done|].
    intros o0 Ho0. by injection Ho0 as <-.
  - simpl in Hle. lia.
Qed.

(** Once a triple is stored exactly once, [get_or_create] hands out that row
    and writes nothing. *)
Lemma get_or_create_existing model table otype oclass desc o :
  matching otype oclass desc table = [o] ->
  get_or_create model table otype oclass desc = Ok (table, o, false).
Proof.
  intros Hm. unfold get_or_create. fold (matching otype oclass desc table).
  by rewrite Hm.
Qed.

Lemma offense_get_or_create_ok is_federal otype oclass desc (w : world) :
  length (matching otype oclass desc (offense_table is_federal (store w))) <= 1 ->
  exists w' o,
    offense_get_or_create is_federal otype oclass desc w
    = (w', Ok (offense_obj is_federal o))
    /\ matching otype oclass desc (offense_table is_federal (store w')) = [o]
    /\ offense_table (negb is_federal) (store w')
       = offense_table (negb is_federal) (store w)
    /\ criminals (store w') = criminals (store w)
    /\ offense_links (store w') = offense_links (store w)
    /\ messages w' = messages w
    /\ (deduplicated (offense_table is_federal (store w)) ->
        deduplicated (offense_table is_federal (store w')))
    /\ (forall o0,
          matching otype oclass desc (offense_table is_federal (store w)) = [o0] ->
          o = o0 /\ store w' = store w).
Proof.
  intros Hle. unfold offense_get_or_create.
  destruct w as [db msgs]. destruct db as [cs fed va links].
  destruct is_federal; simpl in *.
  - destruct (get_or_create_ok "FederalOffense" _ _ _ _ Hle)
      as (t' & o & created & -> & Hm & Hd & Hex).
    eexists _, o. simpl. repeat split; try done.
    + by apply Hex.
    + apply Hex in H as [_ ->]. done.
  - destruct (get_or_create_ok "VACodeOffense" _ _ _ _ Hle)
      as (t' & o & created & -> & Hm & Hd & Hex).
    eexists _, o. simpl. repeat split; try done.
    + by apply Hex.
    + apply Hex in H as [_ ->]. done.
Qed.

Lemma process_row_six (row_num : nat) (fn ln otype oclass desc src : string)
    (st : loop_state) :
  process_row row_num [fn; ln; otype; oclass; desc; src] st
  = (let row_name := (PyStr.lower (PyStr.strip fn), PyStr.lower (PyStr.strip ln)) in
     do cur <- (if decide (current_name st = Some row_name)
                then ret (current_criminal st)
                else (do c <- create_criminal (PyStr.strip fn) (PyStr.strip ln) ;
                      ret (Some c))) ;
     do offense_obj <- offense_get_or_create
                         (bool_decide (PyStr.lower (PyStr.strip src) = "federal"))
                         (PyStr.strip otype) (PyStr.strip oclass)
                         (PyStr.strip desc) ;
     match cur with
     | Some who =>
         run create_link who offense_obj ;
         ret {| current_criminal := cur;
                current_name := Some row_name;
                count := S (count st) |}
     | None => raise (OtherError "IntegrityError")
     end).
Proof. reflexivity. Qed.

(** One well-formed row of a bulk import: the current criminal is reused
    when the row carries the current name and created otherwise, at most one
    offense row is written, and one link to the single stored row with the
    row's triple is written for that criminal. *)
Lemma process_row_ok (row_num : nat) (fn ln otype oclass desc src : string)
    (st : loop_state) (w : world) :
  let is_federal := bool_decide (PyStr.lower (PyStr.strip src) = "federal") in
  let row_name := (PyStr.lower (PyStr.strip fn), PyStr.lower (PyStr.strip ln)) in
  let stored db :=
    matching (PyStr.strip otype) (PyStr.strip oclass) (PyStr.strip desc)
             (offense_table is_federal db) in
  (current_name st = Some row_name -> is_Some (current_criminal st)) ->
  length (stored (store w)) <= 1 ->
  exists w' who o l,
    process_row row_num [fn; ln; otype; oclass; desc; src] st w
    = (w', Ok {| current_criminal := Some who;
                 current_name := Some row_name;
                 count := S (count st) |})
    /\ (if decide (current_name st = Some row_name)
        then current_criminal st = Some who
             /\ criminals (store w') = criminals (store w)
        else who = {| criminal_id := next_pk criminal_id (criminals (store w));
                      first_name := PyStr.strip fn;
                      last_name := PyStr.strip ln;
                      date_of_birth := None |}
             /\ criminals (store w') = (criminals (store w) ++ [who])%list)
    /\ stored (store w') = [o]
    /\ offense_links (store w') = (offense_links (store w) ++ [l])%list
    /\ criminal l = criminal_id who
    /\ link_reference is_federal l = Some (offense_id o)
    /\ link_reference (negb is_federal) l = None
    /\ (forall o0, stored (store w) = [o0] -> o = o0)
    /\ offense_table (negb is_federal) (store w')
       = offense_table (negb is_federal) (store w)
    /\ (deduplicated (offense_table is_federal (store w)) ->
        deduplicated (offense_table is_federal (store w')))
    /\ messages w' = messages w.
Proof.
  intros is_federal row_name stored Hcur Hle.
  rewrite process_row_six. cbv zeta. fold row_name is_federal. unfold bind at 1.
  destruct (decide (current_name st = Some row_name)) as [Heq|Hne].
  - destruct (Hcur Heq) as [who Hwho]. rewrite Hwho. unfold ret at 1.
    unfold bind at 1.
    destruct (offense_get_or_create_ok is_federal (PyStr.strip otype)
                (PyStr.strip oclass) (PyStr.strip desc) w Hle)
      as (w1 & o & Hrun & Hm & Hother & Hcs & Hlinks & Hmsgs & Hd & Hex).
    rewrite Hrun.
    unfold bind, create_link, write, ret. simpl.
    eexists _, who, o, _. split; [reflexivity|]. simpl.
    repeat split; try done.
    + by rewrite Hlinks.
    + done.
    + by destruct is_federal.
    + by destruct is_federal.
    + intros o0 Ho0. by apply Hex.
  - pose (c := {| criminal_id := next_pk criminal_id (criminals (store w));
                   first_name := PyStr.strip fn; last_name := PyStr.strip ln;
                   date_of_birth := None |}).
    pose (w0 := {| store :=
                     {| criminals := (criminals (store w) ++ [c])%list;
                        federal_offenses := federal_offenses (store w);
                        vacode_offenses := vacode_offenses (store w);
                        offense_links := offense_links (store w) |};
                   messages := messages w |}).
    assert (Hc : (do c <- create_criminal (PyStr.strip fn) (PyStr.strip ln) ;
                  ret (Some c)) w = (w0, Ok (Some c))) by reflexivity.
    rewrite Hc.
    destruct (offense_get_or_create_ok is_federal (PyStr.strip otype)
                (PyStr.strip oclass) (PyStr.strip desc) w0)
      as (w1 & o & Hrun & Hm & Hother & Hcs & Hlinks & Hmsgs & Hd & Hex).
    { destruct is_federal; simpl in *; exact Hle. }
    unfold bind at 1. rewrite Hrun.
    unfold bind, create_link, write, ret. simpl.
    eexists _, c, o, _. split; [reflexivity|]. simpl.
    repeat split; try done.
    + by rewrite Hlinks.
    + done.
    + by destruct is_federal.
    + by destruct is_federal.
    + intros o0 Ho0. apply Hex.
      destruct is_federal; simpl in *; exact Ho0.
Qed.

End OffenseCreation.

(** ** Bulk import *)

Section ImportRun.

Definition empty_world : world := {| store := empty_db; messages := [] |}.

(** An upload that reaches the row loop: a file name ending in ".csv", a
    decodable content, and a first line that is the expected header. *)
Definition well_headed (file : uploaded_file) (items : reader) : Prop :=
  name file ≠ "" /\ PyStr.endswith (name file) ".csv" = true /\
  exists header, decoded file = Ok (Ok header :: items) /\
                 header_rejected (Some header) = false.

(** What [mass_add_criminals] does once the header is accepted: it runs the
    row loop in a transaction and reports; when the loop raises, the tables
    are those of before the import. *)
Lemma mass_add_criminals_run (file : uploaded_file) (items : reader) (w : world) :
  well_headed file items ->
  mass_add_criminals (MassPost (Some file)) w
  = match process_rows 2 items loop_init w with
    | (w', Ok st) =>
        ({| store := store w';
            messages :=
              messages w' ++
              [Msg SUCCESS ("Successfully added " ++ pretty_nat (count st)
                            ++ " offense records.")] |},
         Ok (Redirect "mass_add"))
    | (w', Raise e) =>
        ({| store := store w;
            messages := messages w' ++ [MsgExn ERROR "Error processing file: " e] |},
         Ok (Redirect "mass_add"))
    end%list.
Proof.
  intros (Hname & Hcsv & header & Hdec & Hhead).
  unfold mass_add_criminals.
  rewrite bool_decide_eq_false_2 by done. rewrite Hcsv.
  change (negb true) with false. cbv iota.
  unfold try_except, decode. rewrite Hdec.
  unfold bind, next_header, ret, transaction_atomic. cbv beta iota.
  rewrite Hhead. simpl tail.
  destruct (process_rows 2 items loop_init w) as [w' [st|e]]; reflexivity.
Qed.

(** A CSV row that carries a given jurisdiction and (type, class,
    description); the fields of a row are stripped first. *)
Definition row_has_triple (is_federal : bool) (otype oclass desc : string)
    (r : list string) : Prop :=
  exists fn ln ty cls d src,
    r = [fn; ln; ty; cls; d; src]
    /\ bool_decide (PyStr.lower (PyStr.strip src) = "federal") = is_federal
    /\ PyStr.strip ty = otype /\ PyStr.strip cls = oclass
    /\ PyStr.strip d = desc.

(** Two creations left one stored row with the triple, and the two links
    they added both reference it. *)
Definition share_one_row (is_federal : bool) (otype oclass desc : string)
    (before after : DB) : Prop :=
  exists o l1 l2,
    matching otype oclass desc (offense_table is_federal after) = [o]
    /\ offense_links after = (offense_links before ++ [l1; l2])%list
    /\ link_reference is_federal l1 = Some (offense_id o)
    /\ link_reference is_federal l2 = Some (offense_id o).

Definition two_bank_robberies : uploaded_file :=
  {| name := "offenses.csv";
     decoded :=
       Ok [ Ok expected_header;
            Ok ["John"; "Doe"; "Felony"; "A"; "Bank robbery"; "federal"];
            Ok ["Mary"; "Major"; "Felony"; " A"; "Bank robbery "; "Federal"] ] |}.

End ImportRun.

(** ** Bulk import: one person per run of adjacent rows *)

Section AdjacentRows.

(** The rows that the loop processes: those with six fields. *)
Definition data_rows (rows : list (list string)) : list (list string) :=
  List.filter (fun r => (length r =? 6)%nat) rows.

(** The name pair of a row, as the loop compares it. *)
Definition name_pair (r : list string) : string * string :=
  (PyStr.lower (PyStr.strip (nth 0 r "")), PyStr.lower (PyStr.strip (nth 1 r ""))).

(** The largest key of the [Criminal] table (0 when it is empty). *)
Definition last_pk (table : list Criminal) : nat :=
  foldr Nat.max 0 (map criminal_id table).

(** Following the specification: adjacent rows with the same name pair share
    one person, and the current person changes whenever the name pair does.
    With [prev] the name pair of the row before and [current] the key of the
    person it belongs to, [owners] gives row by row the key of the person
    the row's offense is linked to, and [people] the persons created. *)
Fixpoint owners (prev : option (string * string)) (current : nat)
    (rows : list (list string)) : list nat :=
  match rows with
  | [] => []
  | r :: rest =>
      let k := if decide (prev = Some (name_pair r)) then current else S current in
      k :: owners (Some (name_pair r)) k rest
  end.

Fixpoint people (prev : option (string * string)) (current : nat)
    (rows : list (list string)) : list Criminal :=
  match rows with
  | [] => []
  | r :: rest =>
      if decide (prev = Some (name_pair r))
      then people (Some (name_pair r)) current rest
      else {| criminal_id := S current;
              first_name := PyStr.strip (nth 0 r "");
              last_name := PyStr.strip (nth 1 r "");
              date_of_birth := None |}
           :: people (Some (name_pair r)) (S current) rest
  end.

Lemma last_pk_snoc (table : list Criminal) (c : Criminal) :
  last_pk (table ++ [c]) = Nat.max (last_pk table) (criminal_id c).
Proof.
  unfold last_pk. induction table as [|x table IH]; simpl; [lia|].
  rewrite IH. lia.
Qed.

Lemma process_row_malformed (row_num : nat) (r : list string)
    (st : loop_state) (w : world) :
  (length r =? 6)%nat = false ->
  exists w', process_row row_num r st w = (w', Ok st) /\ store w' = store w.
Proof.
  intros Hlen. unfold process_row. rewrite Hlen. simpl.
  eexists. split; reflexivity.
Qed.

Lemma six_fields (r : list string) :
  (length r =? 6)%nat = true ->
  exists fn ln otype oclass desc src, r = [fn; ln; otype; oclass; desc; src].
Proof.
  intros Hlen. apply Nat.eqb_eq in Hlen.
  do 6 (destruct r as [|? r]; [discriminate|]).
  destruct r; [|discriminate]. by eexists _, _, _, _, _, _.
Qed.

(** The row loop against the specification: on rows that the reader yields
    without error and tables that store no triple twice, the loop completes,
    creates the persons of [people] and adds one link per data row, to the
    persons of [owners]. *)
Lemma process_rows_groups (rows : list (list string)) :
  forall (row_num : nat) (st : loop_state) (w : world),
    deduplicated (federal_offenses (store w)) ->
    deduplicated (vacode_offenses (store w)) ->
    (is_Some (current_name st) ->
     exists c, current_criminal st = Some c
               /\ criminal_id c = last_pk (criminals (store w))) ->
    exists w' st' new_links,
      process_rows row_num (map Ok rows) st w = (w', Ok st')
      /\ criminals (store w')
         = (criminals (store w)
            ++ people (current_name st) (last_pk (criminals (store w)))
                      (data_rows rows))%list
      /\ offense_links (store w') = (offense_links (store w) ++ new_links)%list
      /\ map criminal new_links
         = owners (current_name st) (last_pk (criminals (store w)))
                  (data_rows rows).
Proof.
  induction rows as [|r rows IH]; intros row_num st w Hfed Hva Hcur.
  - exists w, st, []. simpl. unfold ret. by rewrite !app_nil_r.
  - simpl map. simpl process_rows. unfold bind at 1.
    destruct (length r =? 6)%nat eqn:Hlen.
    + destruct (six_fields r Hlen) as (fn & ln & ty & cls & d & src & ->).
      destruct (process_row_ok row_num fn ln ty cls d src st w)
        as (w1 & who & o & l & -> & Hwho & _ & Hlinks & Hl & _ & _ & _
            & Hother & Hd & _).
      { intros Hname. destruct Hcur as (c & -> & _); [by rewrite Hname|]. done. }
      { destruct (bool_decide _); [apply Hfed|apply Hva]. }
      unfold data_rows. simpl List.filter. fold (data_rows rows).
      simpl owners. simpl people.
      change (name_pair [fn; ln; ty; cls; d; src])
        with (PyStr.lower (PyStr.strip fn), PyStr.lower (PyStr.strip ln)).
      set (row_name := (PyStr.lower (PyStr.strip fn), PyStr.lower (PyStr.strip ln))) in *.
      set (st1 := {| current_criminal := Some who;
                     current_name := Some row_name;
                     count := S (count st) |}).
      assert (Hfed1 : deduplicated (federal_offenses (store w1))).
      { destruct (bool_decide (PyStr.lower (PyStr.strip src) = "federal"));
          simpl in *; [by apply Hd|by rewrite Hother]. }
      assert (Hva1 : deduplicated (vacode_offenses (store w1))).
      { destruct (bool_decide (PyStr.lower (PyStr.strip src) = "federal"));
          simpl in *; [by rewrite Hother|by apply Hd]. }
      destruct (decide (current_name st = Some row_name)) as [Heq|Hne].
      * destruct Hwho as [Hwho Hcs].
        destruct Hcur as (c & Hc & Hid); [by rewrite Heq|].
        assert (c = who) as -> by congruence.
        destruct (IH (S row_num) st1 w1 Hfed1 Hva1)
          as (w' & st' & new_links & Hrun & Hcs' & Hlinks' & Hown).
        { intros _. exists who. simpl. by rewrite Hcs. }
        exists w', st', (l :: new_links). split; [exact Hrun|].
        rewrite Hcs', Hlinks', Hcs, Hlinks. simpl current_name.
        split; [done|]. split; [by rewrite <- app_assoc|].
        simpl. rewrite Hown, Hcs. simpl. f_equal. by rewrite Hl, Hid.
      * destruct Hwho as [Hwho Hcs].
        assert (Hlast : last_pk (criminals (store w1))
                        = S (last_pk (criminals (store w)))).
        { rewrite Hcs, last_pk_snoc, Hwho. simpl. unfold next_pk, last_pk. lia. }
        destruct (IH (S row_num) st1 w1 Hfed1 Hva1)
          as (w' & st' & new_links & Hrun & Hcs' & Hlinks' & Hown).
        { intros _. exists who. simpl. split; [done|].
          rewrite Hlast, Hwho. reflexivity. }
        exists w', st', (l :: new_links). split; [exact Hrun|].
        rewrite Hcs', Hlinks', Hlinks. simpl current_name. rewrite Hlast.
        split; [|split; [by rewrite <- app_assoc|]].
        -- rewrite Hcs, <- app_assoc. simpl. do 2 f_equal.
           rewrite Hwho. reflexivity.
        -- simpl. rewrite Hown, Hlast. f_equal. rewrite Hl, Hwho. reflexivity.
    + destruct (process_row_malformed row_num r st w Hlen) as (w1 & -> & Hstore).
      unfold data_rows. simpl List.filter. rewrite Hlen. fold (data_rows rows).
      destruct (IH (S row_num) st w1) as (w' & st' & new_links & Hrun & Hrest).
      { by rewrite Hstore. } { by rewrite Hstore. } { by rewrite Hstore. }
      exists w', st', new_links. split; [exact Hrun|].
      by rewrite <- Hstore.
Qed.

(** The person a row names, under a given key. *)
Definition person_of_row (key : nat) (r : list string) : Criminal :=
  {| criminal_id := key;
     first_name := PyStr.strip (nth 0 r "");
     last_name := PyStr.strip (nth 1 r "");
     date_of_birth := None |}.

Lemma owners_first prev current (rows : list (list string)) r :
  rows !! 0 = Some r ->
  prev ≠ Some (name_pair r) ->
  owners prev current rows !! 0 = Some (S current)
  /\ person_of_row (S current) r ∈ people prev current rows.
Proof.
  destruct rows as [|r0 rows]; [done|]. simpl. intros [= ->] Hne.
  destruct (decide (prev = Some (name_pair r))); [done|].
  split; [done|]. apply elem_of_cons. by left.
Qed.

Lemma people_tail prev current (r : list string) rows (c : Criminal) :
  c ∈ people (Some (name_pair r))
             (if decide (prev = Some (name_pair r)) then current else S current)
             rows ->
  c ∈ people prev current (r :: rows).
Proof.
  simpl. destruct (decide (prev = Some (name_pair r))); [done|].
  intros Hin. apply elem_of_cons. by right.
Qed.

(** Two adjacent rows: the second goes to the person of the first when the
    name pairs are equal, and otherwise to a person created for it, whose key
    is the next one. *)
Lemma owners_adjacent (rows : list (list string)) :
  forall prev current i r1 r2 k1 k2,
    rows !! i = Some r1 -> rows !! S i = Some r2 ->
    owners prev current rows !! i = Some k1 ->
    owners prev current rows !! S i = Some k2 ->
    if decide (name_pair r1 = name_pair r2)
    then k2 = k1
    else k2 = S k1 /\ person_of_row k2 r2 ∈ people prev current rows.
Proof.
  induction rows as [|r rows IH]; intros prev current i r1 r2 k1 k2; [done|].
  destruct i as [|i].
  - simpl. intros [= ->] Hr2 [= <-] Hk2.
    destruct rows as [|r' rows]; [done|]. simpl in Hr2, Hk2.
    injection Hr2 as ->. injection Hk2 as <-.
    destruct (decide (name_pair r1 = name_pair r2)) as [Heq|Hne].
    + rewrite Heq. by destruct (decide (Some (name_pair r2) = Some (name_pair r2))).
    + destruct (decide (Some (name_pair r1) = Some (name_pair r2))) as [Heq|_];
        [congruence|].
      split; [done|]. apply people_tail. simpl.
      destruct (decide (Some (name_pair r1) = Some (name_pair r2))); [congruence|].
      apply elem_of_cons. by left.
  - simpl. intros Hr1 Hr2 Hk1 Hk2.
    specialize (IH _ _ _ _ _ _ _ Hr1 Hr2 Hk1 Hk2).
    destruct (decide (name_pair r1 = name_pair r2)); [done|].
    destruct IH as [-> Hin]. split; [done|]. by apply people_tail.
Qed.

(** C5: in a bulk import whose rows are all read and whose offense tables
    store no triple twice, the import completes; the first data row creates
    a person, and each further data row is linked to the person of the data
    row just before it when their (first name, last name) pairs are equal
    case-insensitively, and to a person newly created from it otherwise. The
    persons created and the owners of the links are those of the
    specification ([people], [owners]). *)
Theorem bulk_import_groups_adjacent_rows (file : uploaded_file)
    (rows : list (list string)) (w : world) :
  well_headed file (map Ok rows) ->
  deduplicated (federal_offenses (store w)) ->
  deduplicated (vacode_offenses (store w)) ->
  exists w' new_people new_links,
    mass_add_criminals (MassPost (Some file)) w = (w', Ok (Redirect "mass_add"))
    /\ criminals (store w') = (criminals (store w) ++ new_people)%list
    /\ offense_links (store w') = (offense_links (store w) ++ new_links)%list
    /\ new_people = people None (last_pk (criminals (store w))) (data_rows rows)
    /\ map criminal new_links
       = owners None (last_pk (criminals (store w))) (data_rows rows)
    /\ (forall r l,
          data_rows rows !! 0 = Some r -> new_links !! 0 = Some l ->
          person_of_row (criminal l) r ∈ new_people)
    /\ (forall i r1 r2 l1 l2,
          data_rows rows !! i = Some r1 -> data_rows rows !! S i = Some r2 ->
          new_links !! i = Some l1 -> new_links !! S i = Some l2 ->
          if decide (name_pair r1 = name_pair r2)
          then criminal l2 = criminal l1
          else criminal l2 = S (criminal l1)
               /\ person_of_row (criminal l2) r2 ∈ new_people).
Proof.
  intros Hfile Hfed Hva.
  rewrite (mass_add_criminals_run file _ w Hfile).
  destruct (process_rows_groups rows 2 loop_init w Hfed Hva)
    as (w' & st' & new_links & -> & Hcs & Hlinks & Hown).
  { simpl. by intros [? [=]]. }
  simpl in Hcs, Hown.
  eexists _, _, new_links. split; [reflexivity|]. simpl.
  split; [exact Hcs|]. split; [exact Hlinks|]. split; [reflexivity|].
  split; [exact Hown|]. split.
  - intros r l Hr Hl.
    destruct (owners_first None (last_pk (criminals (store w))) _ r Hr)
      as [Hk Hin]; [done|].
    rewrite <- Hown, list_lookup_fmap, Hl in Hk. simpl in Hk.
    injection Hk as ->. exact Hin.
  - intros i r1 r2 l1 l2 Hr1 Hr2 Hl1 Hl2.
    apply (owners_adjacent _ None (last_pk (criminals (store w))) i r1 r2);
      try done; rewrite <- Hown, list_lookup_fmap.
    + by rewrite Hl1.
    + by rewrite Hl2.
Qed.

Definition john_doe_twice : uploaded_file :=
  {| name := "offenses.csv";
     decoded :=
       Ok [ Ok expected_header;
            Ok ["John"; "Doe"; "Felony"; "A"; "Bank robbery"; "federal"];
            Ok ["john"; "DOE"; "Misdemeanor"; "1"; "Petty theft"; "virginia"] ] |}.

Lemma bulk_import_groups_adjacent_rows_witness :
  exists w',
    mass_add_criminals (MassPost (Some john_doe_twice)) empty_world
    = (w', Ok (Redirect "mass_add"))
    /\ criminals (store w')
       = [ {| criminal_id := 1; first_name := "John"; last_name := "Doe";
              date_of_birth := None |} ]
    /\ map criminal (offense_links (store w')) = [1; 1].
Proof.
  destruct (bulk_import_groups_adjacent_rows john_doe_twice
              [ ["John"; "Doe"; "Felony"; "A"; "Bank robbery"; "federal"];
                ["john"; "DOE"; "Misdemeanor"; "1"; "Petty theft"; "virginia"] ]
              empty_world)
    as (w' & new_people & new_links & Hrun & Hcs & Hlinks & Hpeople & Hown & _).
  - split; [discriminate|]. split; [reflexivity|].
    eexists. split; reflexivity.
  - intros ? ? ?. simpl. lia.
  - intros ? ? ?. simpl. lia.
  - exists w'. split; [exact Hrun|]. split.
    + rewrite Hcs, Hpeople. reflexivity.
    + rewrite Hlinks. simpl. rewrite Hown. reflexivity.
Defined.

(** The same two rows with another person's row between them: the name pair
    changes twice, and John Doe is created twice. *)
Example john_doe_split_by_another_row :
  let file :=
    {| name := "offenses.csv";
       decoded :=
         Ok [ Ok expected_header;
              Ok ["John"; "Doe"; "Felony"; "A"; "Bank robbery"; "federal"];
              Ok ["Jane"; "Roe"; "Infraction"; "NA"; "Littering"; "virginia"];
              Ok ["John"; "Doe"; "Misdemeanor"; "1"; "Petty theft"; "virginia"] ] |} in
  let w' := (mass_add_criminals (MassPost (Some file)) empty_world).1 in
  map (fun c => (criminal_id c, first_name c, last_name c)) (criminals (store w'))
  = [(1, "John", "Doe"); (2, "Jane", "Roe"); (3, "John", "Doe")]
  /\ map criminal (offense_links (store w')) = [1; 2; 3].
Proof. vm_compute. split; reflexivity. Qed.

End AdjacentRows.

(** ** Bulk import: all or nothing *)

Section Atomicity.

(** The header line that [next(reader, None)] returns. *)
Definition header_of (items : reader) : option (list string) :=
  match items with
  | Ok h :: _ => Some h
  | _ => None
  end.

(** A file whose first line is not the expected header. *)
Definition bad_header (file : uploaded_file) : Prop :=
  exists items, decoded file = Ok items /\ header_rejected (header_of items) = true.

(** An import whose row loop raises, after the writes that led to the tables
    [store partial]. *)
Definition rows_raise (file : uploaded_file) (w partial : world) (e : exn) : Prop :=
  exists items,
    well_headed file items /\ process_rows 2 items loop_init w = (partial, Raise e).

Lemma bad_header_no_write (file : uploaded_file) (w : world) :
  bad_header file ->
  store (mass_add_criminals (MassPost (Some file)) w).1 = store w.
Proof.
  intros (items & Hdec & Hrej). unfold mass_add_criminals.
  destruct (bool_decide (name file = "")); [reflexivity|].
  destruct (negb (PyStr.endswith (name file) ".csv")); [reflexivity|].
  unfold try_except, decode. rewrite Hdec.
  unfold bind, next_header, ret, flash. cbv beta iota.
  destruct items as [|[h|e] items]; unfold header_of in Hrej.
  - reflexivity.
  - rewrite Hrej. reflexivity.
  - reflexivity.
Qed.

(** C4: the tables after a bulk import are those of before it when the
    header does not match, and when an exception is raised while the rows are
    processed, whatever was written before the exception. *)
Theorem mass_add_criminals_atomic (file : uploaded_file) (w : world) :
  bad_header file \/ (exists partial e, rows_raise file w partial e) ->
  store (mass_add_criminals (MassPost (Some file)) w).1 = store w.
Proof.
  intros [Hbad|(partial & e & items & Hfile & Hraise)].
  - by apply bad_header_no_write.
  - rewrite (mass_add_criminals_run file items w Hfile), Hraise. reflexivity.
Qed.

(** A file whose second data line cannot be read: the first row is written,
    then the reader raises. *)
Definition broken_after_one_row : uploaded_file :=
  {| name := "offenses.csv";
     decoded :=
       Ok [ Ok expected_header;
            Ok ["John"; "Doe"; "Felony"; "A"; "Bank robbery"; "federal"];
            Raise (OtherError "csv.Error") ] |}.

Lemma mass_add_criminals_atomic_witness :
  (exists partial,
     rows_raise broken_after_one_row empty_world partial (OtherError "csv.Error")
     /\ length (criminals (store partial)) = 1
     /\ length (federal_offenses (store partial)) = 1
     /\ length (offense_links (store partial)) = 1)
  /\ store (mass_add_criminals (MassPost (Some broken_after_one_row))
                               empty_world).1
     = store empty_world.
Proof.
  assert (Hraise :
    exists partial,
      rows_raise broken_after_one_row empty_world partial (OtherError "csv.Error")
      /\ length (criminals (store partial)) = 1
      /\ length (federal_offenses (store partial)) = 1
      /\ length (offense_links (store partial)) = 1).
  { eexists. split; [|split; [|split]].
    - eexists. split.
      + split; [discriminate|]. split; [reflexivity|].
        eexists. split; reflexivity.
      + vm_compute. reflexivity.
    - reflexivity.
    - reflexivity.
    - reflexivity. }
  split; [exact Hraise|].
  apply mass_add_criminals_atomic. right.
  destruct Hraise as (partial & Hr & _). by exists partial, (OtherError "csv.Error").
Defined.

End Atomicity.

(** ** Account expiration *)

Section Expiration.
Context `{Hashers}.

(** C8: [is_expired] compares strictly: its result is true exactly when an
    expiration date is set and lies before today; an account expiring today
    or tomorrow is not expired, one that expired yesterday is, and one
    without expiration date is not (the result is [None]). *)
Theorem is_expired_strictly_after (today : date) (u : CustomUser) :
  (truthy (is_expired today u) = true
   <-> exists d, expiration_date u = Some d /\ (d < today)%Z)
  /\ (expiration_date u = Some today -> is_expired today u = PyBool false)
  /\ (expiration_date u = Some (today + 1)%Z -> is_expired today u = PyBool false)
  /\ (expiration_date u = Some (today - 1)%Z -> is_expired today u = PyBool true)
  /\ (expiration_date u = None ->
      is_expired today u = PyNone /\ truthy (is_expired today u) = false).
Proof.
  unfold is_expired. split; [split|split; [|split; [|split]]].
  - destruct (expiration_date u) as [d|]; simpl; [|done].
    intros Hlt. exists d. split; [done|]. by apply Z.ltb_lt.
  - intros (d & -> & Hlt). simpl. by apply Z.ltb_lt.
  - intros ->. f_equal. apply Z.ltb_ge. lia.
  - intros ->. f_equal. apply Z.ltb_ge. lia.
  - intros ->. f_equal. apply Z.ltb_lt. lia.
  - by intros ->.
Qed.

(** An answer checks against the one set exactly when it is the same. *)
Lemma check_set_security_answer (salt raw raw' : string) (u : CustomUser) :
  check_security_answer (Some raw) (set_security_answer salt raw' u) = true
  <-> raw = raw'.
Proof. unfold check_security_answer. simpl. apply verify_make_password. Qed.

Lemma filter_none_all {A : Type} (p : A -> bool) (l : list A) :
  length (List.filter p l) = 0 -> List.filter (fun x => negb (p x)) l = l.
Proof.
  induction l as [|x l IH]; simpl; [done|].
  destruct (p x); simpl; [discriminate|]. intros Hlen. by rewrite IH.
Qed.

Lemma filter_lengths {A : Type} (p : A -> bool) (l : list A) :
  length (List.filter p l) + length (List.filter (fun x => negb (p x)) l)
  = length l.
Proof.
  induction l as [|x l IH]; simpl; [done|].
  destruct (p x); simpl; lia.
Qed.

Lemma filter_filter_negb {A : Type} (p : A -> bool) (l : list A) :
  List.filter p (List.filter (fun x => negb (p x)) l) = [].
Proof.
  induction l as [|x l IH]; simpl; [done|].
  destruct (p x) eqn:Hp; simpl; [done|]. by rewrite Hp.
Qed.

Lemma filter_ext_bool {A : Type} (p q : A -> bool) (l : list A) :
  (forall x, p x = q x) -> List.filter p l = List.filter q l.
Proof.
  intros Hpq. induction l as [|x l IH]; simpl; [done|].
  by rewrite Hpq, IH.
Qed.

(** C9, as the code has it. The current date is the date of the current
    time in the default time zone: the UTC date, moved by the whole days that
    the second of the day and the offset of the zone add up to. The sweep
    keeps, in order, the accounts without expiration date and those whose
    expiration date is after the current date, so it deletes exactly the
    accounts whose expiration date is on or before the current date; it
    returns the message "Deleted N expired users." where N is the number of
    those accounts; run again at once it deletes nothing, leaves the table as
    it is and returns "Deleted 0 expired users.". *)
Theorem delete_expired_users_sweep (utcoffset : Z) (now : datetime)
    (users : list CustomUser) :
  let current_date :=
    (datetime_date now + (second_of_day now + utcoffset) / 86400)%Z in
  let '(users', returned) := delete_expired_users utcoffset now users in
  users'
  = List.filter (fun u => match expiration_date u with
                          | Some d => (current_date <? d)%Z
                          | None => true
                          end) users
  /\ (forall u, u ∈ users /\ u ∉ users'
                <-> u ∈ users
                    /\ exists d, expiration_date u = Some d
                                 /\ (d <= current_date)%Z)
  /\ returned
     = PyStr ("Deleted "
              ++ pretty.pretty
                   (length (List.filter
                              (fun u => match expiration_date u with
                                        | Some d => (d <=? current_date)%Z
                                        | None => false
                                        end) users))
              ++ " expired users.")
  /\ length users' + length (List.filter
                               (fun u => match expiration_date u with
                                         | Some d => (d <=? current_date)%Z
                                         | None => false
                                         end) users)
     = length users
  /\ delete_expired_users utcoffset now users'
     = (users', PyStr "Deleted 0 expired users.").
Proof.
  intros current_date. unfold delete_expired_users.
  set (expired := List.filter (expiration_date_lte utcoffset now) users).
  set (kept := List.filter (fun u => negb (expiration_date_lte utcoffset now u))
                           users).
  assert (Hkept : (if negb (length expired =? 0)%nat then kept else users) = kept).
  { destruct (length expired =? 0)%nat eqn:Hz; simpl; [|done].
    apply Nat.eqb_eq in Hz. symmetry. by apply filter_none_all. }
  rewrite Hkept.
  assert (Hafter : forall u,
             negb (expiration_date_lte utcoffset now u)
             = match expiration_date u with
               | Some d => (current_date <? d)%Z
               | None => true
               end).
  { intros u. unfold expiration_date_lte, local_date. fold current_date.
    destruct (expiration_date u) as [d|]; [|done].
    destruct (Z.leb_spec d current_date), (Z.ltb_spec current_date d);
      simpl; try done; lia. }
  assert (Hexpired : expired
                     = List.filter (fun u => match expiration_date u with
                                             | Some d => (d <=? current_date)%Z
                                             | None => false
                                             end) users).
  { apply filter_ext_bool. intros u. unfold expiration_date_lte, local_date.
    fold current_date. by destruct (expiration_date u). }
  split; [|split; [|split; [|split]]].
  - unfold kept. by apply filter_ext_bool.
  - intros u. unfold kept.
    rewrite !list_elem_of_In, List.filter_In, <- !list_elem_of_In.
    rewrite Hafter. split.
    + intros [Hin Hnot]. split; [done|].
      destruct (expiration_date u) as [d|]; [|by destruct Hnot].
      exists d. split; [done|].
      destruct (Z.ltb_spec current_date d); [by destruct Hnot|done].
    + intros [Hin (d & Hd & Hle)]. split; [done|]. rewrite Hd.
      intros [_ Hlt]. apply Z.ltb_lt in Hlt. lia.
  - by rewrite <- Hexpired.
  - rewrite <- Hexpired.
    pose proof (filter_lengths (expiration_date_lte utcoffset now) users) as Hsum.
    fold expired kept in Hsum. lia.
  - unfold kept. rewrite filter_filter_negb. reflexivity.
Qed.

End Expiration.

Section ExpirationExamples.
#[local] Existing Instance Reference.plain_hashers.

Definition expired_yesterday : CustomUser :=
  {| id := 1; username := "alice"; email := "alice@example.com";
     password := Some ("s", "correct horse"); is_staff := false;
     is_superuser := false; first_login := false;
     security_question := None; security_answer := None;
     expiration_date := Some 739000%Z |}.

(** C9 as stated fails: the value returned is a message, not the count.
    The sweep runs at noon UTC, in winter. *)
Lemma delete_expired_users_returns_message :
  let now := {| datetime_date := 739001%Z; second_of_day := 43200%Z |} in
  delete_expired_users (-18000) now [expired_yesterday]
  = ([], PyStr "Deleted 1 expired users.")
  /\ (delete_expired_users (-18000) now [expired_yesterday]).2 ≠ PyInt 1.
Proof. split; [reflexivity|discriminate]. Qed.

End ExpirationExamples.

(** ** Account recovery *)

Section RecoveryFacts.
Context `{Hashers} `{!PasswordPolicy}.

(** C6: in step 3, with a recovery_user_id in the session, a POST whose two
    passwords differ, or whose new password the strength policy rejects for
    the account, writes no account (and keeps the session): it reports one
    error and renders the step-3 page again. *)
Theorem recovery_step3_failure_keeps_password (req : request) (st : state) :
  truthy (session_get st "recovery_user_id") = true ->
  http_method req = POST ->
  post_data req !! "new_password" ≠ post_data req !! "new_password_confirm"
  \/ (exists user msgs,
        get_by_id (session_get st "recovery_user_id") (users st) = Ok user
        /\ validate_password (post_data req !! "new_password") user
           = ValidationError msgs) ->
  let '(st', resp) := account_recovery_step3 req st in
  users st' = users st
  /\ session st' = session st
  /\ resp = Ok (Render "users/account_recovery_step3.html")
  /\ exists text, flashes st' = (flashes st ++ [Msg ERROR text])%list.
Proof.
  intros Hid Hpost Hfail. unfold account_recovery_step3.
  rewrite Hid, Hpost. simpl negb. cbv iota.
  destruct (bool_decide (post_data req !! "new_password"
                         = post_data req !! "new_password_confirm")) eqn:Hsame;
    simpl negb; cbv iota.
  - apply bool_decide_eq_true in Hsame.
    destruct Hfail as [Hne|(user & msgs & -> & ->)]; [done|].
    simpl. repeat split; try done. by eexists.
  - simpl. repeat split; try done. by eexists.
Qed.

(** C7: in step 2, for an account whose stored answer encodes [stored], a
    POSTed answer passes exactly when it equals [stored] once its
    surrounding whitespace is stripped; the comparison is otherwise exact. *)
Theorem recovery_step2_strips_answer (req : request) (st : state)
    (user : CustomUser) (salt0 stored answer : string) :
  truthy (session_get st "recovery_user_id") = true ->
  truthy (session_get st "security_question") = true ->
  get_by_id (session_get st "recovery_user_id") (users st) = Ok user ->
  security_answer user = Some (make_password salt0 stored) ->
  http_method req = POST ->
  post_data req !! "security_answer" = Some answer ->
  account_recovery_step2 req st
  = if decide (PyStr.strip answer = stored)
    then (st, Ok (Redirect "account_recovery_step3"))
    else (flash_error "Incorrect security answer." st,
          Ok (Render "users/account_recovery_step2.html")).
Proof.
  intros Hid Hq Huser Hstored Hpost Hanswer. unfold account_recovery_step2.
  rewrite Hid, Hq, Hpost, Hanswer, Huser. simpl orb. cbv iota.
  unfold check_password. rewrite Hstored.
  destruct (decide (PyStr.strip answer = stored)) as [Heq|Hne].
  - by rewrite (proj2 (verify_make_password salt0 _ _) Heq).
  - destruct (verify _ _) eqn:Hv; [|done].
    by apply verify_make_password in Hv.
Qed.

(** The requests that go to step 2. *)
Definition to_step2 (rs : list (step * request)) : Prop :=
  Forall (fun r : step * request => r.1 = Step2) rs.

Lemma step2_without_question (req : request) (st : state) :
  truthy (session_get st "security_question") = false ->
  account_recovery_step2 req st
  = (flash_error "Session expired or invalid. Please start over." st,
     Ok (Redirect "account_recovery_step1")).
Proof.
  intros Hq. unfold account_recovery_step2. rewrite Hq.
  by rewrite orb_true_r.
Qed.

Lemma serve_all_step2_without_question (rs : list (step * request)) :
  forall st,
    to_step2 rs ->
    truthy (session_get st "security_question") = false ->
    let '(st', resps) := serve_all st rs in
    Forall (fun resp => resp = Ok (Redirect "account_recovery_step1")) resps
    /\ users st' = users st /\ session st' = session st.
Proof.
  induction rs as [|[s req] rs IH]; intros st Hrs Hq; simpl.
  - by split.
  - apply Forall_cons in Hrs as [Hs Hrs]. simpl in Hs. subst s.
    unfold serve. simpl. rewrite (step2_without_question req st Hq).
    specialize (IH (flash_error "Session expired or invalid. Please start over." st)
                   Hrs Hq).
    destruct (serve_all _ rs) as [st' resps]. destruct IH as (Hall & Hu & Hs).
    split; [by constructor|]. by split.
Qed.

(** C10, as the code has it: for an account whose security question is null
    or empty, a successful step 1 stores the account's key and that question
    in the session; from then on every request to step 2 is redirected to
    step 1 and changes neither the accounts nor the session, so step 2 never
    leads such an account to step 3; step 3 itself is served in that session,
    since it asks for the recovery_user_id only. *)
Theorem recovery_empty_question_blocks_step2 (req : request) (st : state)
    (user : CustomUser) (rs : list (step * request)) :
  http_method req = POST ->
  objects_get (fun u => bool_decide (Some (username u) = post_data req !! "username")
                        && bool_decide (Some (email u) = post_data req !! "email"))
              (users st) = Ok user ->
  security_question user = None \/ security_question user = Some "" ->
  to_step2 rs ->
  let '(st1, resp1) := account_recovery_step1 req st in
  resp1 = Ok (Redirect "account_recovery_step2")
  /\ users st1 = users st
  /\ session_get st1 "recovery_user_id" = PyInt (id user)
  /\ session_get st1 "security_question" = pyval_of_text (security_question user)
  /\ (let '(st2, resps) := serve_all st1 rs in
      Forall (fun resp => resp = Ok (Redirect "account_recovery_step1")) resps
      /\ users st2 = users st1 /\ session st2 = session st1)
  /\ (id user ≠ 0 ->
      forall req3, http_method req3 = GET ->
        account_recovery_step3 req3 st1
        = (st1, Ok (Render "users/account_recovery_step3.html"))).
Proof.
  intros Hpost Huser Hq Hrs. unfold account_recovery_step1.
  rewrite Hpost, Huser.
  set (st1 := {| users := users st; session := _; flashes := flashes st |}).
  assert (Hid1 : session_get st1 "recovery_user_id" = PyInt (id user)).
  { unfold session_get, st1. simpl.
    rewrite lookup_insert_ne by done. rewrite lookup_insert_ne by done.
    by rewrite lookup_insert_eq. }
  assert (Hq1 : session_get st1 "security_question"
                = pyval_of_text (security_question user)).
  { unfold session_get, st1. simpl.
    rewrite lookup_insert_ne by done. by rewrite lookup_insert_eq. }
  split; [done|]. split; [done|]. split; [done|]. split; [done|]. split.
  - apply serve_all_step2_without_question; [done|].
    rewrite Hq1. by destruct Hq as [->| ->].
  - intros Hne req3 Hget. unfold account_recovery_step3.
    rewrite Hid1, Hget. simpl.
    destruct (id user =? 0)%nat eqn:Hz; [|done].
    by apply Nat.eqb_eq in Hz.
Qed.

End RecoveryFacts.

(** ** Account recovery on concrete accounts *)

Section RecoveryExamples.
#[local] Existing Instance Reference.plain_hashers.
#[local] Existing Instance Reference.length_and_numeric_policy.

(** An account whose security answer is "blue". *)
Definition alice : CustomUser :=
  set_security_answer "s1" "blue"
    {| id := 1; username := "alice"; email := "alice@example.com";
       password := Some ("s0", "old password"); is_staff := false;
       is_superuser := false; first_login := false;
       security_question := Some "Favourite colour?";
       security_answer := None; expiration_date := None |}.

(** An account that never set a security question. *)
Definition bob : CustomUser :=
  {| id := 2; username := "bob"; email := "bob@example.com";
     password := Some ("s0", "old password"); is_staff := false;
     is_superuser := false; first_login := true;
     security_question := None; security_answer := None;
     expiration_date := None |}.

Definition post (fields : list (string * string)) : request :=
  {| http_method := POST; post_data := list_to_map fields; salt := "s2" |}.

(** The session after step 1 succeeded for alice. *)
Definition alice_identified : state :=
  {| users := [alice; bob];
     session :=
       <["_session_expiry" := PyInt 600]>
         (<["security_question" := PyStr "Favourite colour?"]>
            (<["recovery_user_id" := PyInt 1]> ∅));
     flashes := [] |}.

Lemma recovery_step3_failure_keeps_password_witness :
  let req := post [("new_password", "correct horse 1");
                   ("new_password_confirm", "correct horse 2")] in
  let '(st', resp) := account_recovery_step3 req alice_identified in
  users st' = [alice; bob]
  /\ session st' = session alice_identified
  /\ resp = Ok (Render "users/account_recovery_step3.html")
  /\ exists text, flashes st' = [Msg ERROR text].
Proof.
  apply (recovery_step3_failure_keeps_password
           (post [("new_password", "correct horse 1");
                  ("new_password_confirm", "correct horse 2")])
           alice_identified).
  - reflexivity.
  - reflexivity.
  - left. vm_compute. discriminate.
Defined.

Lemma recovery_step2_strips_answer_witness :
  account_recovery_step2 (post [("security_answer", " blue ")]) alice_identified
  = (alice_identified, Ok (Redirect "account_recovery_step3"))
  /\ account_recovery_step2 (post [("security_answer", "blue")]) alice_identified
     = (alice_identified, Ok (Redirect "account_recovery_step3"))
  /\ account_recovery_step2 (post [("security_answer", "Blue")]) alice_identified
     = (flash_error "Incorrect security answer." alice_identified,
        Ok (Render "users/account_recovery_step2.html")).
Proof.
  split; [|split].
  - apply (recovery_step2_strips_answer
             (post [("security_answer", " blue ")]) alice_identified
             alice "s1" "blue" " blue "); reflexivity.
  - apply (recovery_step2_strips_answer
             (post [("security_answer", "blue")]) alice_identified
             alice "s1" "blue" "blue"); reflexivity.
  - apply (recovery_step2_strips_answer
             (post [("security_answer", "Blue")]) alice_identified
             alice "s1" "blue" "Blue"); reflexivity.
Defined.

Definition nobody_identified : state :=
  {| users := [alice; bob]; session := ∅; flashes := [] |}.

Definition identify_bob : request :=
  post [("username", "bob"); ("email", "bob@example.com")].

Lemma recovery_empty_question_blocks_step2_witness :
  let '(st1, resp1) := account_recovery_step1 identify_bob nobody_identified in
  resp1 = Ok (Redirect "account_recovery_step2")
  /\ users st1 = [alice; bob]
  /\ session_get st1 "recovery_user_id" = PyInt 2
  /\ session_get st1 "security_question" = PyNone
  /\ (let '(st2, resps) :=
        serve_all st1 [(Step2, post [("security_answer", "anything")]);
                       (Step2, post [])] in
      Forall (fun resp => resp = Ok (Redirect "account_recovery_step1")) resps
      /\ users st2 = users st1 /\ session st2 = session st1)
  /\ (2 ≠ 0 ->
      forall req3, http_method req3 = GET ->
        account_recovery_step3 req3 st1
        = (st1, Ok (Render "users/account_recovery_step3.html"))).
Proof.
  apply (recovery_empty_question_blocks_step2 identify_bob nobody_identified bob
           [(Step2, post [("security_answer", "anything")]); (Step2, post [])]).
  - reflexivity.
  - reflexivity.
  - by left.
  - repeat constructor.
Defined.

(** C10 as stated fails: bob has no security question, step 1 succeeds for
    him, and a POST to step 3 in that session resets his password although
    step 2 was never passed. *)
Lemma recovery_empty_question_reaches_step3 :
  security_question bob = None
  /\ let '(st1, resp1) := account_recovery_step1 identify_bob nobody_identified in
     resp1 = Ok (Redirect "account_recovery_step2")
     /\ session_get st1 "security_question" = PyNone
     /\ let '(st3, resp3) :=
          account_recovery_step3
            (post [("new_password", "a new passphrase");
                   ("new_password_confirm", "a new passphrase")]) st1 in
        resp3 = Ok (Redirect "login")
        /\ users st3 = [alice; set_password "s2" (Some "a new passphrase") bob]
        /\ password <$> (users st3 !! 1) = Some (Some ("s2", "a new passphrase"))
        /\ password bob = Some ("s0", "old password").
Proof. vm_compute. repeat split; reflexivity. Qed.

End RecoveryExamples.

(** * Further properties of the code *)

(** ** criminals/views.py: the views by jurisdiction, type and class *)

Module ClassViews.

Definition FEDERAL_CLASS_CHOICES : list (string * string) :=
  [ ("A", "Class A"); ("B", "Class B"); ("C", "Class C"); ("D", "Class D");
    ("E", "Class E"); ("NA", "Infraction") ].

Definition VACODE_CLASS_CHOICES : list (string * string) :=
  [ ("1", "Class 1"); ("2", "Class 2"); ("3", "Class 3"); ("4", "Class 4");
    ("5", "Class 5"); ("6", "Class 6"); ("NA", "Infraction") ].

(** A dictionary in insertion order whose keys are strings or [None]. *)
Definition odict (V : Type) : Type := list (option string * V).

Fixpoint odict_get {V : Type} (key : option string) (d : odict V) : option V :=
  match d with
  | [] => None
  | (k, v) :: rest => if decide (k = key) then Some v else odict_get key rest
  end.

(** [d.setdefault(key, []).append(x)] *)
Fixpoint setdefault_append {A : Type} (key : option string) (x : A)
    (d : odict (list A)) : odict (list A) :=
  match d with
  | [] => [(key, [x])]
  | (k, v) :: rest =>
      if decide (k = key) then (k, (v ++ [x])%list) :: rest
      else (k, v) :: setdefault_append key x rest
  end.

(** [request.GET]: each key with the values given for it. *)
Definition query : Type := list (string * list string).

(** [request.GET.get(key, default)]: the last value of the key, [None]
    standing for the default. *)
Definition query_get (key : string) (q : query) : option string :=
  match List.find (fun kv => bool_decide (kv.1 = key)) q with
  | Some (_, values) => last values
  | None => None
  end.

(** [params = q.copy(); params.pop(key, None)] *)
Definition query_pop (key : string) (q : query) : query :=
  List.filter (fun kv => negb (bool_decide (kv.1 = key))) q.

(** A section handed to the template: its label, the list given to
    [Paginator(criminals, 10)] with the page asked for, its page key, and the
    other query parameters ([params.urlencode()], before encoding). *)
Record section : Type := {
  label : option string;
  object_list : list listed;
  per_page : nat;
  page_number : option string;
  page_key : string;
  params : query
}.

Definition paginate_classified_criminals (GET : query)
    (class_categories : odict (list listed)) (class_labels : odict string)
  : list section :=
  omap (fun item : option string * list listed =>
          let '(cls, criminals) := item in
          match criminals with
          | [] => None
          | _ =>
              let page_key :=
                "page_" ++ match cls with
                           | Some c => if bool_decide (c = "") then "unknown"
                                       else PyStr.lower c
                           | None => "unknown"
                           end in
              Some {| label :=
                        match odict_get cls class_labels with
                        | Some l => Some l
                        | None => cls
                        end;
                      object_list := criminals;
                      per_page := 10;
                      page_number := query_get page_key GET;
                      page_key := page_key;
                      params := query_pop page_key GET |}
          end)
       class_categories.

(** One iteration of [for criminal in criminals] of
    [filter_and_render_by_class]. *)
Definition classify_one (score : nat) (source_key : string)
    (class_categories : odict (list listed)) (criminal : CriminalObj)
  : result (odict (list listed)) :=
  match get_highest_offense criminal with
  | Raise e => Raise e
  | Ok (score_val, src, Some offense) =>
      if (score_val =? score)%nat && bool_decide (src = Some source_key)
      then Ok (setdefault_append (Some (offense_class (row offense)))
                                 (criminal, offense) class_categories)
      else Ok class_categories
  | Ok (_, _, None) => Ok class_categories
  end.

Fixpoint classify_loop (score : nat) (source_key : string)
    (criminals : list CriminalObj) (class_categories : odict (list listed))
  : result (odict (list listed)) :=
  match criminals with
  | [] => Ok class_categories
  | criminal :: rest =>
      match classify_one score source_key class_categories criminal with
      | Ok class_categories' => classify_loop score source_key rest class_categories'
      | Raise e => Raise e
      end
  end.

(** [filter_and_render_by_class(request, offense_cls, label, score,
    source_key)]: the template and the sections handed to it;
    [related_name] is what the foreign key of the links is declared with. *)
Definition filter_and_render_by_class (related_name : option string)
    (GET : query) (CLASS_CHOICES : list (string * string)) (label : string)
    (score : nat) (source_key : string) (db : DB)
  : result (string * list section) :=
  match get_criminals_with_offenses related_name db with
  | Raise e => Raise e
  | Ok criminals =>
      match classify_loop score source_key criminals
              (map (fun choice : string * string => (Some choice.1, []))
                   CLASS_CHOICES) with
      | Raise e => Raise e
      | Ok class_categories =>
          let labels : odict string :=
            map (fun choice : string * string => (Some choice.1, choice.2))
                CLASS_CHOICES in
          let labels :=
            if bool_decide (is_Some (odict_get None class_categories))
            then (labels ++ [(None, "Unknown Class")])%list else labels in
          Ok ("criminals/view_" ++ label ++ ".html",
              paginate_classified_criminals GET class_categories labels)
      end
  end.

Definition view_federal_felons (related_name : option string) (GET : query)
    (db : DB) :=
  filter_and_render_by_class related_name GET FEDERAL_CLASS_CHOICES
                             "federal_felons" 3 "federal" db.

Definition view_federal_misdemeanors (related_name : option string)
    (GET : query) (db : DB) :=
  filter_and_render_by_class related_name GET FEDERAL_CLASS_CHOICES
                             "federal_misdemeanors" 2 "federal" db.

Definition view_federal_infractions (related_name : option string)
    (GET : query) (db : DB) :=
  filter_and_render_by_class related_name GET FEDERAL_CLASS_CHOICES
                             "federal_infractions" 1 "federal" db.

Definition view_state_felons (related_name : option string) (GET : query)
    (db : DB) :=
  filter_and_render_by_class related_name GET VACODE_CLASS_CHOICES
                             "state_felons" 3 "virginia" db.

Definition view_state_misdemeanors (related_name : option string)
    (GET : query) (db : DB) :=
  filter_and_render_by_class related_name GET VACODE_CLASS_CHOICES
                             "state_misdemeanors" 2 "virginia" db.

Definition view_state_infractions (related_name : option string)
    (GET : query) (db : DB) :=
  filter_and_render_by_class related_name GET VACODE_CLASS_CHOICES
                             "state_infractions" 1 "virginia" db.

End ClassViews.
Import ClassViews.

Section ListingViews.

Definition class_views
  : list (option string -> query -> DB -> result (string * list section)) :=
  [ view_federal_felons; view_federal_misdemeanors; view_federal_infractions;
    view_state_felons; view_state_misdemeanors; view_state_infractions ].

Lemma paginate_nothing (GET : query) (choices : list (string * string))
    (class_labels : odict string) :
  paginate_classified_criminals GET
    (map (fun choice : string * string => (Some choice.1, [])) choices)
    class_labels = [].
Proof.
  unfold paginate_classified_criminals.
  induction choices as [|choice choices IH]; simpl; [done|]. exact IH.
Qed.

Lemma filter_and_render_by_class_empty (related_name : option string)
    (GET : query) (choices : list (string * string)) (name : string)
    (score : nat) (source_key : string) (db : DB) :
  criminals db = [] ->
  filter_and_render_by_class related_name GET choices name score source_key db
  = Ok ("criminals/view_" ++ name ++ ".html", []).
Proof.
  intros Hnone. unfold filter_and_render_by_class, get_criminals_with_offenses.
  rewrite Hnone. simpl classify_loop. cbv iota beta zeta.
  by rewrite paginate_nothing.
Qed.

Lemma filter_and_render_by_class_undeclared (GET : query)
    (choices : list (string * string)) (name : string) (score : nat)
    (source_key : string) (db : DB) :
  criminals db ≠ [] ->
  filter_and_render_by_class criminal_related_name GET choices name score
                             source_key db
  = Raise (AttributeError "offense_links").
Proof.
  intros Hsome. unfold filter_and_render_by_class, get_criminals_with_offenses.
  by destruct (criminals db).
Qed.

(** The listing pages and the undeclared relation. With the foreign key as
    models.py declares it, [view_all_criminals] and the six views by class
    work on an empty table of persons only: there the first groups nobody
    under each of its six labels and the others render their template
    without any section. As soon as one person is stored, whatever the
    offenses and whatever the query, each of the seven raises
    [AttributeError] on [offense_links] and lists nobody. *)
Theorem listing_views_need_offense_links (GET : query) (db : DB) :
  match criminals db with
  | [] =>
      view_all_criminals_categorized criminal_related_name db
      = Ok categorized_init
      /\ (forall label, label ∈ category_labels ->
                        categorized_init !! label = Some [])
      /\ Forall (fun view =>
                   exists template,
                     view criminal_related_name GET db = Ok (template, []))
                class_views
  | _ :: _ =>
      view_all_criminals_categorized criminal_related_name db
      = Raise (AttributeError "offense_links")
      /\ Forall (fun view =>
                   view criminal_related_name GET db
                   = Raise (AttributeError "offense_links"))
                class_views
  end.
Proof.
  destruct (criminals db) as [|c rest] eqn:Hcriminals.
  - split; [|split].
    + unfold view_all_criminals_categorized, get_criminals_with_offenses.
      by rewrite Hcriminals.
    + intros label Hlabel. unfold category_labels in Hlabel.
      repeat (apply elem_of_cons in Hlabel as [->|Hlabel]; [reflexivity|]).
      by apply elem_of_nil in Hlabel.
    + unfold class_views.
      repeat (apply Forall_cons; split;
              [eexists; by apply filter_and_render_by_class_empty|]).
      apply Forall_nil_2.
  - assert (Hsome : criminals db ≠ []) by by rewrite Hcriminals.
    split.
    + unfold view_all_criminals_categorized, get_criminals_with_offenses.
      by rewrite Hcriminals.
    + unfold class_views.
      repeat (apply Forall_cons; split;
              [by apply filter_and_render_by_class_undeclared|]).
      apply Forall_nil_2.
Qed.

End ListingViews.

(** ** Creation: what each write does, whatever the tables hold *)

Section CreationSteps.

Lemma get_or_create_cases model table otype oclass desc :
  match get_or_create model table otype oclass desc with
  | Ok (table', o, created) =>
      same_triple otype oclass desc o = true
      /\ o ∈ table'
      /\ (if created
          then matching otype oclass desc table = []
               /\ table' = (table ++ [o])%list
               /\ o = {| offense_id := next_pk offense_id table;
                         offense_type := otype; description := desc;
                         offense_class := oclass |}
          else matching otype oclass desc table = [o] /\ table' = table)
  | Raise e =>
      e = MultipleObjectsReturned model
      /\ 2 <= length (matching otype oclass desc table)
  end.
Proof.
  unfold get_or_create. fold (matching otype oclass desc table).
  destruct (matching otype oclass desc table) as [|o [|o' rest]] eqn:Hm.
  - split; [by apply same_triple_true|]. split; [|done].
    apply elem_of_app. right. by apply list_elem_of_singleton.
  - assert (Hin : o ∈ matching otype oclass desc table).
    { rewrite Hm. by apply list_elem_of_singleton. }
    apply list_elem_of_In, List.filter_In in Hin as [Hin Hsame].
    split; [done|]. split; [by apply list_elem_of_In|done].
  - split; [done|]. simpl. lia.
Qed.

(** The tables with the table of one jurisdiction replaced. *)
Definition with_offense_table (is_federal : bool) (table : list CriminalOffense)
    (db : DB) : DB :=
  if is_federal
  then {| criminals := criminals db; federal_offenses := table;
          vacode_offenses := vacode_offenses db;
          offense_links := offense_links db |}
  else {| criminals := criminals db; federal_offenses := federal_offenses db;
          vacode_offenses := table; offense_links := offense_links db |}.

Definition model_name (is_federal : bool) : string :=
  if is_federal then "FederalOffense" else "VACodeOffense".

Lemma offense_get_or_create_eq is_federal otype oclass desc (w : world) :
  offense_get_or_create is_federal otype oclass desc w
  = match get_or_create (model_name is_federal)
            (offense_table is_federal (store w)) otype oclass desc with
    | Ok (table', o, _) =>
        ({| store := with_offense_table is_federal table' (store w);
            messages := messages w |}, Ok (offense_obj is_federal o))
    | Raise e => (w, Raise e)
    end.
Proof.
  unfold offense_get_or_create. destruct is_federal; simpl;
    by destruct (get_or_create _ _ _ _ _) as [[[t o] c]|e].
Qed.

End CreationSteps.

(** ** Creation: the tables only grow *)

Section Writes.

Definition new_criminal (fn ln : string) (db : DB) : Criminal :=
  {| criminal_id := next_pk criminal_id (criminals db);
     first_name := fn; last_name := ln; date_of_birth := None |}.

Definition new_offense (otype oclass desc : string)
    (table : list CriminalOffense) : CriminalOffense :=
  {| offense_id := next_pk offense_id table; offense_type := otype;
     description := desc; offense_class := oclass |}.

Definition new_link (who : Criminal) (is_federal : bool) (o : CriminalOffense)
    (db : DB) : CriminalOffenseLink :=
  {| link_id := next_pk link_id (offense_links db);
     criminal := criminal_id who;
     federal_offense := if is_federal then Some (offense_id o) else None;
     vacode_offense := if is_federal then None else Some (offense_id o);
     date_charged := None; convicted := false |}.

Definition with_criminal (c : Criminal) (db : DB) : DB :=
  {| criminals := criminals db ++ [c];
     federal_offenses := federal_offenses db;
     vacode_offenses := vacode_offenses db;
     offense_links := offense_links db |}.

Definition with_link (l : CriminalOffenseLink) (db : DB) : DB :=
  {| criminals := criminals db;
     federal_offenses := federal_offenses db;
     vacode_offenses := vacode_offenses db;
     offense_links := offense_links db ++ [l] |}.

(** The three writes of the creation code: a new criminal; a new offense row
    whose triple is not stored yet; a link from a stored criminal to a stored
    offense of one jurisdiction. *)
Inductive write_step : DB -> DB -> Prop :=
| write_criminal fn ln db :
    write_step db (with_criminal (new_criminal fn ln db) db)
| write_offense is_federal otype oclass desc db :
    matching otype oclass desc (offense_table is_federal db) = [] ->
    write_step db
      (with_offense_table is_federal
         (offense_table is_federal db
          ++ [new_offense otype oclass desc (offense_table is_federal db)])
         db)
| write_link who is_federal o db :
    who ∈ criminals db ->
    o ∈ offense_table is_federal db ->
    write_step db (with_link (new_link who is_federal o db) db).

Lemma create_criminal_eq fn ln (w : world) :
  create_criminal fn ln w
  = ({| store := with_criminal (new_criminal fn ln (store w)) (store w);
        messages := messages w |}, Ok (new_criminal fn ln (store w))).
Proof. reflexivity. Qed.

Lemma create_link_eq who is_federal o (w : world) :
  create_link who (offense_obj is_federal o) w
  = ({| store := with_link (new_link who is_federal o (store w)) (store w);
        messages := messages w |}, Ok (new_link who is_federal o (store w))).
Proof. by destruct is_federal. Qed.

Lemma with_offense_table_same is_federal db :
  with_offense_table is_federal (offense_table is_federal db) db = db.
Proof. by destruct db, is_federal. Qed.

Lemma offense_table_with is_federal table db :
  offense_table is_federal (with_offense_table is_federal table db) = table.
Proof. by destruct is_federal. Qed.

(** [offense_get_or_create], whatever the table holds: it raises and writes
    nothing, or returns a stored row of the jurisdiction after at most one
    write. *)
Lemma offense_get_or_create_writes is_federal otype oclass desc (w : world) :
  match offense_get_or_create is_federal otype oclass desc w with
  | (w', Ok obj) =>
      rtc write_step (store w) (store w')
      /\ messages w' = messages w
      /\ criminals (store w') = criminals (store w)
      /\ exists o, obj = offense_obj is_federal o
                   /\ o ∈ offense_table is_federal (store w')
  | (w', Raise e) => w' = w
  end.
Proof.
  rewrite offense_get_or_create_eq.
  pose proof (get_or_create_cases (model_name is_federal)
                (offense_table is_federal (store w)) otype oclass desc) as Hcases.
  destruct (get_or_create _ _ _ _ _) as [[[t o] created]|e]; [|done].
  destruct Hcases as (_ & Hin & Hc). simpl.
  split; [|split; [done|split; [by destruct is_federal|]]].
  - destruct created.
    + destruct Hc as (Hnone & -> & ->). apply rtc_once.
      by apply (write_offense is_federal otype oclass desc (store w)).
    + destruct Hc as [_ ->]. by rewrite with_offense_table_same.
  - exists o. split; [done|]. by rewrite offense_table_with.
Qed.

Lemma write_step_criminals db db' who :
  write_step db db' -> who ∈ criminals db -> who ∈ criminals db'.
Proof.
  intros Hstep Hin. destruct Hstep; simpl; try done.
  - apply elem_of_app. by left.
  - by destruct is_federal.
Qed.

Lemma writes_criminals db db' who :
  rtc write_step db db' -> who ∈ criminals db -> who ∈ criminals db'.
Proof.
  induction 1 as [|db1 db2 db3 Hstep _ IH]; [done|].
  intros Hin. apply IH. by apply (write_step_criminals db1).
Qed.

(** One row of the import, whatever it holds and however it ends. *)
Lemma process_row_writes (row_num : nat) (r : list string)
    (st : loop_state) (w : world) :
  (forall c, current_criminal st = Some c -> c ∈ criminals (store w)) ->
  rtc write_step (store w) (store (process_row row_num r st w).1)
  /\ forall st', (process_row row_num r st w).2 = Ok st' ->
       forall c, current_criminal st' = Some c ->
                 c ∈ criminals (store (process_row row_num r st w).1).
Proof.
  intros Hcur. destruct (process_row row_num r st w) as [w' res] eqn:Hrow.
  simpl. destruct (length r =? 6)%nat eqn:Hlen.
  - destruct (six_fields r Hlen) as (fn & ln & ty & cls & d & src & ->).
    rewrite process_row_six in Hrow. cbv zeta in Hrow.
    set (row_name := (PyStr.lower (PyStr.strip fn), PyStr.lower (PyStr.strip ln)))
      in Hrow.
    set (is_federal := bool_decide (PyStr.lower (PyStr.strip src) = "federal"))
      in Hrow.
    assert (Hfirst :
      exists w1 cur,
        (if decide (current_name st = Some row_name)
         then ret (current_criminal st)
         else (do c <- create_criminal (PyStr.strip fn) (PyStr.strip ln) ;
               ret (Some c))) w = (w1, Ok cur)
        /\ rtc write_step (store w) (store w1)
        /\ forall c, cur = Some c -> c ∈ criminals (store w1)).
    { destruct (decide (current_name st = Some row_name)).
      - exists w, (current_criminal st). split; [done|]. split; [done|exact Hcur].
      - eexists _, _. unfold bind. rewrite create_criminal_eq.
        split; [reflexivity|]. simpl. split.
        + apply rtc_once. apply write_criminal.
        + intros c [= <-]. apply elem_of_app. right.
          by apply list_elem_of_singleton. }
    destruct Hfirst as (w1 & cur & Hrun1 & Hw1 & Hcur1).
    unfold bind at 1 in Hrow. rewrite Hrun1 in Hrow. unfold bind at 1 in Hrow.
    pose proof (offense_get_or_create_writes is_federal (PyStr.strip ty)
                  (PyStr.strip cls) (PyStr.strip d) w1) as Hget.
    destruct (offense_get_or_create _ _ _ _ w1) as [w2 [obj|e]].
    + destruct Hget as (Hw2 & _ & Hcs & o & -> & Ho).
      destruct cur as [who|].
      * unfold bind in Hrow. rewrite create_link_eq in Hrow.
        unfold ret in Hrow. injection Hrow as <- <-. simpl. split.
        -- etrans; [exact Hw1|]. etrans; [exact Hw2|]. apply rtc_once.
           apply write_link; [|done]. rewrite Hcs. by apply Hcur1.
        -- intros st' Hst' c Hc. injection Hst' as <-. simpl in Hc.
           injection Hc as <-. rewrite Hcs. by apply Hcur1.
      * unfold raise in Hrow. injection Hrow as <- <-.
        split; [by etrans|done].
    + subst w2. injection Hrow as <- <-. split; [done|done].
  - destruct (process_row_malformed row_num r st w Hlen) as (w1 & Hrun & Hstore).
    rewrite Hrun in Hrow. injection Hrow as <- <-. rewrite Hstore.
    split; [done|]. intros st' Hst'. injection Hst' as <-. exact Hcur.
Qed.

Lemma process_rows_writes (items : reader) :
  forall (row_num : nat) (st : loop_state) (w : world),
    (forall c, current_criminal st = Some c -> c ∈ criminals (store w)) ->
    rtc write_step (store w) (store (process_rows row_num items st w).1).
Proof.
  induction items as [|[r|e] items IH]; intros row_num st w Hcur; simpl.
  - done.
  - unfold bind.
    destruct (process_row_writes row_num r st w Hcur) as [Hw Hnext].
    destruct (process_row row_num r st w) as [w1 [st1|e1]]; simpl in *.
    + etrans; [exact Hw|]. apply IH. by apply Hnext.
    + exact Hw.
  - done.
Qed.

(** The tables after [mass_add_criminals]: those of before, or those the
    completed row loop leaves. *)
Lemma mass_add_criminals_store (request : mass_request) (w : world) :
  store (mass_add_criminals request w).1 = store w
  \/ exists items st w',
       process_rows 2 items loop_init w = (w', Ok st)
       /\ store (mass_add_criminals request w).1 = store w'.
Proof.
  destruct request as [|[file|]]; [by left| |by left].
  destruct (decide (name file = "")) as [Hname|Hname].
  { left. unfold mass_add_criminals. by rewrite bool_decide_eq_true_2. }
  destruct (PyStr.endswith (name file) ".csv") eqn:Hcsv.
  2: { left. unfold mass_add_criminals.
       rewrite bool_decide_eq_false_2 by done. by rewrite Hcsv. }
  destruct (decoded file) as [items|e] eqn:Hdec.
  2: { left. unfold mass_add_criminals.
       rewrite bool_decide_eq_false_2 by done. rewrite Hcsv.
       unfold try_except, bind, decode. by rewrite Hdec. }
  destruct (header_rejected (header_of items)) eqn:Hhead.
  { left. apply bad_header_no_write. by exists items. }
  destruct items as [|[h|e] items]; [done| |done].
  rewrite (mass_add_criminals_run file items w).
  - destruct (process_rows 2 items loop_init w) as [w' [st|e]] eqn:Hrun.
    + right. by exists items, st, w'.
    + by left.
  - split; [done|]. split; [done|]. by exists h.
Qed.

Lemma add_criminal_writes (request : add_request) (w : world) :
  rtc write_step (store w) (store (add_criminal request w).1).
Proof.
  destruct request as [| |data]; [done|done|].
  unfold add_criminal, bind. rewrite create_criminal_eq.
  set (w1 := {| store := with_criminal _ (store w); messages := messages w |}).
  pose proof (offense_get_or_create_writes
                (bool_decide (form_offense_source data = "federal"))
                (form_offense_type data) (form_offense_class data)
                (form_description data) w1) as Hget.
  destruct (offense_get_or_create _ _ _ _ w1) as [w2 [obj|e]].
  - destruct Hget as (Hw2 & _ & Hcs & o & -> & Ho).
    rewrite create_link_eq. simpl.
    etrans; [apply rtc_once, write_criminal|]. etrans; [exact Hw2|].
    apply rtc_once. apply write_link; [|done]. rewrite Hcs. simpl.
    apply elem_of_app. right. by apply list_elem_of_singleton.
  - subst w2. simpl. apply rtc_once, write_criminal.
Qed.

Lemma mass_add_criminals_writes (request : mass_request) (w : world) :
  rtc write_step (store w) (store (mass_add_criminals request w).1).
Proof.
  destruct (mass_add_criminals_store request w) as [->|(items & st & w' & Hrun & ->)];
    [done|].
  pose proof (process_rows_writes items 2 loop_init w) as Hw.
  rewrite Hrun in Hw. apply Hw. by intros c [=].
Qed.

End Writes.

(** ** Creation: invariants of the tables *)

Section TableInvariants.

Lemma writes_invariant (P : DB -> Prop) :
  (forall db db', write_step db db' -> P db -> P db') ->
  forall db db', rtc write_step db db' -> P db -> P db'.
Proof.
  intros Hstep db db' Hrtc. induction Hrtc as [|db1 db2 db3 H12 _ IH]; [done|].
  intros HP. apply IH. by apply (Hstep db1).
Qed.

(** Every table of [db] is an initial part of the same table of [db']. *)
Definition extends (db db' : DB) : Prop :=
  criminals db `prefix_of` criminals db'
  /\ federal_offenses db `prefix_of` federal_offenses db'
  /\ vacode_offenses db `prefix_of` vacode_offenses db'
  /\ offense_links db `prefix_of` offense_links db'.

Lemma write_step_extends db db' : write_step db db' -> extends db db'.
Proof.
  intros Hstep. destruct Hstep; unfold extends; simpl.
  - split; [by apply prefix_app_r|done].
  - destruct is_federal; simpl; repeat split; try done; by apply prefix_app_r.
  - repeat split; try done. by apply prefix_app_r.
Qed.

Lemma writes_extends db db' : rtc write_step db db' -> extends db db'.
Proof.
  induction 1 as [db|db1 db2 db3 H12 _ IH]; [by repeat split|].
  apply write_step_extends in H12.
  destruct H12 as (? & ? & ? & ?), IH as (? & ? & ? & ?).
  repeat split; by etrans.
Qed.

(** Neither [add_criminal] nor [mass_add_criminals] removes or changes a
    stored row: whatever the request and however it ends, each of the four
    tables afterwards starts with the table of before. *)
Theorem creation_only_appends (w : world) :
  (forall request, extends (store w) (store (add_criminal request w).1))
  /\ (forall request, extends (store w) (store (mass_add_criminals request w).1)).
Proof.
  split; intros request; apply writes_extends.
  - apply add_criminal_writes.
  - apply mass_add_criminals_writes.
Qed.

Lemma write_step_deduplicated db db' :
  write_step db db' ->
  deduplicated (federal_offenses db) /\ deduplicated (vacode_offenses db) ->
  deduplicated (federal_offenses db') /\ deduplicated (vacode_offenses db').
Proof.
  intros Hstep [Hfed Hva]. destruct Hstep; simpl; [done| |done].
  assert (Hnew : deduplicated (offense_table is_federal db) ->
                 deduplicated
                   (offense_table is_federal db
                    ++ [new_offense otype oclass desc (offense_table is_federal db)])).
  { intros Hd ty cls d. rewrite matching_app, length_app.
    unfold matching at 2. simpl.
    destruct (same_triple ty cls d _) eqn:Hsame; simpl.
    - apply same_triple_true in Hsame as (<- & <- & <-). simpl.
      rewrite H. simpl. lia.
    - specialize (Hd ty cls d). lia. }
  destruct is_federal; simpl in *; split; try done; by apply Hnew.
Qed.

(** Deduplication by (type, class, description) is an invariant of both
    creation paths: where neither offense table stores a triple twice before
    a request to [add_criminal] or [mass_add_criminals], neither does after
    it, whatever the request and however it ends. *)
Theorem creation_keeps_deduplicated (w : world) :
  deduplicated (federal_offenses (store w)) ->
  deduplicated (vacode_offenses (store w)) ->
  (forall request,
     deduplicated (federal_offenses (store (add_criminal request w).1))
     /\ deduplicated (vacode_offenses (store (add_criminal request w).1)))
  /\ (forall request,
        deduplicated (federal_offenses (store (mass_add_criminals request w).1))
        /\ deduplicated (vacode_offenses (store (mass_add_criminals request w).1))).
Proof.
  intros Hfed Hva. split; intros request.
  - apply (writes_invariant _ write_step_deduplicated (store w));
      [apply add_criminal_writes|done].
  - apply (writes_invariant _ write_step_deduplicated (store w));
      [apply mass_add_criminals_writes|done].
Qed.

Lemma creation_keeps_deduplicated_witness :
  deduplicated
    (federal_offenses
       (store (mass_add_criminals (MassPost (Some two_bank_robberies))
                                  empty_world).1))
  /\ deduplicated
       (vacode_offenses
          (store (mass_add_criminals (MassPost (Some two_bank_robberies))
                                     empty_world).1)).
Proof.
  apply (proj2 (creation_keeps_deduplicated empty_world
                  ltac:(intros ? ? ?; simpl; lia)
                  ltac:(intros ? ? ?; simpl; lia))).
Defined.

(** Primary keys are unique in each table. *)
Definition keys_unique (db : DB) : Prop :=
  NoDup (criminal_id <$> criminals db)
  /\ NoDup (offense_id <$> federal_offenses db)
  /\ NoDup (offense_id <$> vacode_offenses db)
  /\ NoDup (link_id <$> offense_links db).

Lemma next_pk_fresh {A : Type} (pk : A -> nat) (table : list A) :
  next_pk pk table ∉ pk <$> table.
Proof.
  assert (Hlt : forall x, x ∈ table -> pk x < next_pk pk table).
  { unfold next_pk. induction table as [|y table IH]; intros x Hin.
    - by apply elem_of_nil in Hin.
    - simpl. apply elem_of_cons in Hin as [->|Hin]; [lia|].
      specialize (IH x Hin). lia. }
  intros Hin. apply list_elem_of_fmap in Hin as (x & Heq & Hin).
  specialize (Hlt x Hin). lia.
Qed.

Lemma NoDup_snoc_fresh {A : Type} (pk : A -> nat) (table : list A) (x : A) :
  pk x = next_pk pk table ->
  NoDup (pk <$> table) -> NoDup (pk <$> (table ++ [x])%list).
Proof.
  intros Hpk Hnd. rewrite fmap_app. apply NoDup_app. split; [done|]. split.
  - intros k Hk Hx. simpl in Hx. apply list_elem_of_singleton in Hx as ->.
    rewrite Hpk in Hk. by apply next_pk_fresh in Hk.
  - simpl. apply NoDup_singleton.
Qed.

Lemma write_step_keys_unique db db' :
  write_step db db' -> keys_unique db -> keys_unique db'.
Proof.
  intros Hstep (Hc & Hf & Hv & Hl). destruct Hstep; unfold keys_unique; simpl.
  - split; [by apply NoDup_snoc_fresh|done].
  - destruct is_federal; simpl; repeat split; try done;
      by apply NoDup_snoc_fresh.
  - repeat split; try done. by apply NoDup_snoc_fresh.
Qed.

(** Keys stay unique: where the primary keys of each table are pairwise
    distinct before a request to [add_criminal] or [mass_add_criminals], they
    are after it. *)
Theorem creation_keeps_keys_unique (w : world) :
  keys_unique (store w) ->
  (forall request, keys_unique (store (add_criminal request w).1))
  /\ (forall request, keys_unique (store (mass_add_criminals request w).1)).
Proof.
  intros Hkeys. split; intros request.
  - apply (writes_invariant _ write_step_keys_unique (store w));
      [apply add_criminal_writes|done].
  - apply (writes_invariant _ write_step_keys_unique (store w));
      [apply mass_add_criminals_writes|done].
Qed.

Lemma creation_keeps_keys_unique_witness :
  keys_unique
    (store (mass_add_criminals (MassPost (Some john_doe_twice)) empty_world).1).
Proof.
  apply (proj2 (creation_keeps_keys_unique empty_world
                  ltac:(repeat split; simpl; apply NoDup_nil_2))).
Defined.

(** A link whose keys resolve: its criminal is stored, it names at most one
    offense, and the offense it names is stored in the table of that
    jurisdiction. *)
Definition link_resolves (db : DB) (l : CriminalOffenseLink) : Prop :=
  criminal l ∈ criminal_id <$> criminals db
  /\ match federal_offense l, vacode_offense l with
     | Some k, None => k ∈ offense_id <$> federal_offenses db
     | None, Some k => k ∈ offense_id <$> vacode_offenses db
     | None, None => True
     | Some _, Some _ => False
     end.

Definition references_resolve (db : DB) : Prop :=
  Forall (link_resolves db) (offense_links db).

Lemma link_resolves_extends db db' l :
  extends db db' -> link_resolves db l -> link_resolves db' l.
Proof.
  intros (Hc & Hf & Hv & _) [Hcrim Hoff].
  assert (Hmono : forall {A : Type} (pk : A -> nat) (t t' : list A) k,
             t `prefix_of` t' -> k ∈ pk <$> t -> k ∈ pk <$> t').
  { intros A pk t t' k [rest ->] Hk. rewrite fmap_app. apply elem_of_app. by left. }
  split; [by apply (Hmono _ _ _ _ _ Hc)|].
  destruct (federal_offense l), (vacode_offense l); try done.
  - by apply (Hmono _ _ _ _ _ Hf).
  - by apply (Hmono _ _ _ _ _ Hv).
Qed.

Lemma write_step_references db db' :
  write_step db db' -> references_resolve db -> references_resolve db'.
Proof.
  intros Hstep Hrefs. pose proof (write_step_extends db db' Hstep) as Hext.
  assert (Hold : Forall (link_resolves db') (offense_links db)).
  { eapply Forall_impl; [exact Hrefs|]. intros l. by apply link_resolves_extends. }
  destruct Hstep; unfold references_resolve; simpl.
  - exact Hold.
  - by destruct is_federal.
  - apply Forall_app. split; [exact Hold|]. apply Forall_singleton.
    split; simpl.
    + apply list_elem_of_fmap. by exists who.
    + destruct is_federal; simpl in *; apply list_elem_of_fmap; by exists o.
Qed.

(** A link names exactly one offense. *)
Definition one_offense (l : CriminalOffenseLink) : Prop :=
  (is_Some (federal_offense l) /\ vacode_offense l = None)
  \/ (federal_offense l = None /\ is_Some (vacode_offense l)).

Lemma write_step_new_links db0 db db' :
  write_step db db' ->
  (forall l, l ∈ offense_links db -> l ∈ offense_links db0 \/ one_offense l) ->
  forall l, l ∈ offense_links db' -> l ∈ offense_links db0 \/ one_offense l.
Proof.
  intros Hstep Hold. destruct Hstep; simpl; [done|by destruct is_federal|].
  intros l [Hin|Hin]%elem_of_app; [by apply Hold|].
  apply list_elem_of_singleton in Hin as ->. right.
  destruct is_federal; [left|right]; simpl; eauto.
Qed.

(** Referential integrity is an invariant of both creation paths: where every
    stored link names a stored criminal, at most one offense, and only a
    stored offense of the jurisdiction it names, the same holds after a
    request to [add_criminal] or [mass_add_criminals]; and every link such a
    request adds names exactly one offense. *)
Theorem creation_keeps_references (w : world) :
  references_resolve (store w) ->
  (forall request,
     references_resolve (store (add_criminal request w).1)
     /\ forall l, l ∈ offense_links (store (add_criminal request w).1) ->
                  l ∈ offense_links (store w) \/ one_offense l)
  /\ (forall request,
        references_resolve (store (mass_add_criminals request w).1)
        /\ forall l, l ∈ offense_links (store (mass_add_criminals request w).1) ->
                     l ∈ offense_links (store w) \/ one_offense l).
Proof.
  intros Hrefs.
  assert (Hboth : forall db',
             rtc write_step (store w) db' ->
             references_resolve db'
             /\ forall l, l ∈ offense_links db' ->
                          l ∈ offense_links (store w) \/ one_offense l).
  { intros db' Hrtc. split.
    - by apply (writes_invariant _ write_step_references (store w)).
    - apply (writes_invariant
               (fun db => forall l, l ∈ offense_links db ->
                                    l ∈ offense_links (store w) \/ one_offense l)
               (write_step_new_links (store w)) (store w)); [done|].
      intros l Hl. by left. }
  split; intros request; apply Hboth.
  - apply add_criminal_writes.
  - apply mass_add_criminals_writes.
Qed.

Lemma creation_keeps_references_witness :
  references_resolve
    (store (mass_add_criminals (MassPost (Some john_doe_twice)) empty_world).1)
  /\ forall l,
       l ∈ offense_links
             (store (mass_add_criminals (MassPost (Some john_doe_twice))
                                        empty_world).1) ->
       l ∈ offense_links (store empty_world) \/ one_offense l.
Proof.
  apply (proj2 (creation_keeps_references empty_world
                  ltac:(apply Forall_nil_2))).
Defined.

End TableInvariants.

(** ** Bulk import: what is reported *)

Section ImportReport.

(** The warnings for the rows that do not have six fields, each with its
    line number, the first row being on line [first]. *)
Definition skip_warnings (first : nat) (rows : list (list string)) : list message :=
  omap (fun warning => warning)
    (imap (fun i r =>
             if (length r =? 6)%nat then None
             else Some (Msg WARNING ("Skipping row " ++ pretty_nat (first + i)
                                     ++ ": wrong number of fields.")))
          rows).

Lemma skip_warnings_cons (first : nat) (r : list string) rows :
  skip_warnings first (r :: rows)
  = ((if (length r =? 6)%nat then []
      else [Msg WARNING ("Skipping row " ++ pretty_nat first
                         ++ ": wrong number of fields.")])
     ++ skip_warnings (S first) rows)%list.
Proof.
  unfold skip_warnings. rewrite imap_cons. simpl omap. rewrite Nat.add_0_r.
  assert (Htail :
    imap ((fun i r0 =>
             if (length r0 =? 6)%nat then None
             else Some (Msg WARNING ("Skipping row " ++ pretty_nat (first + i)
                                     ++ ": wrong number of fields."))) ∘ S) rows
    = imap (fun i r0 =>
              if (length r0 =? 6)%nat then None
              else Some (Msg WARNING ("Skipping row " ++ pretty_nat (S first + i)
                                      ++ ": wrong number of fields."))) rows).
  { apply imap_ext. intros i x _. simpl. by rewrite Nat.add_succ_r. }
  rewrite Htail. by destruct (length r =? 6)%nat.
Qed.

Lemma process_row_malformed_flash (row_num : nat) (r : list string)
    (st : loop_state) (w : world) :
  (length r =? 6)%nat = false ->
  process_row row_num r st w
  = ({| store := store w;
        messages :=
          messages w ++ [Msg WARNING ("Skipping row " ++ pretty_nat row_num
                                      ++ ": wrong number of fields.")] |}, Ok st).
Proof. intros Hlen. unfold process_row. by rewrite Hlen. Qed.

Lemma process_rows_report (rows : list (list string)) :
  forall (row_num : nat) (st : loop_state) (w : world),
    deduplicated (federal_offenses (store w)) ->
    deduplicated (vacode_offenses (store w)) ->
    (is_Some (current_name st) -> is_Some (current_criminal st)) ->
    exists w' st',
      process_rows row_num (map Ok rows) st w = (w', Ok st')
      /\ messages w' = (messages w ++ skip_warnings row_num rows)%list
      /\ count st' = count st + length (data_rows rows)
      /\ length (offense_links (store w'))
         = length (offense_links (store w)) + length (data_rows rows).
Proof.
  induction rows as [|r rows IH]; intros row_num st w Hfed Hva Hcur.
  - exists w, st. simpl. unfold ret. rewrite app_nil_r. repeat split; lia.
  - simpl map. simpl process_rows. unfold bind at 1.
    rewrite skip_warnings_cons.
    destruct (length r =? 6)%nat eqn:Hlen.
    + destruct (six_fields r Hlen) as (fn & ln & ty & cls & d & src & ->).
      destruct (process_row_ok row_num fn ln ty cls d src st w)
        as (w1 & who & o & l & -> & _ & _ & Hlinks & _ & _ & _ & _
            & Hother & Hd & Hmsgs).
      { intros Hname. apply Hcur. by rewrite Hname. }
      { destruct (bool_decide _); [apply Hfed|apply Hva]. }
      destruct (IH (S row_num)
                   {| current_criminal := Some who;
                      current_name :=
                        Some (PyStr.lower (PyStr.strip fn),
                              PyStr.lower (PyStr.strip ln));
                      count := S (count st) |} w1)
        as (w' & st' & Hrun & Hm & Hcount & Hlen').
      { destruct (bool_decide (PyStr.lower (PyStr.strip src) = "federal"));
          simpl in *; [by apply Hd|by rewrite Hother]. }
      { destruct (bool_decide (PyStr.lower (PyStr.strip src) = "federal"));
          simpl in *; [by rewrite Hother|by apply Hd]. }
      { simpl. eauto. }
      exists w', st'. split; [exact Hrun|].
      unfold data_rows. simpl List.filter. fold (data_rows rows).
      rewrite Hm, Hmsgs, Hcount, Hlen', Hlinks, length_app. simpl.
      repeat split; lia.
    + rewrite (process_row_malformed_flash row_num r st w Hlen).
      destruct (IH (S row_num) st
                   {| store := store w;
                      messages :=
                        messages w ++
                        [Msg WARNING ("Skipping row " ++ pretty_nat row_num
                                      ++ ": wrong number of fields.")] |})
        as (w' & st' & Hrun & Hm & Hcount & Hlen'); [done|done|done|].
      exists w', st'. split; [exact Hrun|].
      unfold data_rows. simpl List.filter. rewrite Hlen. fold (data_rows rows).
      rewrite Hm. simpl. rewrite <- app_assoc. by repeat split.
Qed.

(** What a bulk import reports. For a file that is read to its end, on
    tables that store no triple twice: the import completes; it flashes one
    warning for each row that does not have six fields, naming the line of
    that row (the header is line 1), then one success message whose count is
    the number of rows with six fields; and that count is the number of links
    the import added. *)
Theorem mass_add_criminals_report (file : uploaded_file)
    (rows : list (list string)) (w : world) :
  well_headed file (map Ok rows) ->
  deduplicated (federal_offenses (store w)) ->
  deduplicated (vacode_offenses (store w)) ->
  exists w',
    mass_add_criminals (MassPost (Some file)) w = (w', Ok (Redirect "mass_add"))
    /\ messages w'
       = (messages w ++ skip_warnings 2 rows
          ++ [Msg SUCCESS ("Successfully added "
                           ++ pretty_nat (length (data_rows rows))
                           ++ " offense records.")])%list
    /\ length (offense_links (store w'))
       = length (offense_links (store w)) + length (data_rows rows).
Proof.
  intros Hfile Hfed Hva.
  rewrite (mass_add_criminals_run file _ w Hfile).
  destruct (process_rows_report rows 2 loop_init w Hfed Hva)
    as (w' & st' & -> & Hm & Hcount & Hlen).
  { simpl. by intros [? [=]]. }
  eexists. split; [reflexivity|]. simpl in *.
  rewrite Hm, Hcount, <- app_assoc. by split.
Qed.

Definition one_short_row : uploaded_file :=
  {| name := "offenses.csv";
     decoded :=
       Ok [ Ok expected_header;
            Ok ["John"; "Doe"; "Felony"; "A"; "Bank robbery"; "federal"];
            Ok ["Jane"; "Roe"; "Infraction"];
            Ok ["John"; "Doe"; "Misdemeanor"; "1"; "Petty theft"; "virginia"] ] |}.

Lemma mass_add_criminals_report_witness :
  exists w',
    mass_add_criminals (MassPost (Some one_short_row)) empty_world
    = (w', Ok (Redirect "mass_add"))
    /\ messages w'
       = [ Msg WARNING "Skipping row 3: wrong number of fields.";
           Msg SUCCESS "Successfully added 2 offense records." ]
    /\ length (offense_links (store w')) = 2.
Proof.
  destruct (mass_add_criminals_report one_short_row
              [ ["John"; "Doe"; "Felony"; "A"; "Bank robbery"; "federal"];
                ["Jane"; "Roe"; "Infraction"];
                ["John"; "Doe"; "Misdemeanor"; "1"; "Petty theft"; "virginia"] ]
              empty_world)
    as (w' & Hrun & Hm & Hlen).
  - split; [discriminate|]. split; [reflexivity|].
    eexists. split; reflexivity.
  - intros ? ? ?. simpl. lia.
  - intros ? ? ?. simpl. lia.
  - exists w'. split; [exact Hrun|]. split.
    + rewrite Hm. vm_compute. reflexivity.
    + rewrite Hlen. reflexivity.
Defined.

End ImportReport.

(** ** criminals/views.py: search by name *)

Module Search.

(** [sub in s] *)
Fixpoint contains (sub s : string) : bool :=
  String.prefix sub s
  || match s with
     | String _ s' => contains sub s'
     | EmptyString => false
     end.

(** [field__icontains=q]: containment without regard to case. *)
Definition icontains (field q : string) : bool :=
  contains (PyStr.lower q) (PyStr.lower field).

(** [search_results(request, name)]: the template, the criminals found and
    the query shown. *)
Definition search_results (name : string) (db : DB)
  : string * list Criminal * string :=
  let query := PyStr.lower (PyStr.strip name) in
  ("criminals/search.html",
   List.filter (fun c => icontains (first_name c) query
                         || icontains (last_name c) query)
               (criminals db),
   name).

End Search.
Import Search.

Section SearchFacts.

(** [q] occurs in [s]. *)
Definition occurs (q s : string) : Prop :=
  exists before after, s = before ++ q ++ after.

Lemma prefix_occurs (q s : string) :
  String.prefix q s = true <-> exists after, s = q ++ after.
Proof.
  revert s. induction q as [|c q IH]; intros s.
  - destruct s; simpl; (split; [intros _; by eexists|done]).
  - destruct s as [|c' s]; simpl; [split; [done|by intros [? [=]]]|].
    destruct (Ascii.ascii_dec c c') as [->|Hne].
    + rewrite IH. split.
      * intros [after ->]. by exists after.
      * intros [after [= ->]]. by exists after.
    + split; [done|]. intros [after [= -> _]]. done.
Qed.

Lemma contains_occurs (q s : string) : contains q s = true <-> occurs q s.
Proof.
  induction s as [|c s IH].
  - change (contains q "") with (String.prefix q "" || false).
    rewrite orb_false_r, prefix_occurs. split.
    + intros [after ->]. by exists "", after.
    + intros ([|c before] & after & Heq).
      * by exists after.
      * discriminate Heq.
  - change (contains q (String c s))
      with (String.prefix q (String c s) || contains q s).
    rewrite orb_true_iff, IH, prefix_occurs. split.
    + intros [[after ->]|(before & after & ->)].
      * by exists "", after.
      * by exists (String c before), after.
    + intros ([|c' before] & after & Heq).
      * left. by exists after.
      * right. injection Heq as -> ->. by exists before, after.
Qed.

Lemma lower_idempotent (s : string) : PyStr.lower (PyStr.lower s) = PyStr.lower s.
Proof.
  induction s as [|c s IH]; simpl; [done|]. rewrite IH. f_equal.
  unfold PyStr.lower_char.
  destruct ((65 <=? nat_of_ascii c)%nat && (nat_of_ascii c <=? 90)%nat) eqn:Hup.
  - apply andb_true_iff in Hup as [H1%Nat.leb_le H2%Nat.leb_le].
    rewrite nat_ascii_embedding by lia.
    destruct ((65 <=? nat_of_ascii c + 32)%nat && (nat_of_ascii c + 32 <=? 90)%nat)
      eqn:Hup2; [|done].
    apply andb_true_iff in Hup2 as [_ H3%Nat.leb_le]. lia.
  - by rewrite Hup.
Qed.

(** A blank name is stripped to the empty string. *)
Lemma strip_blank (s : string) :
  (forall c, c ∈ list_ascii_of_string s -> PyStr.isspace c = true) ->
  PyStr.strip s = "".
Proof.
  intros Hblank. unfold PyStr.strip.
  assert (PyStr.lstrip s = "") as ->; [|done].
  induction s as [|c s IH]; simpl; [done|].
  rewrite Hblank by (simpl; apply elem_of_cons; by left).
  apply IH. intros c' Hc'. apply Hblank. simpl. apply elem_of_cons. by right.
Qed.

(** The search lists, in the order of the table, exactly the criminals whose
    first or last name contains the name searched for, once that name is
    stripped of surrounding whitespace and case is disregarded; it echoes the
    name as given; and a blank name lists every criminal. *)
Theorem search_results_finds (name : string) (db : DB) :
  let '(template, found, shown) := search_results name db in
  let q := PyStr.lower (PyStr.strip name) in
  template = "criminals/search.html"
  /\ shown = name
  /\ found `sublist_of` criminals db
  /\ (forall c, c ∈ found <->
        c ∈ criminals db
        /\ (occurs q (PyStr.lower (first_name c))
            \/ occurs q (PyStr.lower (last_name c))))
  /\ ((forall c, c ∈ list_ascii_of_string name -> PyStr.isspace c = true) ->
      found = criminals db).
Proof.
  unfold search_results. cbv zeta. split; [done|]. split; [done|]. split.
  { induction (criminals db) as [|c cs IH]; simpl; [done|].
    destruct (_ || _); [by apply sublist_skip|by apply sublist_cons]. }
  split.
  - intros c. rewrite list_elem_of_In, List.filter_In, <- list_elem_of_In.
    unfold icontains. rewrite orb_true_iff, lower_idempotent.
    by rewrite !contains_occurs.
  - intros Hblank. rewrite (strip_blank name Hblank). simpl.
    induction (criminals db) as [|c cs IH]; simpl; [done|].
    unfold icontains at 1. simpl.
    assert (contains "" (PyStr.lower (first_name c)) = true) as ->.
    { apply contains_occurs. by exists "", (PyStr.lower (first_name c)). }
    simpl. by rewrite IH.
Qed.

End SearchFacts.

(** ** The sweep and [is_expired] *)

Section SweepFacts.
Context `{Hashers}.

Lemma delete_expired_users_kept (utcoffset : Z) (now : datetime)
    (users : list CustomUser) :
  (delete_expired_users utcoffset now users).1
  = List.filter (fun u => negb (expiration_date_lte utcoffset now u)) users.
Proof.
  unfold delete_expired_users. simpl.
  destruct (length (List.filter (expiration_date_lte utcoffset now) users)
            =? 0)%nat eqn:Hz; simpl; [|done].
  apply Nat.eqb_eq in Hz. symmetry. by apply filter_none_all.
Qed.

(** The sweep and [is_expired], at one and the same time. [is_expired]
    compares with the UTC date, the sweep with the date of the default time
    zone, which lies west of UTC (an offset of less than a day, not
    positive). Every account that [is_expired] reports is deleted by the
    sweep. While the zone is still on the day before the UTC date (the first
    hours of the UTC day), the sweep deletes those accounts and no other.
    Once the zone is on the UTC date, the sweep also deletes the accounts
    that expire on that day, which [is_expired] does not report. An account
    without expiration date is kept in both cases. *)
Theorem sweep_deletes_expired_and_expiring (utcoffset : Z) (now : datetime)
    (users : list CustomUser) (u : CustomUser) :
  u ∈ users ->
  (0 <= second_of_day now < 86400)%Z ->
  (-86400 < utcoffset <= 0)%Z ->
  let today := datetime_date now in
  let kept := (delete_expired_users utcoffset now users).1 in
  (truthy (is_expired today u) = true -> u ∉ kept)
  /\ (expiration_date u = None -> u ∈ kept)
  /\ ((second_of_day now + utcoffset < 0)%Z ->
      (u ∉ kept <-> truthy (is_expired today u) = true))
  /\ ((0 <= second_of_day now + utcoffset)%Z ->
      (u ∉ kept <-> truthy (is_expired today u) = true
                    \/ expiration_date u = Some today)
      /\ (expiration_date u = Some today ->
          truthy (is_expired today u) = false /\ u ∉ kept)).
Proof.
  intros Hin Hsecond Hoffset today kept. subst kept.
  rewrite delete_expired_users_kept.
  assert (Hkept : u ∈ List.filter
                        (fun u => negb (expiration_date_lte utcoffset now u)) users
                  <-> expiration_date_lte utcoffset now u = false).
  { rewrite list_elem_of_In, List.filter_In, <- list_elem_of_In, negb_true_iff.
    tauto. }
  rewrite Hkept. unfold expiration_date_lte, is_expired, local_date. fold today.
  assert (Hbefore : (second_of_day now + utcoffset < 0)%Z ->
                    ((second_of_day now + utcoffset) / 86400 = -1)%Z).
  { intros Hneg. symmetry. apply (Z.div_unique _ _ _
                                    (second_of_day now + utcoffset + 86400)); lia. }
  assert (Hsame : (0 <= second_of_day now + utcoffset)%Z ->
                  ((second_of_day now + utcoffset) / 86400 = 0)%Z).
  { intros Hpos. apply Z.div_small. lia. }
  destruct (expiration_date u) as [d|]; simpl.
  - rewrite Z.ltb_lt. split; [|split; [|split]].
    + intros Hlt. rewrite Z.leb_nle.
      destruct (Z.lt_ge_cases (second_of_day now + utcoffset) 0) as [Hneg|Hpos].
      * rewrite (Hbefore Hneg). lia.
      * rewrite (Hsame Hpos). lia.
    + done.
    + intros Hneg. rewrite (Hbefore Hneg), Z.leb_nle. lia.
    + intros Hpos. rewrite (Hsame Hpos), Z.leb_nle. split.
      * split; [intros Hle; destruct (decide (d = today)) as [->|];
                  [by right|left; lia]
               |intros [Hlt|[= ->]] Hgt; lia].
      * intros [= ->]. split; [|lia]. apply not_true_is_false.
        rewrite Z.ltb_lt. lia.
  - split; [done|]. split; [done|]. split.
    + intros _. split; [done|]. done.
    + intros _. split; [|done]. split; [done|]. by intros [[=]|[=]].
Qed.

End SweepFacts.

(** The account of [expired_yesterday], swept at noon UTC, in winter, on the
    day it expires. *)
Lemma sweep_deletes_expired_and_expiring_witness :
  let now := {| datetime_date := 739000%Z; second_of_day := 43200%Z |} in
  truthy (is_expired 739000%Z expired_yesterday) = false
  /\ expired_yesterday ∉ (delete_expired_users (-18000) now [expired_yesterday]).1.
Proof.
  intros now.
  apply (proj2 (proj2 (proj2 (proj2
           (@sweep_deletes_expired_and_expiring
              Reference.plain_hashers (-18000)%Z now
              [expired_yesterday] expired_yesterday
              ltac:(apply list_elem_of_singleton; reflexivity)
              ltac:(simpl; lia) ltac:(lia)))) ltac:(simpl; lia))).
  reflexivity.
Defined.

(** ** Account recovery: a successful reset, sessions without account, retries *)

Section RecoveryFlow.
Context `{Hashers} `{!PasswordPolicy}.

Lemma objects_get_Ok (p : CustomUser -> bool) (table : list CustomUser)
    (u : CustomUser) :
  objects_get p table = Ok u -> u ∈ table /\ p u = true.
Proof.
  unfold objects_get. destruct (List.filter p table) as [|u0 [|? ?]] eqn:Hf; try done.
  intros [= <-].
  assert (Hin : In u0 (List.filter p table)) by (rewrite Hf; by left).
  apply List.filter_In in Hin as [Hin Hp]. split; [by apply list_elem_of_In|done].
Qed.

Lemma save_ids (self : CustomUser) (table : list CustomUser) :
  map id (save self table) = map id table.
Proof.
  unfold save. induction table as [|u table IH]; simpl; [done|].
  rewrite IH. f_equal. destruct (id u =? id self)%nat eqn:Heq; [|done].
  by apply Nat.eqb_eq in Heq.
Qed.

Lemma save_elem (self : CustomUser) (table : list CustomUser) (u' : CustomUser) :
  u' ∈ save self table <->
  exists u, u ∈ table /\ u' = if (id u =? id self)%nat then self else u.
Proof.
  unfold save. rewrite list_elem_of_In, in_map_iff. split.
  - intros (u & <- & Hin). exists u. by rewrite list_elem_of_In.
  - intros (u & Hin & ->). exists u. by rewrite <- list_elem_of_In.
Qed.

(** A successful step 3. With the two passwords equal, the account of the
    session found and the password accepted by the policy: the response is
    the redirect to the login page; the session is emptied; the stored
    account is the one found with its password set, which checks against the
    new password and against nothing else; no account is added or removed,
    and every account with another key is left as it was. *)
Theorem recovery_step3_resets_password (req : request) (st : state)
    (user : CustomUser) (new_password : string) :
  truthy (session_get st "recovery_user_id") = true ->
  http_method req = POST ->
  post_data req !! "new_password" = Some new_password ->
  post_data req !! "new_password_confirm" = Some new_password ->
  get_by_id (session_get st "recovery_user_id") (users st) = Ok user ->
  validate_password (Some new_password) user = Valid ->
  let '(st', resp) := account_recovery_step3 req st in
  resp = Ok (Redirect "login")
  /\ session st' = ∅
  /\ (forall key, session_get st' key = PyNone)
  /\ map id (users st') = map id (users st)
  /\ set_password (salt req) (Some new_password) user ∈ users st'
  /\ (forall u', u' ∈ users st' -> id u' = id user ->
        u' = set_password (salt req) (Some new_password) user
        /\ forall raw, check_password (Some raw) (password u') = true
                       <-> raw = new_password)
  /\ (forall u, u ∈ users st -> id u ≠ id user -> u ∈ users st').
Proof.
  intros Hid Hpost Hnew Hconfirm Huser Hvalid. unfold account_recovery_step3.
  rewrite Hid, Hpost, Hnew, Hconfirm, Huser, Hvalid.
  rewrite bool_decide_eq_true_2 by done. simpl negb. cbv iota.
  assert (Hin : user ∈ users st).
  { unfold get_by_id in Huser. destruct (session_get st "recovery_user_id"); try done.
    by apply objects_get_Ok in Huser as [Hin _]. }
  split; [done|]. split; [done|]. split.
  { intros key. unfold session_get. simpl. by rewrite lookup_empty. }
  simpl users. split; [apply save_ids|]. split.
  { apply save_elem. exists user. split; [done|]. by rewrite Nat.eqb_refl. }
  split.
  - intros u' Hu' Hsame. apply save_elem in Hu' as (u & Hu & ->).
    destruct (id u =? id (set_password (salt req) (Some new_password) user))%nat
      eqn:Heq.
    + split; [done|]. intros raw. simpl. apply verify_make_password.
    + exfalso. apply Nat.eqb_neq in Heq. simpl in Heq. congruence.
  - intros u Hu Hne. apply save_elem. exists u. split; [done|].
    destruct (id u =? _)%nat eqn:Heq; [|done].
    apply Nat.eqb_eq in Heq. simpl in Heq. congruence.
Qed.

(** The requests that do not go to step 1. *)
Definition past_step1 (rs : list (step * request)) : Prop :=
  Forall (fun r : step * request => r.1 ≠ Step1) rs.

(** Without an account in the session (no recovery_user_id, or a false
    one), steps 2 and 3 are closed: whatever the method and the data, every
    request to them is redirected to step 1, and neither the accounts nor
    the session change. *)
Theorem recovery_requires_identification (rs : list (step * request)) :
  forall st,
    truthy (session_get st "recovery_user_id") = false ->
    past_step1 rs ->
    let '(st', resps) := serve_all st rs in
    Forall (fun resp => resp = Ok (Redirect "account_recovery_step1")) resps
    /\ users st' = users st /\ session st' = session st.
Proof.
  induction rs as [|[s req] rs IH]; intros st Hid Hrs; simpl.
  - by split.
  - apply Forall_cons in Hrs as [Hs Hrs]. simpl in Hs.
    assert (Hserve : serve st (s, req)
                     = (flash_error "Session expired or invalid. Please start over." st,
                        Ok (Redirect "account_recovery_step1"))).
    { unfold serve. simpl. destruct s; [done| |].
      - unfold account_recovery_step2. by rewrite Hid.
      - unfold account_recovery_step3. by rewrite Hid. }
    rewrite Hserve.
    specialize (IH (flash_error "Session expired or invalid. Please start over." st)
                   Hid Hrs).
    destruct (serve_all _ rs) as [st' resps]. destruct IH as (Hall & Hu & Hs').
    split; [by constructor|]. by split.
Qed.

(** A POST to step 2 with a wrong answer. *)
Definition wrong_answer (stored : string) (req : request) : Prop :=
  http_method req = POST
  /\ exists answer, post_data req !! "security_answer" = Some answer
                    /\ PyStr.strip answer ≠ stored.

Lemma step2_wrong_answer (req : request) (st : state) (user : CustomUser)
    (salt0 stored : string) :
  truthy (session_get st "recovery_user_id") = true ->
  truthy (session_get st "security_question") = true ->
  get_by_id (session_get st "recovery_user_id") (users st) = Ok user ->
  security_answer user = Some (make_password salt0 stored) ->
  wrong_answer stored req ->
  account_recovery_step2 req st
  = (flash_error "Incorrect security answer." st,
     Ok (Render "users/account_recovery_step2.html")).
Proof.
  intros Hid Hq Huser Hstored (Hpost & answer & Hanswer & Hwrong).
  unfold account_recovery_step2.
  rewrite Hid, Hq, Hpost, Hanswer, Huser. simpl orb. cbv iota.
  unfold check_password. rewrite Hstored.
  destruct (verify _ _) eqn:Hv; [|done].
  by apply verify_make_password in Hv.
Qed.

(** Wrong answers do not use the session up. After any number of POSTs to
    step 2 with wrong answers, each answered with the step-2 page and one
    error message, the accounts and the session are as before, and a POST
    with the right answer (up to surrounding whitespace) still leads to
    step 3. *)
Theorem recovery_step2_allows_retries (reqs : list request) :
  forall (st : state) (user : CustomUser) (salt0 stored : string),
    truthy (session_get st "recovery_user_id") = true ->
    truthy (session_get st "security_question") = true ->
    get_by_id (session_get st "recovery_user_id") (users st) = Ok user ->
    security_answer user = Some (make_password salt0 stored) ->
    Forall (wrong_answer stored) reqs ->
    let '(st', resps) := serve_all st (map (fun req => (Step2, req)) reqs) in
    Forall (fun resp => resp = Ok (Render "users/account_recovery_step2.html"))
           resps
    /\ users st' = users st
    /\ session st' = session st
    /\ flashes st'
       = (flashes st
          ++ replicate (length reqs) (Msg ERROR "Incorrect security answer."))%list
    /\ forall req answer,
         http_method req = POST ->
         post_data req !! "security_answer" = Some answer ->
         PyStr.strip answer = stored ->
         account_recovery_step2 req st'
         = (st', Ok (Redirect "account_recovery_step3")).
Proof.
  induction reqs as [|req reqs IH];
    intros st user salt0 stored Hid Hq Huser Hstored Hwrong; simpl.
  - split; [done|]. split; [done|]. split; [done|].
    split; [by rewrite app_nil_r|].
    intros req answer Hpost Hanswer Hright. unfold account_recovery_step2.
    rewrite Hid, Hq, Hpost, Hanswer, Huser. simpl orb. cbv iota.
    unfold check_password. rewrite Hstored.
    by rewrite (proj2 (verify_make_password salt0 _ _) Hright).
  - apply Forall_cons in Hwrong as [Hreq Hwrong].
    unfold serve. simpl.
    rewrite (step2_wrong_answer req st user salt0 stored Hid Hq Huser Hstored Hreq).
    specialize (IH (flash_error "Incorrect security answer." st) user salt0 stored
                   Hid Hq Huser Hstored Hwrong).
    destruct (serve_all _ _) as [st' resps].
    destruct IH as (Hall & Hu & Hs & Hf & Hright).
    split; [by constructor|]. split; [done|]. split; [done|].
    split; [|done]. rewrite Hf. simpl. by rewrite <- app_assoc.
Qed.

End RecoveryFlow.

Section RecoveryFlowExamples.
#[local] Existing Instance Reference.plain_hashers.
#[local] Existing Instance Reference.length_and_numeric_policy.

Lemma recovery_step3_resets_password_witness :
  let req := post [("new_password", "a new passphrase");
                   ("new_password_confirm", "a new passphrase")] in
  let '(st', resp) := account_recovery_step3 req alice_identified in
  resp = Ok (Redirect "login")
  /\ session st' = ∅
  /\ users st' = [set_password "s2" (Some "a new passphrase") alice; bob].
Proof.
  intros req.
  pose proof (recovery_step3_resets_password req alice_identified alice
                "a new passphrase" eq_refl eq_refl eq_refl eq_refl eq_refl eq_refl)
    as Hreset.
  destruct (account_recovery_step3 req alice_identified) as [st' resp] eqn:Hrun.
  destruct Hreset as (Hresp & Hsession & _).
  split; [exact Hresp|]. split; [exact Hsession|].
  vm_compute in Hrun. injection Hrun as <- _. reflexivity.
Defined.

Lemma recovery_requires_identification_witness :
  let '(st', resps) :=
    serve_all nobody_identified
      [ (Step2, post [("security_answer", "blue")]);
        (Step3, post [("new_password", "a new passphrase");
                      ("new_password_confirm", "a new passphrase")]) ] in
  Forall (fun resp => resp = Ok (Redirect "account_recovery_step1")) resps
  /\ users st' = users nobody_identified
  /\ session st' = session nobody_identified.
Proof.
  apply (recovery_requires_identification
           [ (Step2, post [("security_answer", "blue")]);
             (Step3, post [("new_password", "a new passphrase");
                           ("new_password_confirm", "a new passphrase")]) ]
           nobody_identified).
  - reflexivity.
  - repeat constructor; discriminate.
Defined.

Lemma recovery_step2_allows_retries_witness :
  let '(st', resps) :=
    serve_all alice_identified
      (map (fun req => (Step2, req))
           [ post [("security_answer", "Blue")];
             post [("security_answer", "red")] ]) in
  Forall (fun resp => resp = Ok (Render "users/account_recovery_step2.html")) resps
  /\ users st' = users alice_identified
  /\ session st' = session alice_identified
  /\ flashes st'
     = [ Msg ERROR "Incorrect security answer.";
         Msg ERROR "Incorrect security answer." ]
  /\ forall req answer,
       http_method req = POST ->
       post_data req !! "security_answer" = Some answer ->
       PyStr.strip answer = "blue" ->
       account_recovery_step2 req st'
       = (st', Ok (Redirect "account_recovery_step3")).
Proof.
  apply (recovery_step2_allows_retries
           [ post [("security_answer", "Blue")];
             post [("security_answer", "red")] ]
           alice_identified alice "s1" "blue").
  - reflexivity.
  - reflexivity.
  - reflexivity.
  - reflexivity.
  - repeat constructor; eexists; (split; [reflexivity|discriminate]).
Defined.

End RecoveryFlowExamples.

(** ** user/views.py and user/forms.py: first login, forced reset, security question

    The views are embedded below [login_required]: [user] is [request.user],
    the account of the authenticated client. *)

Module FirstLogin.

(** An error of a form, by field. *)
Inductive form_error : Type :=
| Required (field : string)
| TooLong (field : string)
| NullCharacters (field : string)
| PasswordMismatch
| PasswordRejected (msgs : list string).

(** How the validation of a form ends. *)
Inductive form_outcome (A : Type) : Type :=
| FormValid (cleaned_data : A)
| FormInvalid (errors : list form_error)
| FormRaises (e : exn).
Arguments FormValid {A} cleaned_data.
Arguments FormInvalid {A} errors.
Arguments FormRaises {A} e.

Fixpoint has_null (s : string) : bool :=
  match s with
  | String c s' => (nat_of_ascii c =? 0)%nat || has_null s'
  | EmptyString => false
  end.

(** [forms.CharField(required=, strip=, max_length=).clean(value)] for a
    field whose empty value is the empty string: the cleaned value, or the
    errors. The value is stripped first when [strip] is set; an empty value
    is an error when the field is required and is not validated further;
    the validators are the length limit, when there is one, and the
    prohibition of null characters. *)
Definition CharField_clean (field : string) (required strip : bool)
    (max_length : option nat) (value : option string)
  : string + list form_error :=
  let v := default "" value in
  let v := if strip then PyStr.strip v else v in
  if bool_decide (v = "") then
    if required then inr [Required field] else inl ""
  else
    match
      ((match max_length with
        | Some n => if (n <? String.length v)%nat then [TooLong field] else []
        | None => []
        end)
       ++ (if has_null v then [NullCharacters field] else []))%list
    with
    | [] => inl v
    | errors => inr errors
    end.

Definition field_errors {A : Type} (r : A + list form_error) : list form_error :=
  match r with inl _ => [] | inr errors => errors end.

Section Forms.
Context `{Hashers} `{!PasswordPolicy}.

(** [get_session_auth_hash()], a function of the stored password. *)
Variable session_auth_hash : option encoded -> string.

(** [PasswordResetNoOldForm(POST, instance=user).is_valid()]: both fields
    are required and are not stripped; when the second is clean,
    [clean_new_password2] refuses two different passwords, then runs the
    password validators on the second. The cleaned data is [new_password1]. *)
Definition PasswordResetNoOldForm_clean (POST_ : gmap string string)
    (instance : CustomUser) : form_outcome string :=
  let new_password1 :=
    CharField_clean "new_password1" true false None (POST_ !! "new_password1") in
  let new_password2 :=
    CharField_clean "new_password2" true false None (POST_ !! "new_password2") in
  match new_password2 with
  | inr errors2 => FormInvalid (field_errors new_password1 ++ errors2)
  | inl password2 =>
      if match new_password1 with
         | inl password1 => negb (bool_decide (password1 = password2))
         | inr _ => false
         end
      then FormInvalid [PasswordMismatch]
      else
        match validate_password (Some password2) instance with
        | ValidatorRaises e => FormRaises e
        | ValidationError msgs =>
            FormInvalid (field_errors new_password1 ++ [PasswordRejected msgs])
        | Valid =>
            match new_password1 with
            | inl password1 => FormValid password1
            | inr errors1 => FormInvalid errors1
            end
        end
  end.

(** [check_first_login(request)] *)
Definition check_first_login (user : CustomUser) : response :=
  if first_login user && negb (is_superuser user)
  then Redirect "force_password_reset"
  else Redirect "home".

Definition with_first_login (b : bool) (self : CustomUser) : CustomUser :=
  {| id := id self; username := username self; email := email self;
     password := password self; is_staff := is_staff self;
     is_superuser := is_superuser self; first_login := b;
     security_question := security_question self;
     security_answer := security_answer self;
     expiration_date := expiration_date self |}.

(** [force_password_reset(request)] *)
Definition force_password_reset (user : CustomUser) (req : request) (st : state)
  : state * result response :=
  match http_method req with
  | POST =>
      match PasswordResetNoOldForm_clean (post_data req) user with
      | FormValid new_password1 =>
          let user1 := set_password (salt req) (Some new_password1) user in
          let user2 := with_first_login false user1 in
          ({| users := save user2 (save user1 (users st));
              session :=
                <["_auth_user_hash" := PyStr (session_auth_hash (password user1))]>
                  (session st);
              flashes :=
                flashes st ++ [Msg SUCCESS "Password changed successfully."] |},
           Ok (Redirect "setup_security_question"))
      | FormInvalid _ => (st, Ok (Render "user/force_password_reset.html"))
      | FormRaises e => (st, Raise e)
      end
  | GET => (st, Ok (Render "user/force_password_reset.html"))
  end.






End Forms.

End FirstLogin.
Import FirstLogin.

(** ** The forced password reset and the security question *)

Section FirstLoginFacts.
Context `{Hashers} `{!PasswordPolicy}.
Variable session_auth_hash : option encoded -> string.


Lemma CharField_clean_password (field : string) (value : option string)
    (v : string) :
  CharField_clean field true false None value = inl v
  <-> value = Some v /\ v ≠ "" /\ has_null v = false.
Proof.
  unfold CharField_clean. destruct value as [s|]; simpl.
  - destruct (bool_decide (s = "")) eqn:Hs.
    + apply bool_decide_eq_true in Hs. subst s. split; [done|]. intros ([= <-] & ? & _). done.
    + apply bool_decide_eq_false in Hs. destruct (has_null s) eqn:Hn; simpl.
      * split; [done|]. intros ([= ->] & _ & ?). congruence.
      * split; [by intros [= ->]|]. by intros ([= ->] & _).
  - split; [done|]. by intros (? & _).
Qed.


(** The form of the forced reset accepts a request exactly when the two
    fields hold one and the same password, which is not empty, has no null
    character and passes the password validators. *)
Lemma PasswordResetNoOldForm_accepts (POST_ : gmap string string)
    (instance : CustomUser) (p : string) :
  PasswordResetNoOldForm_clean POST_ instance = FormValid p
  <-> POST_ !! "new_password1" = Some p
      /\ POST_ !! "new_password2" = Some p
      /\ p ≠ "" /\ has_null p = false
      /\ validate_password (Some p) instance = Valid.
Proof.
  unfold PasswordResetNoOldForm_clean.
  destruct (CharField_clean "new_password2" _ _ _ _) as [p2|errors2] eqn:H2.
  - apply CharField_clean_password in H2 as (H2 & Hne2 & Hn2).
    destruct (CharField_clean "new_password1" _ _ _ _) as [p1|errors1] eqn:H1.
    + apply CharField_clean_password in H1 as (H1 & Hne1 & Hn1).
      destruct (bool_decide (p1 = p2)) eqn:Heq; simpl.
      * apply bool_decide_eq_true in Heq. subst p2.
        destruct (validate_password (Some p1) instance) eqn:Hv.
        -- split; [intros [= <-]; done|]. intros (Hp & _). congruence.
        -- split; [done|]. intros (Hp & _ & _ & _ & Hv'). congruence.
        -- split; [done|]. intros (Hp & _ & _ & _ & Hv'). congruence.
      * apply bool_decide_eq_false in Heq. split; [done|].
        intros (Hp1 & Hp2 & _). congruence.
    + simpl. assert (Hno : forall v, ~ (POST_ !! "new_password1" = Some v
                                        /\ v ≠ "" /\ has_null v = false)).
      { intros v Hv. apply (CharField_clean_password "new_password1") in Hv.
        congruence. }
      destruct (validate_password (Some p2) instance);
        (split; [done|]; intros (Hp1 & _ & Hne & Hn & _); by destruct (Hno p)).
  - split; [done|]. intros (_ & Hp2 & Hne & Hn & _).
    assert (Hok : CharField_clean "new_password2" true false None
                    (POST_ !! "new_password2") = inl p)
      by by apply CharField_clean_password.
    congruence.
Qed.





(** No forced reset without a validated password. Whatever the request,
    either it is a POST whose two fields hold the same password, which the
    validators accept for this account, or nothing is written: accounts,
    session and messages stay as they were and the response is not the
    redirect to the next page. *)
Theorem force_password_reset_only_validated (user : CustomUser)
    (req : request) (st : state) :
  let '(st', resp) := force_password_reset session_auth_hash user req st in
  (exists p, http_method req = POST
             /\ post_data req !! "new_password1" = Some p
             /\ post_data req !! "new_password2" = Some p
             /\ validate_password (Some p) user = Valid
             /\ resp = Ok (Redirect "setup_security_question"))
  \/ (st' = st /\ resp ≠ Ok (Redirect "setup_security_question")).
Proof.
  unfold force_password_reset. destruct (http_method req) eqn:Hmethod.
  - by right.
  - destruct (PasswordResetNoOldForm_clean (post_data req) user) as [p| |]
      eqn:Hform; [|by right..].
    apply PasswordResetNoOldForm_accepts in Hform as (Hp1 & Hp2 & _ & _ & Hv).
    left. by exists p.
Qed.






End FirstLoginFacts.

Section FirstLoginExamples.
#[local] Existing Instance Reference.plain_hashers.
#[local] Existing Instance Reference.length_and_numeric_policy.





End FirstLoginExamples.

(** ** user/views.py: bulk creation of accounts *)

Module BulkUsers.

(** [string.ascii_letters] and [string.digits] *)
Definition ascii_letters : string :=
  "abcdefghijklmnopqrstuvwxyzABCDEFGHIJKLMNOPQRSTUVWXYZ".

Definition digits : string := "0123456789".

(** [email.split("@")[0]]: what comes before the first at sign, the whole
    string when there is none. *)
Fixpoint before_at (email : string) : string :=
  match email with
  | String c rest =>
      if (nat_of_ascii c =? 64)%nat then EmptyString
      else String c (before_at rest)
  | EmptyString => EmptyString
  end.

(** The keyword arguments that the view passes to
    [User.objects.create_user]. *)
Record new_user : Type := {
  new_username : string;
  new_email : string;
  new_first_name : string;
  new_last_name : string;
  new_expiration_date : string;
  new_password : string;
  new_first_login : bool
}.

(** What the view answers: a page or a redirect, or the CSV attachment,
    kept as the rows handed to [csv.writer]. *)
Inductive users_response : Type :=
| Page (r : response)
| Attachment (filename : string) (rows : list (list string)).

Definition expected_header : list string :=
  [ "first_name"; "last_name"; "email"; "expiration_date" ].

(** The first row written to the attachment. *)
Definition credentials_header : list string :=
  [ "first_name"; "last_name"; "email"; "username"; "temporary_password" ].

(** [not header or [h.strip().lower() for h in header] != expected_header] *)
Definition header_refused (header : option (list string)) : bool :=
  match header with
  | None | Some [] => true
  | Some h =>
      negb (bool_decide
              (map (fun x => PyStr.lower (PyStr.strip x)) h = expected_header))
  end.

(** [next(reader, None)] *)
Definition first_item (items : reader) : result (option (list string)) :=
  match items with
  | [] => Ok None
  | Ok h :: _ => Ok (Some h)
  | Raise e :: _ => Raise e
  end.

Section Views.
Context `{Hashers}.

(** The random source of [secrets]: [randbelow i n] is what the [i]-th draw
    of the request yields when asked for a number below [n]. *)
Variable randbelow : nat -> nat -> nat.

(** [User.objects.create_user] with these keyword arguments, on the user
    table: the table with the new row, or the exception raised. *)
Variable create_user : new_user -> list CustomUser -> result (list CustomUser).

(** [secrets.choice(seq)] at draw [i]: [seq[randbelow(len(seq))]]. *)
Definition secrets_choice (seq : string) (i : nat) : result ascii :=
  match String.get (randbelow i (String.length seq)) seq with
  | Some c => Ok c
  | None => Raise (OtherError "IndexError")
  end.

(** [generate_temp_password(length)], when [drawn] draws were made before:
    the characters that [secrets.choice(characters)] yields, [length] times,
    joined. *)
Fixpoint generate_temp_password (length drawn : nat) : result string :=
  let characters := (ascii_letters ++ digits)%string in
  match length with
  | 0 => Ok EmptyString
  | S length' =>
      match secrets_choice characters drawn with
      | Ok c =>
          match generate_temp_password length' (S drawn) with
          | Ok rest => Ok (String c rest)
          | Raise e => Raise e
          end
      | Raise e => Raise e
      end
  end.

(** The variables of the row loop: the user table, the rows written to
    the attachment, the flash messages, and the number of draws made. *)
Record import_state : Type := {
  accounts : list CustomUser;
  credentials : list (list string);
  notices : list message;
  drawn : nat
}.

(** The body of [for row_num, row in enumerate(reader, start=2)]. *)
Definition create_row (row_num : nat) (row : list string) (s : import_state)
  : import_state * result unit :=
  if negb (length row =? 4)%nat then
    ({| accounts := accounts s; credentials := credentials s;
        notices :=
          (notices s
           ++ [Msg WARNING ("Skipping row " ++ pretty_nat row_num
                            ++ ": wrong number of fields.")])%list;
        drawn := drawn s |}, Ok tt)
  else
    match row with
    | [first_name; last_name; email; expiration_date] =>
        let username := before_at email in
        match generate_temp_password 6 (drawn s) with
        | Raise e => (s, Raise e)
        | Ok temp_password =>
            let s1 := {| accounts := accounts s; credentials := credentials s;
                         notices := notices s; drawn := drawn s + 6 |} in
            match create_user
                    {| new_username := username; new_email := email;
                       new_first_name := first_name;
                       new_last_name := last_name;
                       new_expiration_date := expiration_date;
                       new_password := temp_password;
                       new_first_login := true |}
                    (accounts s) with
            | Raise e => (s1, Raise e)
            | Ok table =>
                ({| accounts := table;
                    credentials :=
                      (credentials s
                       ++ [[first_name; last_name; email; username;
                            temp_password]])%list;
                    notices := notices s;
                    drawn := drawn s + 6 |}, Ok tt)
            end
        end
    | _ => (s, Raise (OtherError "ValueError"))
    end.

(** The row loop: it ends at the first item the reader fails to yield and
    at the first row whose processing raises. *)
Fixpoint create_rows (row_num : nat) (items : reader) (s : import_state)
  : import_state * result unit :=
  match items with
  | [] => (s, Ok tt)
  | Raise e :: _ => (s, Raise e)
  | Ok row :: rest =>
      match create_row row_num row s with
      | (s', Ok _) => create_rows (S row_num) rest s'
      | (s', Raise e) => (s', Raise e)
      end
  end.

Definition add_message (m : message) (st : state) : state :=
  {| users := users st; session := session st;
     flashes := (flashes st ++ [m])%list |}.

(** [mass_add_users(request)]. The rows are created inside
    [transaction.atomic()], itself inside [try ... except Exception]: when
    anything raises, the user table is as it was on entry, while the
    warnings already queued stay. *)
Definition mass_add_users (request : mass_request) (st : state)
  : state * users_response :=
  match request with
  | MassPost (Some csv_file) =>
      if bool_decide (name csv_file = "") then
        (st, Page (Render "user/create_new_users.html"))
      else if negb (PyStr.endswith (name csv_file) ".csv") then
        (add_message (Msg ERROR "Please upload a valid .csv file.") st,
         Page (Redirect "mass_add_users"))
      else
        let failed (e : exn) (queued : list message) :=
          ({| users := users st; session := session st;
              flashes :=
                (queued ++ [MsgExn ERROR "Error processing file: " e])%list |},
           Page (Redirect "mass_add_users")) in
        match decoded csv_file with
        | Raise e => failed e (flashes st)
        | Ok items =>
            match first_item items with
            | Raise e => failed e (flashes st)
            | Ok header =>
                if header_refused header then
                  (add_message
                     (Msg ERROR ("Invalid CSV header. Expected: "
                                 ++ String.concat "," expected_header)) st,
                   Page (Redirect "mass_add_users"))
                else
                  match create_rows 2 (tail items)
                          {| accounts := users st;
                             credentials := [credentials_header];
                             notices := flashes st; drawn := 0 |} with
                  | (s, Ok _) =>
                      ({| users := accounts s; session := session st;
                          flashes := notices s |},
                       Attachment "new_user_credentials.csv" (credentials s))
                  | (s, Raise e) => failed e (notices s)
                  end
            end
        end
  | MassPost None | MassGet =>
      (st, Page (Render "user/create_new_users.html"))
  end.

End Views.

End BulkUsers.
Import BulkUsers.

Section BulkUsersFacts.
Context `{Hashers}.
Variable randbelow : nat -> nat -> nat.
Variable create_user : new_user -> list CustomUser -> result (list CustomUser).

(** [c.isalnum()] on an ASCII character. *)
Definition isalnum (c : ascii) : bool :=
  let n := nat_of_ascii c in
  ((48 <=? n)%nat && (n <=? 57)%nat)
  || ((65 <=? n)%nat && (n <=? 90)%nat)
  || ((97 <=? n)%nat && (n <=? 122)%nat).

Fixpoint all_alnum (s : string) : bool :=
  match s with
  | String c rest => isalnum c && all_alnum rest
  | EmptyString => true
  end.

Lemma characters_alnum (k : nat) (c : ascii) :
  String.get k (ascii_letters ++ digits)%string = Some c -> isalnum c = true.
Proof.
  do 62 (destruct k as [|k]; [by intros [= <-]|]). done.
Qed.

Lemma characters_get (k : nat) :
  (k < 62)%nat -> is_Some (String.get k (ascii_letters ++ digits)%string).
Proof.
  intros Hk. do 62 (destruct k as [|k]; [by eexists|]). lia.
Qed.

Lemma generate_temp_password_sound (length : nat) :
  forall (drawn : nat) (password : string),
    generate_temp_password randbelow length drawn = Ok password ->
    String.length password = length /\ all_alnum password = true.
Proof.
  induction length as [|length IH]; intros drawn password; simpl.
  - by intros [= <-].
  - unfold secrets_choice.
    destruct (String.get _ _) as [c|] eqn:Hc; [|done].
    destruct (generate_temp_password randbelow length (S drawn)) as [rest|]
      eqn:Hrest; [|done].
    intros [= <-]. apply IH in Hrest as [Hlen Hall]. simpl.
    rewrite Hlen, Hall, (characters_alnum _ _ Hc). done.
Qed.

(** The temporary password. When every draw of the random source is below
    the bound it was asked for, [generate_temp_password] raises nothing: it
    returns a password of exactly the requested length, made of ASCII
    letters and digits only. *)
Theorem generate_temp_password_alnum (length drawn : nat) :
  (forall i n, (0 < n)%nat -> (randbelow i n < n)%nat) ->
  exists password,
    generate_temp_password randbelow length drawn = Ok password
    /\ String.length password = length
    /\ all_alnum password = true.
Proof.
  intros Hbelow. revert drawn.
  induction length as [|length IH]; intros drawn.
  - by exists EmptyString.
  - destruct (IH (S drawn)) as (rest & Hrest & Hlen & Hall).
    destruct (characters_get (randbelow drawn 62)) as [c Hc].
    { apply Hbelow. lia. }
    exists (String c rest). simpl generate_temp_password.
    unfold secrets_choice.
    change (String.length (ascii_letters ++ digits)) with 62%nat.
    rewrite Hc, Hrest. simpl. rewrite Hlen, Hall, (characters_alnum _ _ Hc).
    done.
Qed.

(** The rows that the loop does not skip. *)
Definition four_fields (rows : list (list string)) : list (list string) :=
  List.filter (fun row => (length row =? 4)%nat) rows.

(** What [create_user] is relied on for: when it returns, one row was
    appended, with the username and the first-login flag it was given, a
    password against which the one it was given checks, and neither staff
    nor superuser status. *)
Definition creates_account : Prop :=
  forall fields table table',
    create_user fields table = Ok table' ->
    exists u, table' = (table ++ [u])%list
              /\ username u = new_username fields
              /\ check_password (Some (new_password fields)) (password u) = true
              /\ first_login u = new_first_login fields
              /\ is_staff u = false
              /\ is_superuser u = false.

(** The username column is unique: [create_user] does not return when the
    username is taken. *)
Definition refuses_taken_username : Prop :=
  forall fields table table',
    create_user fields table = Ok table' ->
    Forall (fun u => username u ≠ new_username fields) table.

(** A row of the file, the line written to the attachment for it, and the
    account created for it. *)
Definition issued (row line : list string) (u : CustomUser) : Prop :=
  exists first_name last_name email expiration_date temp_password,
    row = [first_name; last_name; email; expiration_date]
    /\ line = [first_name; last_name; email; before_at email; temp_password]
    /\ String.length temp_password = 6%nat
    /\ all_alnum temp_password = true
    /\ username u = before_at email
    /\ check_password (Some temp_password) (password u) = true
    /\ is_staff u = false
    /\ check_first_login u = Redirect "force_password_reset".

(** The usernames that the rows of a file ask for. *)
Definition derived_usernames (rows : list (list string)) : list string :=
  map (fun row => before_at (nth 2 row "")) (four_fields rows).

Lemma create_row_skips (row_num : nat) (row : list string) (s : import_state) :
  (length row =? 4)%nat = false ->
  create_row randbelow create_user row_num row s
  = ({| accounts := accounts s; credentials := credentials s;
        notices :=
          (notices s
           ++ [Msg WARNING ("Skipping row " ++ pretty_nat row_num
                            ++ ": wrong number of fields.")])%list;
        drawn := drawn s |}, Ok tt).
Proof. intros Hlen. unfold create_row. by rewrite Hlen. Qed.

Lemma create_row_four (row_num : nat) (row : list string)
    (s s' : import_state) :
  (length row =? 4)%nat = true ->
  create_row randbelow create_user row_num row s = (s', Ok tt) ->
  exists first_name last_name email expiration_date temp_password,
    row = [first_name; last_name; email; expiration_date]
    /\ generate_temp_password randbelow 6 (drawn s) = Ok temp_password
    /\ create_user
         {| new_username := before_at email; new_email := email;
            new_first_name := first_name; new_last_name := last_name;
            new_expiration_date := expiration_date;
            new_password := temp_password; new_first_login := true |}
         (accounts s) = Ok (accounts s')
    /\ credentials s'
       = (credentials s
          ++ [[first_name; last_name; email; before_at email;
               temp_password]])%list.
Proof.
  intros Hlen. unfold create_row. rewrite Hlen. simpl negb. cbv iota.
  destruct row as [|first_name [|last_name [|email [|expiration_date [|? ?]]]]];
    try done.
  destruct (generate_temp_password randbelow 6 (drawn s)) as [temp|] eqn:Htemp;
    [|done].
  destruct (create_user _ (accounts s)) as [table|] eqn:Hcreate; [|done].
  intros [= <-]. by exists first_name, last_name, email, expiration_date, temp.
Qed.

Lemma create_rows_issued (items : reader) :
  creates_account ->
  forall (row_num : nat) (s s' : import_state),
    create_rows randbelow create_user row_num items s = (s', Ok tt) ->
    exists rows lines new,
      items = map Ok rows
      /\ credentials s' = (credentials s ++ lines)%list
      /\ accounts s' = (accounts s ++ new)%list
      /\ Forall3 issued (four_fields rows) lines new.
Proof.
  intros Hlaw. induction items as [|[row|e] items IH]; intros row_num s s'; simpl.
  - intros [= <-]. exists [], [], []. rewrite !app_nil_r.
    repeat split; constructor.
  - destruct (create_row randbelow create_user row_num row s) as [s1 [[]|e]]
      eqn:Hrow; [|done].
    intros Hrest. apply IH in Hrest as (rows & lines & new & -> & Hc & Ha & Hall).
    destruct (length row =? 4)%nat eqn:Hlen.
    + apply create_row_four in Hrow
        as (first_name & last_name & email & expiration_date & temp
            & -> & Htemp & Hcreate & Hline); [|done].
      apply Hlaw in Hcreate as (u & Hu & Hname & Hcheck & Hfirst & Hstaff & Hsuper).
      simpl in Hname, Hcheck, Hfirst.
      apply generate_temp_password_sound in Htemp as [Hsix Halnum].
      exists ([first_name; last_name; email; expiration_date] :: rows),
             ([first_name; last_name; email; before_at email; temp] :: lines),
             (u :: new).
      split; [done|]. split.
      { rewrite Hc, Hline. by rewrite <- app_assoc. }
      split.
      { rewrite Ha, Hu. by rewrite <- app_assoc. }
      unfold four_fields. simpl. constructor; [|done].
      exists first_name, last_name, email, expiration_date, temp.
      repeat split; try done.
      unfold check_first_login. by rewrite Hfirst, Hsuper.
    + rewrite create_row_skips in Hrow by done. injection Hrow as <-.
      exists (row :: rows), lines, new. split; [done|]. split; [done|].
      split; [done|]. unfold four_fields. simpl. by rewrite Hlen.
  - done.
Qed.

(** The attachment of a bulk creation. With a [create_user] that does what
    the view relies on, whatever the request: the session is left alone, and
    either the response is a page and the user table is as it was, or it is
    the attachment [new_user_credentials.csv], and then the file was read
    to its end, the attachment holds the header line followed by one line
    for each four-field row of the file, in order, and the table has grown
    by one account for each: the line gives the names and the email of the
    row, the username (the email up to its first at sign) and a temporary
    password of six letters and digits; the account has that username, its
    password is the temporary one, it is not staff, and the first-login
    gate sends it to the forced password reset. *)
Theorem mass_add_users_issues_credentials (request : mass_request)
    (st : state) :
  creates_account ->
  let '(st', resp) := mass_add_users randbelow create_user request st in
  session st' = session st
  /\ match resp with
     | Attachment filename lines =>
         filename = "new_user_credentials.csv"
         /\ exists csv_file header rows issued_lines new,
              request = MassPost (Some csv_file)
              /\ decoded csv_file = Ok (map Ok (header :: rows))
              /\ lines = credentials_header :: issued_lines
              /\ users st' = (users st ++ new)%list
              /\ Forall3 issued (four_fields rows) issued_lines new
     | Page _ => users st' = users st
     end.
Proof.
  intros Hlaw. unfold mass_add_users.
  destruct request as [|[csv_file|]]; [done| |done].
  destruct (bool_decide (name csv_file = "")); [done|].
  destruct (negb (PyStr.endswith (name csv_file) ".csv")); [done|].
  destruct (decoded csv_file) as [items|e] eqn:Hdecoded; [|done].
  destruct (first_item items) as [header|e] eqn:Hheader; [|done].
  destruct (header_refused header) eqn:Hrefused; [done|].
  destruct (create_rows _ _ _ _ _) as [s [[]|e]] eqn:Hrows; [|done].
  simpl. split; [done|]. split; [done|].
  apply (create_rows_issued _ Hlaw) in Hrows
    as (rows & lines & new & Hitems & Hc & Ha & Hall).
  simpl in Hc, Ha.
  destruct items as [|[h|e] items]; simpl in Hheader, Hitems.
  - injection Hheader as <-. done.
  - exists csv_file, h, rows, lines, new. subst items. by rewrite Hdecoded.
  - done.
Qed.

Lemma create_rows_usernames (rows : list (list string)) :
  creates_account ->
  refuses_taken_username ->
  forall (row_num : nat) (s s' : import_state),
    create_rows randbelow create_user row_num (map Ok rows) s = (s', Ok tt) ->
    NoDup (map username (accounts s)) ->
    NoDup (map username (accounts s) ++ derived_usernames rows).
Proof.
  intros Hlaw Hunique. induction rows as [|row rows IH]; intros row_num s s'; simpl.
  - intros _ Hnd. by rewrite app_nil_r.
  - destruct (create_row randbelow create_user row_num row s) as [s1 [[]|e]]
      eqn:Hrow; [|done].
    intros Hrest Hnd. unfold derived_usernames, four_fields. simpl.
    destruct (length row =? 4)%nat eqn:Hlen.
    + apply create_row_four in Hrow
        as (first_name & last_name & email & expiration_date & temp
            & -> & _ & Hcreate & _); [|done].
      pose proof (Hunique _ _ _ Hcreate) as Hfresh.
      apply Hlaw in Hcreate as (u & Hu & Hname & _).
      simpl in Hname, Hfresh.
      specialize (IH _ _ _ Hrest). rewrite Hu in IH.
      rewrite map_app, <- app_assoc in IH. simpl in IH. rewrite Hname in IH.
      apply IH. apply NoDup_app. split; [done|]. split.
      * intros x Hx Hx'. apply list_elem_of_singleton in Hx'. subst x.
        apply list_elem_of_In, in_map_iff in Hx as (v & Hv & Hin).
        rewrite Forall_forall in Hfresh. apply (Hfresh v); [|done].
        by apply list_elem_of_In.
      * apply NoDup_singleton.
    + rewrite create_row_skips in Hrow by done. injection Hrow as <-.
      by apply (IH _ _ _ Hrest).
Qed.

(** Usernames that clash. With unique usernames in the table, a
    [create_user] that does what the view relies on and does not return for
    a username that is taken: when the usernames that the four-field rows of
    a file ask for are not all different from each other and from those of
    the table (as for two emails with the same part before the at sign),
    the whole file is refused: no account is created, not even for the rows
    before the clash, and the response is a page, not the attachment. *)
Theorem mass_add_users_username_clash (csv_file : uploaded_file)
    (header : list string) (rows : list (list string)) (st : state) :
  creates_account ->
  refuses_taken_username ->
  decoded csv_file = Ok (map Ok (header :: rows)) ->
  NoDup (map username (users st)) ->
  ~ NoDup (map username (users st) ++ derived_usernames rows) ->
  let '(st', resp) :=
    mass_add_users randbelow create_user (MassPost (Some csv_file)) st in
  users st' = users st /\ exists r, resp = Page r.
Proof.
  intros Hlaw Hunique Hdecoded Hnd Hclash. unfold mass_add_users.
  destruct (bool_decide (name csv_file = "")); [by eauto|].
  destruct (negb (PyStr.endswith (name csv_file) ".csv")); [by eauto|].
  rewrite Hdecoded. simpl first_item. cbv iota.
  destruct (header_refused (Some header)); [by eauto|].
  simpl tail.
  destruct (create_rows _ _ _ _ _) as [s [[]|e]] eqn:Hrows; [|by eauto].
  exfalso. apply Hclash.
  by apply (create_rows_usernames rows Hlaw Hunique _ _ _ Hrows).
Qed.

End BulkUsersFacts.

Section BulkUsersExamples.
#[local] Existing Instance Reference.plain_hashers.

(** A random source for the examples. *)
Definition sample_randbelow (i n : nat) : nat := ((7 * i + 3) mod n)%nat.

(** A user manager for the examples: it refuses an empty username and a
    username that is taken, and keeps no expiration date. *)
Definition sample_create_user (fields : new_user) (table : list CustomUser)
  : result (list CustomUser) :=
  if bool_decide (new_username fields = "") then
    Raise (OtherError "ValueError")
  else if existsb (fun u => bool_decide (username u = new_username fields)) table
  then Raise (OtherError "IntegrityError")
  else
    Ok (table
        ++ [{| id := next_pk id table;
               username := new_username fields;
               email := new_email fields;
               password := Some (make_password "s3" (new_password fields));
               is_staff := false; is_superuser := false;
               first_login := new_first_login fields;
               security_question := None; security_answer := None;
               expiration_date := None |}])%list.

Lemma sample_creates_account : creates_account sample_create_user.
Proof.
  intros fields table table'. unfold sample_create_user.
  destruct (bool_decide (new_username fields = "")); [done|].
  destruct (existsb _ table); [done|].
  intros [= <-]. eexists. split; [done|]. simpl.
  repeat split; try done. unfold Reference.plain_verify. simpl.
  by apply bool_decide_eq_true.
Qed.

Lemma sample_refuses_taken_username :
  refuses_taken_username sample_create_user.
Proof.
  intros fields table table'. unfold sample_create_user.
  destruct (bool_decide (new_username fields = "")); [done|].
  destruct (existsb _ table) eqn:Htaken; [done|].
  intros _. apply Forall_forall. intros u Hu Hname.
  assert (Hex : existsb (fun u => bool_decide (username u = new_username fields))
                        table = true).
  { apply existsb_exists. exists u. split; [by apply list_elem_of_In|].
    by apply bool_decide_eq_true. }
  congruence.
Qed.

Definition users_file (rows : list (list string)) : uploaded_file :=
  {| name := "users.csv";
     decoded :=
       Ok (map Ok (["first_name"; "last_name"; " Email"; "expiration_date"]
                   :: rows)) |}.

Definition three_rows : list (list string) :=
  [ ["Carol"; "Jones"; "carol@example.com"; "2030-01-01"];
    ["Dan"; "Brown"];
    ["Erin"; "Smith"; "erin.smith@example.com"; "2030-06-30"] ].

Definition same_local_part : list (list string) :=
  [ ["Carol"; "Jones"; "carol@example.com"; "2030-01-01"];
    ["Carol"; "White"; "carol@example.org"; "2030-06-30"] ].

Lemma generate_temp_password_alnum_witness :
  exists password,
    generate_temp_password sample_randbelow 6 0 = Ok password
    /\ String.length password = 6%nat
    /\ all_alnum password = true.
Proof.
  apply (generate_temp_password_alnum sample_randbelow 6 0).
  intros i n Hn. unfold sample_randbelow. apply Nat.mod_upper_bound. lia.
Defined.

Lemma mass_add_users_issues_credentials_witness :
  (let '(st', resp) :=
     mass_add_users sample_randbelow sample_create_user
       (MassPost (Some (users_file three_rows))) nobody_identified in
   session st' = session nobody_identified
   /\ match resp with
      | Attachment filename lines =>
          filename = "new_user_credentials.csv"
          /\ exists csv_file header rows issued_lines new,
               MassPost (Some (users_file three_rows))
               = MassPost (Some csv_file)
               /\ decoded csv_file = Ok (map Ok (header :: rows))
               /\ lines = credentials_header :: issued_lines
               /\ users st' = (users nobody_identified ++ new)%list
               /\ Forall3 issued (four_fields rows) issued_lines new
      | Page _ => users st' = users nobody_identified
      end)
  /\ (mass_add_users sample_randbelow sample_create_user
        (MassPost (Some (users_file three_rows))) nobody_identified).2
     = Attachment "new_user_credentials.csv"
         [ credentials_header;
           ["Carol"; "Jones"; "carol@example.com"; "carol"; "dkryFM"];
           ["Erin"; "Smith"; "erin.smith@example.com"; "erin.smith"; "T07els"] ].
Proof.
  split.
  - apply (mass_add_users_issues_credentials sample_randbelow sample_create_user
             (MassPost (Some (users_file three_rows))) nobody_identified
             sample_creates_account).
  - vm_compute. reflexivity.
Defined.

Lemma mass_add_users_username_clash_witness :
  let '(st', resp) :=
    mass_add_users sample_randbelow sample_create_user
      (MassPost (Some (users_file same_local_part))) nobody_identified in
  users st' = users nobody_identified /\ exists r, resp = Page r.
Proof.
  apply (mass_add_users_username_clash sample_randbelow sample_create_user
           (users_file same_local_part)
           ["first_name"; "last_name"; " Email"; "expiration_date"]
           same_local_part nobody_identified
           sample_creates_account sample_refuses_taken_username eq_refl).
  - apply (bool_decide_eq_true_1
             (NoDup (map username (users nobody_identified)))).
    vm_compute. reflexivity.
  - apply (bool_decide_eq_false_1
             (NoDup (map username (users nobody_identified)
                     ++ derived_usernames same_local_part))).
    vm_compute. reflexivity.
Defined.

End BulkUsersExamples.

(** ** criminals/forms.py: the form path of [add_criminal] *)

Module CriminalForms.

Definition OFFENSE_CHOICES : list (string * string) :=
  [ ("federal", "Federal"); ("virginia", "Virginia") ].

Definition OFFENSE_TYPES : list (string * string) :=
  [ ("Felony", "Felony"); ("Misdemeanor", "Misdemeanor");
    ("Infraction", "Infraction") ].

Inductive choice_error : Type :=
| RequiredChoice
| InvalidChoice (value : string).

(** [forms.ChoiceField(choices=choices).clean(value)]: the field is
    required, and a value that is not the key of one of the choices is
    refused. *)
Definition ChoiceField_clean (choices : list (string * string))
    (value : option string) : string + choice_error :=
  let v := default "" value in
  if bool_decide (v = "") then inr RequiredChoice
  else if existsb (fun choice : string * string => bool_decide (choice.1 = v))
                  choices
  then inl v
  else inr (InvalidChoice v).

(** [CriminalForm(request.POST).is_valid()], with the cleaned names: the
    form of the two columns [first_name] and [last_name], of at most 100
    characters. *)
Definition CriminalForm_clean (POST_ : gmap string string)
  : option (string * string) :=
  match CharField_clean "first_name" true true (Some 100) (POST_ !! "first_name"),
        CharField_clean "last_name" true true (Some 100) (POST_ !! "last_name")
  with
  | inl fn, inl ln => Some (fn, ln)
  | _, _ => None
  end.

(** The cleaned data of [CriminalOffenseForm] that the view reads. *)
Record offense_data : Type := {
  data_description : string;
  data_offense_source : string;
  data_offense_type : string;
  data_offense_class : string
}.

(** [CriminalOffenseForm(request.POST).is_valid()], with the cleaned data.
    The choices of [offense_class] are the empty list of the declaration
    (the page fills the options in the browser only). *)
Definition CriminalOffenseForm_clean (POST_ : gmap string string)
  : option offense_data :=
  match CharField_clean "first_name" true true (Some 100) (POST_ !! "first_name"),
        CharField_clean "last_name" true true (Some 100) (POST_ !! "last_name"),
        CharField_clean "description" true true None (POST_ !! "description"),
        ChoiceField_clean OFFENSE_CHOICES (POST_ !! "offense_source"),
        ChoiceField_clean OFFENSE_TYPES (POST_ !! "offense_type"),
        ChoiceField_clean [] (POST_ !! "offense_class")
  with
  | inl _, inl _, inl desc, inl src, inl otype, inl oclass =>
      Some {| data_description := desc; data_offense_source := src;
              data_offense_type := otype; data_offense_class := oclass |}
  | _, _, _, _, _, _ => None
  end.

(** The branch of [add_criminal] that a request takes:
    [request.method == "POST"], then
    [criminal_form.is_valid() and offense_form.is_valid()]. *)
Definition form_branch (http_method : method) (POST_ : gmap string string)
  : add_request :=
  match http_method with
  | POST =>
      match CriminalForm_clean POST_ with
      | Some (fn, ln) =>
          match CriminalOffenseForm_clean POST_ with
          | Some data =>
              AddPost {| form_first_name := fn; form_last_name := ln;
                         form_description := data_description data;
                         form_offense_source := data_offense_source data;
                         form_offense_type := data_offense_type data;
                         form_offense_class := data_offense_class data |}
          | None => AddPostInvalid
          end
      | None => AddPostInvalid
      end
  | GET => AddGet
  end.

End CriminalForms.
Import CriminalForms.

Section OffenseCreationPaths.

Lemma ChoiceField_clean_no_choice (value : option string) (v : string) :
  ChoiceField_clean [] value ≠ inl v.
Proof.
  unfold ChoiceField_clean. simpl.
  by destruct (bool_decide (default "" value = "")).
Qed.

Lemma CriminalOffenseForm_never_valid (POST_ : gmap string string) :
  CriminalOffenseForm_clean POST_ = None.
Proof.
  unfold CriminalOffenseForm_clean.
  pose proof (ChoiceField_clean_no_choice (POST_ !! "offense_class")) as Hclass.
  destruct (CharField_clean "first_name" _ _ _ _); [|done].
  destruct (CharField_clean "last_name" _ _ _ _); [|done].
  destruct (CharField_clean "description" _ _ _ _); [|done].
  destruct (ChoiceField_clean OFFENSE_CHOICES _); [|done].
  destruct (ChoiceField_clean OFFENSE_TYPES _); [|done].
  destruct (ChoiceField_clean [] _) as [oclass|]; [|done].
  by destruct (Hclass oclass).
Qed.

Lemma form_branch_POST (POST_ : gmap string string) :
  form_branch POST POST_ = AddPostInvalid.
Proof.
  unfold form_branch. destruct (CriminalForm_clean POST_) as [[fn ln]|]; [|done].
  by rewrite CriminalOffenseForm_never_valid.
Qed.

(** The POST of the repository's test of a valid offense form. *)
Definition jane_smith_post : gmap string string :=
  list_to_map
    [ ("first_name", "Jane"); ("last_name", "Smith");
      ("description", "Test offense description");
      ("offense_source", "federal"); ("offense_type", "Felony");
      ("offense_class", "A") ].

(** C3 (the code departs from it on the form path). Through the form nothing
    is created: [offense_class] is a choice field without choices, so the
    offense form is valid for no POST, and two POSTs to [add_criminal],
    whatever they carry, are both answered with the form page and the
    message "There were errors in the form." while the tables stay as they
    were: no offense row, no link. Through bulk import creation is
    idempotent as claimed: where a jurisdiction's table holds a (type,
    class, description) at most once, two rows of one import with that
    triple succeed and leave exactly one stored row with the triple,
    referenced by both new links. *)
Theorem offense_creation_bulk_only (is_federal : bool)
    (otype oclass desc : string) (w : world) :
  length (matching otype oclass desc (offense_table is_federal (store w))) <= 1 ->
  (forall POST1 POST2 : gmap string string,
     let '(w1, resp1) := add_criminal (form_branch POST POST1) w in
     let '(w2, resp2) := add_criminal (form_branch POST POST2) w1 in
     resp1 = Ok (Render "criminals/add_criminal.html")
     /\ resp2 = Ok (Render "criminals/add_criminal.html")
     /\ store w2 = store w
     /\ messages w2
        = (messages w ++ [ Msg ERROR "There were errors in the form.";
                           Msg ERROR "There were errors in the form." ])%list)
  /\
  (forall file row1 row2,
     well_headed file [Ok row1; Ok row2] ->
     row_has_triple is_federal otype oclass desc row1 ->
     row_has_triple is_federal otype oclass desc row2 ->
     exists w2,
       mass_add_criminals (MassPost (Some file)) w
       = (w2, Ok (Redirect "mass_add"))
       /\ share_one_row is_federal otype oclass desc (store w) (store w2)).
Proof.
  intros Hle. split.
  - intros POST1 POST2. rewrite !form_branch_POST.
    unfold add_criminal, bind, flash, ret. simpl.
    split; [done|]. split; [done|]. split; [done|].
    by rewrite <- app_assoc.
  - intros file row1 row2 Hfile
      (fn1 & ln1 & ty1 & cls1 & d1 & src1 & -> & Hf1 & Ht1 & Hc1 & Hd1)
      (fn2 & ln2 & ty2 & cls2 & d2 & src2 & -> & Hf2 & Ht2 & Hc2 & Hd2).
    rewrite (mass_add_criminals_run file _ w Hfile).
    simpl process_rows. unfold bind at 1.
    destruct (process_row_ok 2 fn1 ln1 ty1 cls1 d1 src1 loop_init w)
      as (w1 & who1 & o & l1 & -> & _ & Hm1 & Hl1 & _ & Hr1 & _).
    { discriminate. }
    { rewrite Hf1, Ht1, Hc1, Hd1. exact Hle. }
    rewrite Hf1, Ht1, Hc1, Hd1 in Hm1. rewrite Hf1 in Hr1.
    unfold bind at 1.
    match goal with
    | |- context [process_row 3 _ ?st1 w1] =>
        destruct (process_row_ok 3 fn2 ln2 ty2 cls2 d2 src2 st1 w1)
          as (w2 & who2 & o2 & l2 & -> & _ & Hm2 & Hl2 & _ & Hr2 & _ & Hex & _)
    end.
    { simpl. eauto. }
    { rewrite Hf2, Ht2, Hc2, Hd2, Hm1. simpl. lia. }
    rewrite Hf2, Ht2, Hc2, Hd2 in Hm2, Hex. rewrite Hf2 in Hr2.
    specialize (Hex o Hm1) as ->.
    unfold ret. eexists. split; [reflexivity|]. simpl.
    exists o, l1, l2. split; [done|]. split; [|done].
    rewrite Hl2, Hl1. by rewrite <- app_assoc.
Qed.

(** Jane Smith's federal felony, posted twice through the form and
    imported twice through a file, each on empty tables. *)
Lemma offense_creation_bulk_only_witness :
  (let '(w1, resp1) := add_criminal (form_branch POST jane_smith_post) empty_world in
   let '(w2, resp2) := add_criminal (form_branch POST jane_smith_post) w1 in
   resp1 = Ok (Render "criminals/add_criminal.html")
   /\ resp2 = Ok (Render "criminals/add_criminal.html")
   /\ store w2 = empty_db
   /\ messages w2 = [ Msg ERROR "There were errors in the form.";
                      Msg ERROR "There were errors in the form." ])
  /\ exists w2,
       mass_add_criminals (MassPost (Some two_bank_robberies)) empty_world
       = (w2, Ok (Redirect "mass_add"))
       /\ share_one_row true "Felony" "A" "Bank robbery" empty_db (store w2).
Proof.
  assert (Hle : length (matching "Felony" "A" "Bank robbery"
                          (offense_table true (store empty_world))) <= 1)
    by (simpl; lia).
  split.
  - exact (proj1 (offense_creation_bulk_only true "Felony" "A" "Bank robbery"
                    empty_world Hle) jane_smith_post jane_smith_post).
  - refine (proj2 (offense_creation_bulk_only true "Felony" "A" "Bank robbery"
                     empty_world Hle) two_bank_robberies _ _ _ _ _).
    + split; [discriminate|]. split; [reflexivity|].
      eexists. split; reflexivity.
    + eexists _, _, _, _, _, _. repeat split; reflexivity.
    + eexists _, _, _, _, _, _. repeat split; reflexivity.
Defined.

End OffenseCreationPaths.
